(** * MHWorldData: the build orchestrator, the dictionary utilities and the
    quest loader, embedded in Rocq.

    Sources embedded here:
    - [src/mhdata/util/__init__.py]: [ensure], [ensure_warn],
      [get_duplicates], [joindicts], [check_not_grouped], [group_fields],
      [ungroup_fields], [flatten_dict];
    - [src/build.py]: [validate_monster_rewards] and the family builders;
    - [src/mhdata/merge/binary/load/quest_bload.py]: [load_quests].

    Python values loaded from JSON are trees, so they are embedded as an
    inductive type; a Python [dict] keeps insertion order and is embedded as
    an association list with unique keys; a Python [set] is a [gset]. *)

From Stdlib Require Import ZArith String Ascii List DecimalString.
From stdpp Require Import base decidable option list gmap sets strings.

#[local] Set Warnings "-clear-no-such-hyp".

Local Open Scope Z_scope.
Local Open Scope string_scope.
Local Open Scope list_scope.

(** ** Python values *)

(** The values [json.load] produces. Numbers are integers: the sources never
    do arithmetic on anything but reward percentages, which the data files
    give as whole numbers. *)
#[warnings="-register-all"]
Inductive value : Type :=
| VNone
| VBool (b : bool)
| VNum (n : Z)
| VStr (s : string)
| VList (l : list value)
| VDict (d : list (string * value)).

(** A dict: the items in insertion order. *)
Abbreviation dict := (list (string * value)).

(** The exceptions the sources raise or let escape. *)
Inductive exn : Type :=
| Exception (msg : string)     (* raise Exception(msg) *)
| TypeError (msg : string)     (* raise TypeError(msg) *)
| KeyError (key : string)      (* d[key] or s.remove(key) on an absent key *)
| IndexError                   (* l[i] out of range *)
| BuiltinTypeError             (* an operation on a value of the wrong type *)
| AttributeError.              (* a method the value does not have *)

Inductive exc (A : Type) : Type :=
| Ok (a : A)
| Raise (e : exn).
Arguments Ok {A} a.
Arguments Raise {A} e.

#[global] Instance exc_ret : MRet exc := fun A a => Ok a.
#[global] Instance exc_bind : MBind exc := fun A B k r =>
  match r with
  | Ok a => k a
  | Raise e => Raise e
  end.

Definition is_ok {A} (r : exc A) : bool :=
  match r with Ok _ => true | Raise _ => false end.

(** Python's notion of truth, as [if x], [not x] and [x or y] use it. *)
Definition truthy (v : value) : bool :=
  match v with
  | VNone => false
  | VBool b => b
  | VNum n => negb (n =? 0)%Z
  | VStr s => negb (String.eqb s "")
  | VList l => match l with [] => false | _ => true end
  | VDict d => match d with [] => false | _ => true end
  end.

(** [a or b]. *)
Definition py_or (a b : value) : value := if truthy a then a else b.

(** ** Dict primitives *)

(** [d.get(key)], [None] when the key is absent. *)
Fixpoint dict_get (d : dict) (key : string) : option value :=
  match d with
  | [] => None
  | (k, v) :: rest => if String.eqb k key then Some v else dict_get rest key
  end.

(** [key in d]. *)
Definition dict_mem (d : dict) (key : string) : bool :=
  match dict_get d key with Some _ => true | None => false end.

(** [d[key] = v]: an existing key keeps its position, a new key goes last. *)
Fixpoint dict_set (d : dict) (key : string) (v : value) : dict :=
  match d with
  | [] => [(key, v)]
  | (k, w) :: rest =>
      if String.eqb k key then (k, v) :: rest else (k, w) :: dict_set rest key v
  end.

(** [d[key]], raising [KeyError] on an absent key. *)
Definition dict_item (d : dict) (key : string) : exc value :=
  match dict_get d key with
  | Some v => Ok v
  | None => Raise (KeyError key)
  end.

(** [d.get(key, default)]. *)
Definition dict_get_default (d : dict) (key : string) (default : value) : value :=
  match dict_get d key with
  | Some v => v
  | None => default
  end.

Definition keys (d : dict) : list string := map fst d.

(** ** typecheck *)

(** The module [mhdata.typecheck] is not part of the sources; the spec gives
    its three pure predicates. *)
Module typecheck.

(** Modelled from the spec: [is_dict], missing from the sources, answers
    whether the value is a mapping. *)
Definition is_dict (v : value) : bool :=
  match v with VDict _ => true | _ => false end.

(** Modelled from the spec: [is_list], missing from the sources, answers
    whether the value is an ordered sequence that is not a string. *)
Definition is_list (v : value) : bool :=
  match v with VList _ => true | _ => false end.

(** Modelled from the spec: [is_scalar], missing from the sources, answers
    whether the value is a string, a number, a boolean or no-value. *)
Definition is_scalar (v : value) : bool :=
  match v with
  | VNone | VBool _ | VNum _ | VStr _ => true
  | VList _ | VDict _ => false
  end.

End typecheck.

(** ** ensure, get_duplicates *)

(** [ensure(field, error_message)] on an already evaluated truth value. *)
Definition ensure (field : bool) (error_message : string) : exc unit :=
  if field then Ok tt else Raise (Exception ("ERROR: " +:+ error_message)).

Section GetDuplicates.
Context {A : Type} `{!EqDecision A, !Countable A}.

(** The loop of [get_duplicates], with its two local variables. *)
Fixpoint get_duplicates_loop (seen : gset A) (duplicates : list A)
    (iterable : list A) : list A :=
  match iterable with
  | [] => duplicates
  | item :: rest =>
      if decide (item ∈ seen)
      then get_duplicates_loop seen (duplicates ++ [item]) rest
      else get_duplicates_loop ({[item]} ∪ seen) duplicates rest
  end.

Definition get_duplicates (iterable : list A) : list A :=
  get_duplicates_loop ∅ [] iterable.

End GetDuplicates.

(** ** Strings *)

(** [str(n)] for a non-negative index and for an integer. *)
Definition str_of_nat (n : nat) : string := NilEmpty.string_of_uint (Nat.to_uint n).
Definition str_of_Z (n : Z) : string := NilZero.string_of_int (Z.to_int n).

(** [str(type(v))]. *)
Definition py_type_name (v : value) : string :=
  match v with
  | VNone => "<class 'NoneType'>"
  | VBool _ => "<class 'bool'>"
  | VNum _ => "<class 'int'>"
  | VStr _ => "<class 'str'>"
  | VList _ => "<class 'list'>"
  | VDict _ => "<class 'dict'>"
  end.

(** [s.startswith(p)]. *)
Fixpoint startswith (s p : string) : bool :=
  match p, s with
  | EmptyString, _ => true
  | String c p', String d s' => if Ascii.eqb c d then startswith s' p' else false
  | String _ _, EmptyString => false
  end.

(** [s[n:]]. *)
Fixpoint str_drop (n : nat) (s : string) : string :=
  match n, s with
  | O, _ => s
  | S n', String _ s' => str_drop n' s'
  | S _, EmptyString => EmptyString
  end.

(** [sep.join(l)]. *)
Fixpoint str_join (sep : string) (l : list string) : string :=
  match l with
  | [] => ""
  | [s] => s
  | s :: rest => s +:+ sep +:+ str_join sep rest
  end.

(** ** flatten_dict *)

(** [flatten_dict(d, prefix, result)]. The [result] dict is created by the
    outermost call and handed down; every call returns it, so it is threaded
    through as state. *)
Fixpoint flatten_dict (d : value) (prefix : string) (result : dict) : exc dict :=
  match d with
  | VDict items =>
      let prefix := if truthy (VStr prefix) then prefix +:+ "/" else prefix in
      (fix loop (items : dict) (result : dict) : exc dict :=
         match items with
         | [] => Ok result
         | (key, value) :: rest =>
             if typecheck.is_scalar value
             then loop rest (dict_set result (prefix +:+ key) value)
             else result ← flatten_dict value (prefix +:+ key) result;
                  loop rest result
         end) items result
  | VList elems =>
      (fix loop (idx : nat) (elems : list value) (result : dict) : exc dict :=
         match elems with
         | [] => Ok result
         | value :: rest =>
             let here := prefix +:+ "[" +:+ str_of_nat idx +:+ "]" in
             if typecheck.is_scalar value
             then loop (S idx) rest (dict_set result here value)
             else result ← flatten_dict value here result;
                  loop (S idx) rest result
         end) 0%nat elems result
  | _ => Raise (Exception ("Unsupported type " +:+ py_type_name d))
  end.

(** ** str and repr *)

(** [repr] of a [str] picks its quotes and escapes from the characters of the
    string; that builtin is left abstract. Everything else [str] and [repr]
    do on the values above is written out. *)
Class Builtins := { repr_str : string -> string }.

Section Str.
Context `{Builtins}.

(** [repr(v)]. *)
Fixpoint py_repr (v : value) : string :=
  match v with
  | VNone => "None"
  | VBool b => if b then "True" else "False"
  | VNum n => str_of_Z n
  | VStr s => repr_str s
  | VList l => "[" +:+ str_join ", " (map py_repr l) +:+ "]"
  | VDict d =>
      "{" +:+
      str_join ", "
        (map (fun kv => let '(k, x) := kv in repr_str k +:+ ": " +:+ py_repr x) d)
      +:+ "}"
  end.

(** [str(v)], which is what an f-string interpolates. *)
Definition py_str (v : value) : string :=
  match v with
  | VStr s => s
  | _ => py_repr v
  end.

End Str.

(** [a == b]. A bool compares as the integer it is; dicts compare without
    regard to order. *)
Fixpoint py_eq (a b : value) : bool :=
  match a, b with
  | VNone, VNone => true
  | VBool x, VBool y => Bool.eqb x y
  | VBool x, VNum n => (Z.b2z x =? n)%Z
  | VNum n, VBool x => (n =? Z.b2z x)%Z
  | VNum m, VNum n => (m =? n)%Z
  | VStr s, VStr t => String.eqb s t
  | VList l, VList l' =>
      (fix go (l : list value) (l' : list value) : bool :=
         match l, l' with
         | [], [] => true
         | x :: l, y :: l' => py_eq x y && go l l'
         | _, _ => false
         end) l l'
  | VDict d, VDict d' =>
      (length d =? length d')%nat &&
      (fix go (d : dict) : bool :=
         match d with
         | [] => true
         | (k, x) :: rest =>
             match dict_get d' k with
             | Some y => py_eq x y
             | None => false
             end && go rest
         end) d
  | _, _ => false
  end.

(** ** joindicts *)

Section Joindicts.
Context `{Builtins}.

(** The message of the collision error. *)
Definition collision_message (path : string) (value existing_value : value) : string :=
  "Failed to merge dictionaries: " +:+
  "unresolved collision and mismatch on key '" +:+ path +:+ "', " +:+
  py_str value +:+ " into " +:+ py_str existing_value.

(** One turn of the outer loop of [joindicts]: the items of [inputdict] are
    merged into [dest]. The recursive call of the source, on the two colliding
    dicts, is a call with a single input dict, hence this function again.

    The source updates [dest] in place and returns it; here the dict is
    passed in and the updated dict is returned. A value taken from an input
    dict becomes shared between that input and [dest], and a later merge
    under its key updates it in both; the input is not read again, so for
    arguments that are trees, as [json.load] builds them, the returned dict is
    the one computed here. *)
Fixpoint joindicts_into (inputdict : value) (dest : dict) (prefix : string)
    {struct inputdict} : exc dict :=
  match inputdict with
  | VDict items =>
      (fix loop (items : dict) (result : dict) : exc dict :=
         match items with
         | [] => Ok result
         | (key, value) :: rest =>
             match dict_get result key with
             | None => loop rest (dict_set result key value)
             | Some existing_value =>
                 match existing_value, value with
                 | VDict existing, VDict _ =>
                     merged ← joindicts_into value existing (prefix +:+ key +:+ ".");
                     loop rest (dict_set result key (VDict merged))
                 | VList existing, VList added =>
                     loop rest (dict_set result key (VList (existing ++ added)))
                 | _, _ =>
                     if negb (py_eq existing_value value)
                     then Raise (Exception
                                   (collision_message (prefix +:+ key) value existing_value))
                     else loop rest result
                 end
             end
         end) items dest
  | _ => Raise AttributeError
  end.

(** [joindicts(dest, *dictlist, prefix=prefix)]. *)
Fixpoint joindicts (dest : dict) (dictlist : list value) (prefix : string) : exc dict :=
  match dictlist with
  | [] => Ok dest
  | inputdict :: rest =>
      result ← joindicts_into inputdict dest prefix;
      joindicts result rest prefix
  end.

End Joindicts.

(** ** check_not_grouped, group_fields, ungroup_fields *)

(** [group in obj] for a group name that may be any value: the keys of [obj]
    are strings, and a list or a dict cannot be hashed. *)
Definition value_in_dict (group : value) (obj : dict) : exc bool :=
  match group with
  | VStr s => Ok (dict_mem obj s)
  | VList _ | VDict _ => Raise BuiltinTypeError
  | _ => Ok false
  end.

(** [isinstance(obj[group], Mapping)], evaluated when [group in obj]. *)
Definition is_mapping_at (obj : dict) (group : value) : bool :=
  match group with
  | VStr s => match dict_get obj s with
              | Some v => typecheck.is_dict v
              | None => false
              end
  | _ => false
  end.

Fixpoint check_not_grouped (obj : dict) (groups : list value) : exc (list value) :=
  match groups with
  | [] => Ok []
  | group :: rest =>
      present ← value_in_dict group obj;
      results ← check_not_grouped obj rest;
      if present && is_mapping_at obj group
      then Ok results
      else Ok (group :: results)
  end.

(** [list(filter(lambda g: key.startswith(g+'_'), groups))]. *)
Fixpoint group_results_of (key : string) (groups : list value) : exc (list string) :=
  match groups with
  | [] => Ok []
  | VStr g :: rest =>
      found ← group_results_of key rest;
      if startswith key (g +:+ "_") then Ok (g :: found) else Ok found
  | _ :: _ => Raise BuiltinTypeError
  end.

(** [group = result.setdefault(group_name, {}); group[subkey] = value]. *)
Definition setdefault_assign (result : dict) (group_name subkey : string)
    (value : value) : exc dict :=
  match dict_get result group_name with
  | None => Ok (dict_set result group_name (VDict [(subkey, value)]))
  | Some (VDict group) =>
      Ok (dict_set result group_name (VDict (dict_set group subkey value)))
  | Some _ => Raise BuiltinTypeError
  end.

Fixpoint group_fields_loop (groups : list value) (items : dict) (result : dict)
    : exc dict :=
  match items with
  | [] => Ok result
  | (key, value) :: rest =>
      group_results ← group_results_of key groups;
      match group_results with
      | [] => group_fields_loop groups rest (dict_set result key value)
      | group_name :: _ =>
          let subkey := str_drop (String.length group_name + 1) key in
          result ← setdefault_assign result group_name subkey value;
          group_fields_loop groups rest result
      end
  end.

Definition group_fields (obj : dict) (groups : value) : exc dict :=
  match groups with
  | VList groups =>
      groups ← check_not_grouped obj groups;
      group_fields_loop groups obj []
  | _ => Raise (TypeError "groups needs to be a list or tuple")
  end.

(** [key in groups], for a list of groups. *)
Definition key_in_groups (key : string) (groups : list value) : bool :=
  existsb (fun g => py_eq g (VStr key)) groups.

(** The inner loop of [ungroup_fields]. *)
Fixpoint ungroup_items (key : string) (items : dict) (result : dict) : dict :=
  match items with
  | [] => result
  | (subkey, subvalue) :: rest =>
      ungroup_items key rest (dict_set result (key +:+ "_" +:+ subkey) subvalue)
  end.

Fixpoint ungroup_fields_loop (groups : list value) (items : dict) (result : dict)
    : exc dict :=
  match items with
  | [] => Ok result
  | (key, value) :: rest =>
      if negb (key_in_groups key groups)
      then ungroup_fields_loop groups rest (dict_set result key value)
      else match value with
           | VDict sub => ungroup_fields_loop groups rest (ungroup_items key sub result)
           | _ => Raise AttributeError
           end
  end.

Definition ungroup_fields (obj : dict) (groups : list value) : exc dict :=
  ungroup_fields_loop groups obj [].

(** ** extract_fields *)

(** The loop of [extract_fields], with its local variable [result]. *)
Fixpoint extract_fields_loop (obj : dict) (fieldnames : list string) (result : dict)
    : dict :=
  match fieldnames with
  | [] => result
  | fieldname :: rest =>
      if negb (dict_mem obj fieldname)
      then extract_fields_loop obj rest result
      else
        match dict_get obj fieldname with
        | Some v => extract_fields_loop obj rest (dict_set result fieldname v)
        | None => extract_fields_loop obj rest result
        end
  end.

(** [extract_fields(obj, *fieldnames)]. *)
Definition extract_fields (obj : dict) (fieldnames : list string) : dict :=
  extract_fields_loop obj fieldnames [].

(** ** Operations of the interpreter on values *)

(** [v[key]] for a string key. *)
Definition getitem (v : value) (key : string) : exc value :=
  match v with
  | VDict d => dict_item d key
  | _ => Raise BuiltinTypeError
  end.

(** [v[i]] for a non-negative integer. *)
Definition getindex (v : value) (i : nat) : exc value :=
  match v with
  | VList l => match l !! i with
               | Some x => Ok x
               | None => Raise IndexError
               end
  | VStr s => match String.get i s with
              | Some c => Ok (VStr (String c EmptyString))
              | None => Raise IndexError
              end
  | VDict _ => Raise (KeyError (str_of_nat i))
  | _ => Raise BuiltinTypeError
  end.

(** [v.get(key, default)]. *)
Definition py_get (v : value) (key : string) (default : value) : exc value :=
  match v with
  | VDict d => Ok (dict_get_default d key default)
  | _ => Raise AttributeError
  end.

(** [v.items()]. *)
Definition py_items (v : value) : exc dict :=
  match v with
  | VDict d => Ok d
  | _ => Raise AttributeError
  end.

(** The elements [for x in v] goes through. *)
Definition py_iter (v : value) : exc (list value) :=
  match v with
  | VList l => Ok l
  | VDict d => Ok (map VStr (keys d))
  | VStr s => Ok (map (fun c => VStr (String c EmptyString)) (list_ascii_of_string s))
  | _ => Raise BuiltinTypeError
  end.

(** [acc + v] for an integer [acc]. *)
Definition py_add (acc : Z) (v : value) : exc Z :=
  match v with
  | VNum n => Ok (acc + n)%Z
  | VBool b => Ok (acc + Z.b2z b)%Z
  | _ => Raise BuiltinTypeError
  end.

(** A value used where the data files hold a string. *)
Definition as_str (v : value) : exc string :=
  match v with
  | VStr s => Ok s
  | _ => Raise BuiltinTypeError
  end.

(** ** The console, the session and the loops *)

(** A row handed to the persistence layer: the class it was built from, its
    attributes, and the rows appended to its collections, in order. *)
Inductive row : Type :=
| Row (table : string) (attrs : dict) (children : list (string * row)).

Definition set_attr (r : row) (name : string) (v : value) : row :=
  let '(Row table attrs children) := r in Row table (dict_set attrs name v) children.

Definition get_attr (r : row) (name : string) : option value :=
  let '(Row _ attrs _) := r in dict_get attrs name.

(** [r.collection.append(child)]. *)
Definition append_child (r : row) (collection : string) (child : row) : row :=
  let '(Row table attrs children) := r in
  Row table attrs (children ++ [(collection, child)]).

(** What a run has printed and what it has added to the session. *)
Record world : Type := World { stdout : list string; session : list row }.

(** A computation that prints, adds rows, and returns or raises. What was
    printed before an exception stays printed. *)
Definition M (A : Type) : Type := world -> exc A * world.

#[global] Instance M_ret : MRet M := fun A a w => (Ok a, w).
#[global] Instance M_bind : MBind M := fun A B k m w =>
  match m w with
  | (Ok a, w') => k a w'
  | (Raise e, w') => (Raise e, w')
  end.

Definition lift {A} (r : exc A) : M A := fun w => (r, w).

Definition print (line : string) : M unit := fun w =>
  (Ok tt, World (stdout w ++ [line]) (session w)).

(** [session.add(r)]. *)
Definition session_add (r : row) : M unit := fun w =>
  (Ok tt, World (stdout w) (session w ++ [r])).

(** [ensure_warn(field, error_message)] on an already evaluated truth
    value. *)
Definition ensure_warn (field : bool) (error_message : string) : M unit :=
  if field then mret tt else print ("WARNING: " +:+ error_message).

(** [for x in l: body x]. *)
Fixpoint for_each {A} (l : list A) (body : A -> M unit) : M unit :=
  match l with
  | [] => mret tt
  | x :: rest => body x ≫= fun _ => for_each rest body
  end.

(** A loop that updates a local variable: [for x in l: acc = step acc x]. *)
Fixpoint fold_exc {S A} (step : S -> A -> exc S) (acc : S) (l : list A) : exc S :=
  match l with
  | [] => Ok acc
  | x :: rest => step acc x ≫= fun acc => fold_exc step acc rest
  end.

(** [[f x for x in l]]. *)
Fixpoint map_exc {A B} (f : A -> exc B) (l : list A) : exc (list B) :=
  match l with
  | [] => Ok []
  | x :: rest => y ← f x; ys ← map_exc f rest; Ok (y :: ys)
  end.

(** ** The data reader *)

(** Modelled from the spec: the data reader and its entity maps are missing
    from the sources. An entity map goes through its entries in file order;
    an entry has an id, a name per language, and is a mapping of its fields. *)
Record DataRow : Type := {
  row_id : Z;
  row_names : list (string * string);
  row_data : dict
}.

Abbreviation DataMap := (list DataRow).

Fixpoint names_get (names : list (string * string)) (lang : string) : option string :=
  match names with
  | [] => None
  | (l, n) :: rest => if String.eqb l lang then Some n else names_get rest lang
  end.

(** Modelled from the spec: [entry.name(language)], missing from the sources,
    fetches the display name of the entry in a language; every entry carries
    a name per language, and as for any mapping a missing one is a lookup
    error. *)
Definition row_name (entry : DataRow) (language : string) : exc string :=
  match names_get (row_names entry) language with
  | Some n => Ok n
  | None => Raise (KeyError language)
  end.

(** Modelled from the spec: [entry[key]], missing from the sources. An entry
    is a mapping: subscripting it with a key it does not have is a lookup
    error, which is why [build.py] reads its optional fields with
    [entry.get] and tests ["chances" in entry]. *)
Definition row_item (entry : DataRow) (key : string) : exc value :=
  dict_item (row_data entry) key.

(** Modelled from the spec: [entry.get(key, default)], missing from the
    sources, as for any mapping. *)
Definition row_get (entry : DataRow) (key : string) (default : value) : value :=
  dict_get_default (row_data entry) key default.

Definition has_name (language name : string) (entry : DataRow) : bool :=
  match names_get (row_names entry) language with
  | Some n => String.eqb n name
  | None => false
  end.

(** Modelled from the spec: [m.id_of(language, name)], missing from the
    sources, resolves a display name to the id of its entry, and answers
    no-value, without raising, when no entry has that name. *)
Definition id_of (m : DataMap) (language : string) (name : value) : option Z :=
  match name with
  | VStr s => row_id <$> List.find (has_name language s) m
  | _ => None
  end.

(** An id as a truth value: no-value and 0 are false. *)
Definition truthy_id (id : option Z) : bool :=
  match id with
  | Some z => negb (z =? 0)%Z
  | None => false
  end.

Definition id_value (id : option Z) : value :=
  match id with
  | Some z => VNum z
  | None => VNone
  end.

(** ** build.py *)

Definition supported_ranks : list string := ["lr"; "hr"].
Definition supported_languages : list string := ["en"].

(** The entity maps [build.py] loads when it is imported, and the weapon
    detail map [build_weapons] loads with [load_split_data_map]. *)
Record Data : Type := {
  location_map : DataMap;
  item_map : DataMap;
  skill_map : DataMap;
  charm_map : DataMap;
  monster_map : DataMap;
  armor_map : DataMap;
  armorset_map : DataMap;
  weapon_map : DataMap;
  decoration_map : DataMap;
  weapon_data : DataMap
}.

Definition single_drop_conditions : list string :=
  ["Body Carve"; "Tail Carve"; "Shiny Drop"; "Capture"].

(** [sum((r['percentage'] for r in rewards), 0)]. *)
Definition percentage_sum_of (rewards : list value) : exc Z :=
  fold_exc (fun acc r => p ← getitem r "percentage"; py_add acc p) 0%Z rewards.

(** The item names [get_duplicates] is given. They are strings in the data
    files; a name of another type is refused here. *)
Definition reward_names (rewards : list value) : exc (list string) :=
  map_exc (fun r => name ← getitem r "item_en"; as_str name) rewards.

(** The f-string of line 54. *)
Definition error_start (monster_name rank condition : string) : string :=
  "Rewards %'s for monster " +:+ monster_name +:+
  " (rank " +:+ rank +:+ " condition " +:+ condition +:+ ")".

(** The f-strings of lines 63 to 65. *)
Definition duplicates_message (monster_name : string) (duplicates : list string)
    (rank condition : string) : string :=
  ("Monster " +:+ monster_name +:+ " contains ") +:+
  ("duplicate rewards " +:+ str_join "," duplicates +:+ " in rank " +:+ rank +:+ " ") +:+
  ("for condition " +:+ condition).

(** The checks on one group of rewards, after the rank was checked: lines 52
    to 65 of [build.py]. *)
Definition check_rewards (monster_name condition rank : string) (rewards : value)
    : M unit :=
  rewards ← lift (py_iter rewards);
  percentage_sum ← lift (percentage_sum_of rewards);
  let error_start := error_start monster_name rank condition in
  (if bool_decide (condition ∈ single_drop_conditions)
   then ensure_warn (percentage_sum =? 100)%Z (error_start +:+ " does not sum to 100")
   else ensure_warn (100 <=? percentage_sum)%Z
          (error_start +:+ " does not sum to at least 100")) ≫= fun _ =>
  if bool_decide (condition ∈ single_drop_conditions)
  then
    names ← lift (reward_names rewards);
    let duplicates := get_duplicates names in
    ensure_warn (match duplicates with [] => true | _ => false end)
      (duplicates_message monster_name duplicates rank condition)
  else mret tt.

(** The body of the innermost loop of [validate_monster_rewards]. *)
Definition validate_rank_group (monster_name condition rank : string)
    (rewards : value) : M unit :=
  lift (ensure (bool_decide (rank ∈ supported_ranks))
          ("Unsupported rank " +:+ rank +:+ " in " +:+ monster_name +:+ " rewards"))
    ≫= fun _ =>
  check_rewards monster_name condition rank rewards.

Definition validate_monster (entry : DataRow) : M unit :=
  monster_name ← lift (row_name entry "en");
  conditions ← lift (py_items (row_get entry "rewards" (VDict [])));
  for_each conditions (fun '(condition, sub_condition) =>
    ranks ← lift (py_items sub_condition);
    for_each ranks (fun '(rank, rewards) =>
      validate_rank_group monster_name condition rank rewards)).

Definition validate_monster_rewards (data : Data) : M unit :=
  for_each (monster_map data) validate_monster.

Section Builders.
Context `{Builtins}.
Variable data : Data.

(** [db.X(name=value, ...)]: a new row of class [X]. *)
Definition new_row (table : string) (attrs : dict) : row := Row table attrs [].

Definition location_row (entry : DataRow) (language : string) : exc row :=
  name ← row_name entry language;
  Ok (new_row "Location"
        [("id", VNum (row_id entry)); ("lang_id", VStr language); ("name", VStr name)]).

Definition build_locations : M unit :=
  for_each (location_map data) (fun entry =>
    for_each supported_languages (fun language =>
      r ← lift (location_row entry language); session_add r)).

(** [db.MonsterHitzone(body_part=body_part, **values)]. *)
Definition hitzone_row (body_part : string) (values : value) : exc row :=
  match values with
  | VDict values =>
      if dict_mem values "body_part"
      then Raise BuiltinTypeError
      else Ok (new_row "MonsterHitzone" (("body_part", VStr body_part) :: values))
  | _ => Raise BuiltinTypeError
  end.

Definition monster_reward (monster_name condition rank : string) (monster : row)
    (reward : value) : exc row :=
  item_name ← getitem reward "item_en";
  let item_id := id_of (item_map data) "en" item_name in
  ensure (truthy_id item_id)
    ("ERROR: item reward " +:+ py_str item_name +:+ " in monster " +:+
     monster_name +:+ " does not exist") ≫= fun _ =>
  stack ← getitem reward "stack";
  percentage ← getitem reward "percentage";
  Ok (append_child monster "rewards"
        (new_row "MonsterReward"
           [("condition", VStr condition); ("rank", VStr rank);
            ("item_id", id_value item_id); ("stack_size", stack);
            ("percentage", percentage)])).

Definition monster_habitat (monster : row) (habitat : string * value) : exc row :=
  let '(location_name, habitat_values) := habitat in
  let location_id := id_of (location_map data) "en" (VStr location_name) in
  ensure (truthy_id location_id) ("Invalid location name " +:+ location_name)
    ≫= fun _ =>
  start_area ← getitem habitat_values "start_area";
  move_area ← getitem habitat_values "move_area";
  rest_area ← getitem habitat_values "rest_area";
  Ok (append_child monster "habitats"
        (new_row "MonsterHabitat"
           [("location_id", id_value location_id);
            ("start_area", py_or start_area VNone);
            ("move_area", py_or move_area VNone);
            ("rest_area", py_or rest_area VNone)])).

Definition monster_row (entry : DataRow) : exc row :=
  monster_name ← row_name entry "en";
  let monster := new_row "Monster" [("id", VNum (row_id entry))] in
  size ← row_item entry "size";
  let monster := set_attr monster "size" size in
  monster ← fold_exc (fun monster language =>
      name ← row_name entry language;
      descriptions ← row_item entry "description";
      description ← getitem descriptions language;
      Ok (append_child monster "translations"
            (new_row "MonsterText"
               [("lang_id", VStr language); ("name", VStr name);
                ("description", description)])))
    monster supported_languages;
  hitzones ← row_item entry "hitzones";
  hitzones ← py_items hitzones;
  monster ← fold_exc (fun monster '(body_part, values) =>
      hitzone ← hitzone_row body_part values;
      Ok (append_child monster "hitzones" hitzone))
    monster hitzones;
  conditions ← py_items (row_get entry "rewards" (VDict []));
  monster ← fold_exc (fun monster '(condition, sub_condition) =>
      ranks ← py_items sub_condition;
      fold_exc (fun monster '(rank, rewards) =>
          rewards ← py_iter rewards;
          fold_exc (monster_reward monster_name condition rank) monster rewards)
        monster ranks)
    monster conditions;
  habitats ← py_items (row_get entry "habitats" (VDict []));
  fold_exc monster_habitat monster habitats.

Definition build_monsters : M unit :=
  for_each (monster_map data) (fun entry =>
    monster ← lift (monster_row entry); session_add monster) ≫= fun _ =>
  print "Built Monsters".

Definition skill_row (entry : DataRow) : exc row :=
  let skilltree := new_row "SkillTree" [("id", VNum (row_id entry))] in
  fold_exc (fun skilltree language =>
      name ← row_name entry language;
      descriptions ← row_item entry "description";
      description ← getitem descriptions language;
      let skilltree :=
        append_child skilltree "translations"
          (new_row "SkillTreeText"
             [("lang_id", VStr language); ("name", VStr name);
              ("description", description)]) in
      effects ← row_item entry "effects";
      effects ← py_iter effects;
      fold_exc (fun skilltree effect =>
          level ← getitem effect "level";
          descriptions ← getitem effect "description";
          description ← getitem descriptions language;
          Ok (append_child skilltree "skills"
                (new_row "Skill"
                   [("lang_id", VStr language); ("level", level);
                    ("description", description)])))
        skilltree effects)
    skilltree supported_languages.

Definition build_skills : M unit :=
  for_each (skill_map data) (fun entry =>
    skilltree ← lift (skill_row entry); session_add skilltree) ≫= fun _ =>
  print "Built Skills".

Definition item_row (entry : DataRow) : exc row :=
  let item := new_row "Item" [("id", VNum (row_id entry))] in
  rarity ← row_item entry "rarity";
  let item := set_attr item "rarity" (py_or rarity (VNum 0)) in
  buy_price ← row_item entry "buy_price";
  let item := set_attr item "buy_price" (py_or buy_price (VNum 0)) in
  sell_price ← row_item entry "sell_price";
  let item := set_attr item "sell_price" (py_or sell_price (VNum 0)) in
  carry_limit ← row_item entry "carry_limit";
  let item := set_attr item "carry_limit" (py_or carry_limit (VNum 0)) in
  fold_exc (fun item language =>
      name ← row_name entry language;
      descriptions ← row_item entry "description";
      description ← py_get descriptions language VNone;
      Ok (append_child item "translations"
            (new_row "ItemText"
               [("lang_id", VStr language); ("name", VStr name);
                ("description", description)])))
    item supported_languages.

Definition build_items : M unit :=
  for_each (item_map data) (fun entry =>
    item ← lift (item_row entry); session_add item) ≫= fun _ =>
  print "Built Items".


Definition armorset_row (entry : DataRow) : exc row :=
  let armor_set := new_row "ArmorSet" [("id", VNum (row_id entry))] in
  fold_exc (fun armor_set language =>
      name ← row_name entry language;
      Ok (append_child armor_set "translations"
            (new_row "ArmorSetText" [("lang_id", VStr language); ("name", VStr name)])))
    armor_set supported_languages.

Definition armor_skill (armor_name_en : string) (armor : row)
    (skill_level : string * value) : exc row :=
  let '(skill, level) := skill_level in
  let skill_id := id_of (skill_map data) "en" (VStr skill) in
  ensure (truthy_id skill_id)
    ("Skill " +:+ skill +:+ " in Armor " +:+ armor_name_en +:+ " does not exist")
    ≫= fun _ =>
  Ok (append_child armor "skills"
        (new_row "ArmorSkill" [("skilltree_id", id_value skill_id); ("level", level)])).

Definition armor_recipe (armor_name_en : string) (armor : row)
    (item_quantity : string * value) : exc row :=
  let '(item, quantity) := item_quantity in
  let item_id := id_of (item_map data) "en" (VStr item) in
  ensure (truthy_id item_id)
    ("Item " +:+ item +:+ " in Armor " +:+ armor_name_en +:+ " does not exist")
    ≫= fun _ =>
  Ok (append_child armor "craft_items"
        (new_row "ArmorRecipe" [("item_id", id_value item_id); ("quantity", quantity)])).

(** The attributes of an armor that are copied from the entry, lines 183 to
    197 of [build.py]. *)
Definition armor_attributes (entry : DataRow) (armor : row) : exc row :=
  rarity ← row_item entry "rarity";
  let armor := set_attr armor "rarity" rarity in
  armor_type ← row_item entry "armor_type";
  let armor := set_attr armor "armor_type" armor_type in
  male ← row_item entry "male";
  let armor := set_attr armor "male" male in
  female ← row_item entry "female";
  let armor := set_attr armor "female" female in
  slots ← row_item entry "slots"; slot_1 ← getindex slots 0;
  let armor := set_attr armor "slot_1" slot_1 in
  slots ← row_item entry "slots"; slot_2 ← getindex slots 1;
  let armor := set_attr armor "slot_2" slot_2 in
  slots ← row_item entry "slots"; slot_3 ← getindex slots 2;
  let armor := set_attr armor "slot_3" slot_3 in
  defense_base ← row_item entry "defense_base";
  let armor := set_attr armor "defense_base" defense_base in
  defense_max ← row_item entry "defense_max";
  let armor := set_attr armor "defense_max" defense_max in
  defense_augment_max ← row_item entry "defense_augment_max";
  let armor := set_attr armor "defense_augment_max" defense_augment_max in
  fire ← row_item entry "fire";
  let armor := set_attr armor "fire" fire in
  water ← row_item entry "water";
  let armor := set_attr armor "water" water in
  thunder ← row_item entry "thunder";
  let armor := set_attr armor "thunder" thunder in
  ice ← row_item entry "ice";
  let armor := set_attr armor "ice" ice in
  dragon ← row_item entry "dragon";
  Ok (set_attr armor "dragon" dragon).

(** The rest of the loop body of [build_armor], lines 199 to 227. *)
Definition armor_references (entry : DataRow) (armor_name_en : string)
    (armor : row) : exc row :=
  set_name ← row_item entry "set";
  let armorset_id := id_of (armorset_map data) "en" set_name in
  set_name ← row_item entry "set";
  ensure (truthy_id armorset_id)
    ("Armorset " +:+ py_str set_name +:+ " in Armor " +:+ armor_name_en +:+
     " does not exist") ≫= fun _ =>
  let armor := set_attr armor "armorset_id" (id_value armorset_id) in
  armor ← fold_exc (fun armor language =>
      name ← row_name entry language;
      Ok (append_child armor "translations"
            (new_row "ArmorText" [("lang_id", VStr language); ("name", VStr name)])))
    armor supported_languages;
  skills ← row_item entry "skills";
  skills ← py_items skills;
  armor ← fold_exc (armor_skill armor_name_en) armor skills;
  craft ← row_item entry "craft";
  craft ← py_items craft;
  fold_exc (armor_recipe armor_name_en) armor craft.

Definition armor_row (entry : DataRow) : exc row :=
  armor_name_en ← row_name entry "en";
  let armor := new_row "Armor" [("id", VNum (row_id entry))] in
  armor ← armor_attributes entry armor;
  armor_references entry armor_name_en armor.

Definition build_armor : M unit :=
  for_each (armorset_map data) (fun entry =>
    armor_set ← lift (armorset_row entry); session_add armor_set) ≫= fun _ =>
  for_each (armor_map data) (fun entry =>
    armor ← lift (armor_row entry); session_add armor) ≫= fun _ =>
  print "Built Armor".

(** [s.remove(x)]. *)
Definition set_remove (s : gset Z) (x : option Z) : exc (gset Z) :=
  match x with
  | Some z => if decide (z ∈ s) then Ok (s ∖ {[z]}) else Raise (KeyError (str_of_Z z))
  | None => Raise (KeyError "None")
  end.

(** One turn of the pre-pass of [build_weapons], lines 239 to 246. *)
Definition final_prepass_step (all_final : gset Z) (entry : DataRow)
    : exc (gset Z) :=
  if negb (truthy (row_get entry "previous" VNone))
  then Ok all_final
  else
    match (previous ← row_item entry "previous";
           let prev_id := id_of (weapon_map data) "en" previous in
           set_remove all_final prev_id) with
    | Ok all_final => Ok all_final
    | Raise (KeyError _) => Ok all_final
    | Raise e => Raise e
    end.

(** The pre-pass: the set [all_final] after the loop. *)
Definition final_prepass : exc (gset Z) :=
  fold_exc final_prepass_step (list_to_set (map row_id (weapon_data data)))
    (weapon_data data).

(** The attributes of a weapon that are copied from the entry, lines 250 to
    270 of [build.py]. *)
Definition weapon_attributes (all_final : gset Z) (entry : DataRow) (weapon : row)
    : exc row :=
  weapon_type ← row_item entry "weapon_type";
  let weapon := set_attr weapon "weapon_type" weapon_type in
  rarity ← row_item entry "rarity";
  let weapon := set_attr weapon "rarity" rarity in
  attack ← row_item entry "attack";
  let weapon := set_attr weapon "attack" attack in
  slots ← row_item entry "slots"; slot_1 ← getindex slots 0;
  let weapon := set_attr weapon "slot_1" slot_1 in
  slots ← row_item entry "slots"; slot_2 ← getindex slots 1;
  let weapon := set_attr weapon "slot_2" slot_2 in
  slots ← row_item entry "slots"; slot_3 ← getindex slots 2;
  let weapon := set_attr weapon "slot_3" slot_3 in
  element_type ← row_item entry "element_type";
  let weapon := set_attr weapon "element_type" element_type in
  element_damage ← row_item entry "element_damage";
  let weapon := set_attr weapon "element_damage" element_damage in
  element_hidden ← row_item entry "element_hidden";
  let weapon := set_attr weapon "element_hidden" element_hidden in
  let weapon :=
    set_attr weapon "glaive_boost_type" (row_get entry "glaive_boost_type" VNone) in
  let weapon := set_attr weapon "deviation" (row_get entry "deviation" VNone) in
  let weapon := set_attr weapon "special_ammo" (row_get entry "special_ammo" VNone) in
  let weapon :=
    set_attr weapon "craftable"
      (VBool (truthy (row_get entry "craft" (VBool false)))) in
  Ok (set_attr weapon "final" (VBool (bool_decide (row_id entry ∈ all_final)))).

(** Lines 272 to 275. *)
Definition weapon_previous (entry : DataRow) (weapon : row) : exc row :=
  if truthy (row_get entry "previous" VNone)
  then
    previous ← row_item entry "previous";
    let previous_weapon_id := id_of (weapon_map data) "en" previous in
    previous ← row_item entry "previous";
    ensure (truthy_id previous_weapon_id)
      ("Weapon " +:+ py_str previous +:+ " does not exist") ≫= fun _ =>
    Ok (set_attr weapon "previous_weapon_id" (id_value previous_weapon_id))
  else Ok weapon.

(** The body of the recipe loop, lines 288 to 295: its row goes to the
    session at once. *)
Definition weapon_recipe_item (entry : DataRow) (recipe_type : string)
    (item_quantity : string * value) : M unit :=
  let '(item, quantity) := item_quantity in
  let item_id := id_of (item_map data) "en" (VStr item) in
  name ← lift (row_name entry "en");
  lift (ensure (truthy_id item_id)
          ("Item " +:+ py_str (id_value item_id) +:+ " in weapon " +:+ name +:+
           " does not exist")) ≫= fun _ =>
  session_add
    (new_row "WeaponRecipe"
       [("weapon_id", VNum (row_id entry)); ("item_id", id_value item_id);
        ("quantity", quantity); ("recipe_type", VStr recipe_type)]).

(** The recipe loops, lines 285 to 295. *)
Definition weapon_recipes (entry : DataRow) : M unit :=
  for_each ["craft"; "upgrade"] (fun recipe_type =>
    recipe ← lift (py_items (py_or (row_get entry recipe_type (VDict [])) (VDict [])));
    for_each recipe (weapon_recipe_item entry recipe_type)).

Definition build_weapon (all_final : gset Z) (entry : DataRow) : M unit :=
  weapon ← lift (
    let weapon := new_row "Weapon" [("id", VNum (row_id entry))] in
    weapon ← weapon_attributes all_final entry weapon;
    weapon ← weapon_previous entry weapon;
    fold_exc (fun weapon language =>
        name ← row_name entry language;
        Ok (append_child weapon "translations"
              (new_row "WeaponText" [("lang_id", VStr language); ("name", VStr name)])))
      weapon supported_languages);
  weapon_recipes entry ≫= fun _ =>
  session_add weapon.

Definition build_weapons : M unit :=
  all_final ← lift final_prepass;
  for_each (weapon_data data) (build_weapon all_final) ≫= fun _ =>
  print "Built Weapons".

Definition decoration_row (entry : DataRow) : exc row :=
  skill_en ← row_item entry "skill_en";
  let skill_id := id_of (skill_map data) "en" skill_en in
  name ← row_name entry "en";
  skill_en ← row_item entry "skill_en";
  ensure (truthy_id skill_id)
    ("Decoration " +:+ name +:+ " refers to " +:+
     "skill " +:+ py_str skill_en +:+ ", which doesn't exist.") ≫= fun _ =>
  name ← row_name entry "en";
  ensure (dict_mem (row_data entry) "chances") ("Missing chance data for " +:+ name)
    ≫= fun _ =>
  rarity ← row_item entry "rarity";
  slot ← row_item entry "slot";
  chances ← row_item entry "chances";
  mysterious ← getitem chances "mysterious_feystone_chance";
  chances ← row_item entry "chances";
  glowing ← getitem chances "glowing_feystone_chance";
  chances ← row_item entry "chances";
  worn ← getitem chances "worn_feystone_chance";
  chances ← row_item entry "chances";
  warped ← getitem chances "warped_feystone_chance";
  let decoration :=
    new_row "Decoration"
      [("id", VNum (row_id entry)); ("rarity", rarity); ("slot", slot);
       ("skilltree_id", id_value skill_id);
       ("mysterious_feystone_chance", mysterious);
       ("glowing_feystone_chance", glowing);
       ("worn_feystone_chance", worn);
       ("warped_feystone_chance", warped)] in
  fold_exc (fun decoration language =>
      name ← row_name entry "en";
      Ok (append_child decoration "translations"
            (new_row "DecorationText" [("lang_id", VStr language); ("name", VStr name)])))
    decoration supported_languages.

Definition build_decorations : M unit :=
  for_each (decoration_map data) (fun entry =>
    decoration ← lift (decoration_row entry); session_add decoration) ≫= fun _ =>
  print "Built Decorations".

Definition charm_skill (entry : DataRow) (charm : row)
    (skill_level : string * value) : exc row :=
  let '(skill_en, level) := skill_level in
  let skill_id := id_of (skill_map data) "en" (VStr skill_en) in
  name ← row_name entry "en";
  ensure (truthy_id skill_id)
    ("Charm " +:+ name +:+ " refers to " +:+
     "item " +:+ skill_en +:+ ", which doesn't exist.") ≫= fun _ =>
  Ok (append_child charm "skills"
        (new_row "CharmSkill" [("skilltree_id", id_value skill_id); ("level", level)])).

Definition charm_recipe (entry : DataRow) (charm : row)
    (item_quantity : string * value) : exc row :=
  let '(item_en, quantity) := item_quantity in
  let item_id := id_of (item_map data) "en" (VStr item_en) in
  name ← row_name entry "en";
  ensure (truthy_id item_id)
    ("Charm " +:+ name +:+ " refers to " +:+
     "item " +:+ item_en +:+ ", which doesn't exist.") ≫= fun _ =>
  Ok (append_child charm "craft_items"
        (new_row "CharmRecipe" [("item_id", id_value item_id); ("quantity", quantity)])).

Definition charm_row (entry : DataRow) : exc row :=
  let charm := new_row "Charm" [("id", VNum (row_id entry))] in
  charm ← fold_exc (fun charm language =>
      name ← row_name entry language;
      Ok (append_child charm "translations"
            (new_row "CharmText" [("lang_id", VStr language); ("name", VStr name)])))
    charm supported_languages;
  skills ← row_item entry "skills";
  skills ← py_items skills;
  charm ← fold_exc (charm_skill entry) charm skills;
  craft ← row_item entry "craft";
  craft ← py_items craft;
  fold_exc (charm_recipe entry) charm craft.

Definition build_charms : M unit :=
  for_each (charm_map data) (fun entry =>
    charm ← lift (charm_row entry); session_add charm) ≫= fun _ =>
  print "Built Charms".

(** The builders in the order [build_database] calls them inside the session
    scope. *)
Definition build_all : M unit :=
  build_items ≫= fun _ =>
  build_locations ≫= fun _ =>
  build_monsters ≫= fun _ =>
  build_skills ≫= fun _ =>
  build_armor ≫= fun _ =>
  build_weapons ≫= fun _ =>
  build_decorations ≫= fun _ =>
  build_charms.

(** [build_database], on an interpreter that keeps dicts in insertion order
    (the warning for older interpreters is left out). *)
Definition build_database : M unit :=
  validate_monster_rewards data ≫= fun _ =>
  build_all ≫= fun _ =>
  print "Finished build".

End Builders.

(** Modelled from the spec: [recreate_database], missing from the sources,
    starts every build from an empty database and an empty session. *)
Definition run_build `{Builtins} (data : Data) : exc unit * world :=
  build_database data (World [] []).

(** Modelled from the spec: [session_scope], missing from the sources,
    commits the rows added to the session when its block returns and rolls
    them back when the block raises. *)
Definition database_after {A} (outcome : exc A * world) : list row :=
  match outcome with
  | (Ok _, w) => session w
  | (Raise _, _) => []
  end.

(** ** quest_bload.py *)

(** [s.replace(old, new)] for a non-empty [old]: the occurrences of [old] are
    replaced from left to right; [skip] counts the characters of an occurrence
    that are still to be dropped. *)
Fixpoint str_replace_from (old new : string) (skip : nat) (s : string) : string :=
  match s with
  | EmptyString => EmptyString
  | String c rest =>
      match skip with
      | S skip' => str_replace_from old new skip' rest
      | O =>
          if startswith s old
          then new +:+ str_replace_from old new (String.length old - 1) rest
          else String c (str_replace_from old new 0 rest)
      end
  end.

Definition str_replace (s old new : string) : string :=
  str_replace_from old new 0 s.

(** The asset tree and the binary parsers [load_quests] reads through:
    [pathlib], [bcore] and [mhdata.merge.binary.parsers] are not part of the
    sources, and the packed formats are opaque. *)
Class Assets : Type := {
  Path : Type;
  Mib : Type;
  RemFile : Type;
  (** [Path(get_chunk_root())] *)
  chunk_root : Path;
  (** [p.joinpath(name)] *)
  joinpath : Path -> string -> Path;
  (** [p.stem] *)
  stem : Path -> string;
  (** [p.exists()] *)
  path_exists : Path -> bool;
  (** [p.rglob(pattern)], in traversal order *)
  rglob : Path -> string -> list Path;
  (** [load_text(name)]: the text entries of a resource, each a mapping from
      language to text *)
  load_text : string -> exc (list value);
  (** [load_quest(path)] *)
  load_quest : Path -> exc Mib;
  (** [binary.objective_section.rem_ids] *)
  rem_ids : Mib -> list Z;
  (** [read_struct_from_file(path, RemFile)] *)
  read_rem_file : Path -> exc RemFile
}.

Section LoadQuests.
Context `{Assets}.

Record QuestInfo : Type := {
  name : value;
  binary : Mib;
  reward_data_list : list RemFile
}.

(** [name['en'] in ('Unavailable', 'Invalid Message')]. *)
Definition is_placeholder_name (en : value) : bool :=
  py_eq en (VStr "Unavailable") || py_eq en (VStr "Invalid Message").

(** The body of the loop of [load_quests]: the quest appended for [path], or
    none when the loop goes on to the next file. *)
Definition load_quest_at (rem_base_path path : Path) : exc (option QuestInfo) :=
  let quest_text_fname := str_replace (stem path) "questData_" "q" in
  quest_text ← load_text ("common/text/quest/" +:+ quest_text_fname);
  name ← getindex (VList quest_text) 0;
  en ← getitem name "en";
  if is_placeholder_name en
  then Ok None
  else
    binary ← load_quest path;
    let rem_ids := rem_ids binary in
    let rem_files :=
      map (fun rem_id => joinpath rem_base_path ("remData_" +:+ str_of_Z rem_id +:+ ".rem"))
        rem_ids in
    let rem_files := List.filter path_exists rem_files in
    rem_files ← map_exc read_rem_file rem_files;
    Ok (Some {| name := name; binary := binary; reward_data_list := rem_files |}).

Definition load_quests : exc (list QuestInfo) :=
  let quest_base_path := joinpath chunk_root "quest" in
  let rem_base_path := joinpath quest_base_path "rem" in
  let quest_files := rglob quest_base_path "*.mib" in
  fold_exc (fun quests path =>
      loaded ← load_quest_at rem_base_path path;
      match loaded with
      | Some quest => Ok (quests ++ [quest])
      | None => Ok quests
      end)
    [] quest_files.

End LoadQuests.

(** * Vocabulary of the properties *)

(** The notions the properties below are stated with, and the data the
    examples run on. *)

(** ** Merging *)

Section MergeVocabulary.
Context `{Builtins}.

(** The loop over the items of one input dict, as [joindicts_into] runs it. *)
Definition joindicts_loop (prefix : string) : dict -> dict -> exc dict :=
  fix loop (items : dict) (result : dict) : exc dict :=
    match items with
    | [] => Ok result
    | (key, value) :: rest =>
        match dict_get result key with
        | None => loop rest (dict_set result key value)
        | Some existing_value =>
            match existing_value, value with
            | VDict existing, VDict _ =>
                merged ← joindicts_into value existing (prefix +:+ key +:+ ".");
                loop rest (dict_set result key (VDict merged))
            | VList existing, VList added =>
                loop rest (dict_set result key (VList (existing ++ added)))
            | _, _ =>
                if negb (py_eq existing_value value)
                then Raise (Exception
                              (collision_message (prefix +:+ key) value existing_value))
                else loop rest result
            end
        end
    end.

(** What merging leaves under one key: [existing] is the value of the key in
    the destination, [incoming] its value in the input dict, [out] its value
    in the returned dict. *)
Definition merged_at (prefix key : string) (existing incoming out : option value)
    : Prop :=
  match existing, incoming with
  | None, _ => out = incoming
  | Some e, None => out = Some e
  | Some (VDict e), Some (VDict v) =>
      exists merged,
        joindicts e [VDict v] (prefix +:+ key +:+ ".") = Ok merged /\
        out = Some (VDict merged)
  | Some (VList e), Some (VList v) => out = Some (VList (e ++ v))
  | Some e, Some v => py_eq e v = true /\ out = Some e
  end.

End MergeVocabulary.

(** The three ways a colliding key is treated. *)
Inductive collision_kind : Type := BothDicts | BothLists | Compared.

Definition collision_kind_of (existing_value value : value) : collision_kind :=
  match existing_value, value with
  | VDict _, VDict _ => BothDicts
  | VList _, VList _ => BothLists
  | _, _ => Compared
  end.

(** Dicts as [json.load] builds them: no key occurs twice, at any depth. *)
#[warnings="-register-all"]
Inductive wf_value : value -> Prop :=
| wf_none : wf_value VNone
| wf_bool b : wf_value (VBool b)
| wf_num n : wf_value (VNum n)
| wf_str s : wf_value (VStr s)
| wf_list l : Forall wf_value l -> wf_value (VList l)
| wf_dict d :
    NoDup (keys d) -> Forall (fun kv => wf_value kv.2) d -> wf_value (VDict d).

(** A conflict between a destination and an input dict: below the keys of
    [path], present in both as dicts down to the last one, the two values
    [existing_value] and [value] are neither two dicts nor two lists, and they
    are not equal. *)
Inductive conflict : dict -> dict -> list string -> value -> value -> Prop :=
| conflict_here dest src key existing_value value :
    dict_get dest key = Some existing_value ->
    dict_get src key = Some value ->
    collision_kind_of existing_value value = Compared ->
    py_eq existing_value value = false ->
    conflict dest src [key] existing_value value
| conflict_below dest src key existing inner path existing_value value :
    dict_get dest key = Some (VDict existing) ->
    dict_get src key = Some (VDict inner) ->
    conflict existing inner path existing_value value ->
    conflict dest src (key :: path) existing_value value.

(** The key path as the error message spells it: the keys joined by dots,
    after the prefix. *)
Fixpoint dotted (prefix : string) (path : list string) : string :=
  match path with
  | [] => prefix
  | [key] => prefix +:+ key
  | key :: rest => dotted (prefix +:+ key +:+ ".") rest
  end.

(** [wf_value], decided. *)
Fixpoint wf_valueb (v : value) : bool :=
  match v with
  | VList l => forallb wf_valueb l
  | VDict d =>
      bool_decide (NoDup (keys d)) &&
      forallb (fun kv => let '(_, x) := kv in wf_valueb x) d
  | _ => true
  end.

(** ** Grouping *)

Section GroupingVocabulary.
Variable gs : list string.

(** The groups as [group_fields] and [ungroup_fields] receive them. *)
Definition group_list : list value := map VStr gs.

(** The items [ungroup_fields] writes for one item of a grouped object. *)
Definition flat_item (kv : string * value) : dict :=
  let '(key, value) := kv in
  if bool_decide (key ∈ gs)
  then match value with
       | VDict sub => map (fun sv => (key +:+ "_" +:+ sv.1, sv.2)) sub
       | _ => []
       end
  else [(key, value)].

Definition flat (grouped : dict) : dict := flat_map flat_item grouped.

(** Every item stored under a group name is a dict. *)
Definition groups_are_dicts (grouped : dict) : Prop :=
  forall key value,
    (key, value) ∈ grouped -> key ∈ gs -> typecheck.is_dict value = true.

End GroupingVocabulary.

(** ** Computations *)

(** The lines [ensure_warn] prints. *)
Definition warning_lines (field : bool) (error_message : string) : list string :=
  if field then [] else ["WARNING: " +:+ error_message].

(** [m] returns, and changes nothing but the console. *)
Definition prints_only (m : M unit) : Prop :=
  forall w, exists printed, m w = (Ok tt, World (stdout w ++ printed) (session w)).

(** [m] raises from every state. *)
Definition raises {A} (m : M A) : Prop :=
  forall w, exists e w', m w = (Raise e, w').

(** [r] is an exception. *)
Definition fails {A} (r : exc A) : Prop := exists e, r = Raise e.

(** The exception [ensure] raises with a message. *)
Definition ensure_error (error_message : string) : exn :=
  Exception ("ERROR: " +:+ error_message).

(** ** Monster rewards *)

(** A reward as the data files give it: a mapping with an item name and a
    whole percentage (and whatever else). *)
Definition is_reward (r : value) (reward : string * Z) : Prop :=
  exists d,
    r = VDict d /\
    dict_get d "item_en" = Some (VStr reward.1) /\
    dict_get d "percentage" = Some (VNum reward.2).

Definition total_percentage (rewards : list (string * Z)) : Z :=
  foldr Z.add 0%Z (map snd rewards).

(** The three warnings, as they are printed. *)
Definition sum_warning (monster_name condition rank : string) : string :=
  "WARNING: " +:+ (error_start monster_name rank condition +:+ " does not sum to 100").

Definition at_least_warning (monster_name condition rank : string) : string :=
  "WARNING: " +:+
  (error_start monster_name rank condition +:+ " does not sum to at least 100").

Definition duplicate_warning (monster_name condition rank : string)
    (duplicates : list string) : string :=
  "WARNING: " +:+ duplicates_message monster_name duplicates rank condition.

(** A group of rewards as the data files give it: a supported rank and a
    list of rewards. *)
Definition rank_group_ok (rank_rewards : string * value) : Prop :=
  rank_rewards.1 ∈ supported_ranks /\
  exists rs rewards, rank_rewards.2 = VList rs /\ Forall2 is_reward rs rewards.

(** A monster all of whose groups of rewards are such groups. *)
Definition monster_rewards_ok (entry : DataRow) : Prop :=
  is_ok (row_name entry "en") = true /\
  exists conditions,
    py_items (row_get entry "rewards" (VDict [])) = Ok conditions /\
    Forall (fun condition_ranks =>
              exists ranks,
                py_items condition_ranks.2 = Ok ranks /\ Forall rank_group_ok ranks)
      conditions.

Definition unsupported_rank_error (monster_name rank : string) : exn :=
  Exception ("ERROR: " +:+
             ("Unsupported rank " +:+ rank +:+ " in " +:+ monster_name +:+ " rewards")).

(** ** Builders *)

(** The row [build_items] adds for an entry that has its four numeric fields,
    its English name and a mapping of descriptions. *)
Definition item_row_of (id : Z) (name : string)
    (rarity buy_price sell_price carry_limit : value) (descriptions : dict) : row :=
  Row "Item"
    [("id", VNum id);
     ("rarity", py_or rarity (VNum 0));
     ("buy_price", py_or buy_price (VNum 0));
     ("sell_price", py_or sell_price (VNum 0));
     ("carry_limit", py_or carry_limit (VNum 0))]
    [("translations",
      Row "ItemText"
        [("lang_id", VStr "en"); ("name", VStr name);
         ("description", dict_get_default descriptions "en" VNone)] [])].

Section FinalVocabulary.
Variable data : Data.

(** The id an entry removes from the final set: that of the weapon its
    truthy [previous] resolves to, if any. *)
Definition predecessor_of (entry : DataRow) : option Z :=
  if truthy (row_get entry "previous" VNone)
  then id_of (weapon_map data) "en" (row_get entry "previous" VNone)
  else None.

Definition predecessors (entries : list DataRow) : gset Z :=
  list_to_set (omap predecessor_of entries).

End FinalVocabulary.

(** A reference by English name, somewhere in the data, that does not
    resolve: one case per place where a builder resolves a name. *)
Inductive dangling (data : Data) : Prop :=
| dangling_reward_item entry conditions condition sub_condition ranks rank
    rewards rs reward item_name :
    entry ∈ monster_map data ->
    py_items (row_get entry "rewards" (VDict [])) = Ok conditions ->
    (condition, sub_condition) ∈ conditions ->
    py_items sub_condition = Ok ranks ->
    (rank, rewards) ∈ ranks ->
    py_iter rewards = Ok rs ->
    reward ∈ rs ->
    getitem reward "item_en" = Ok item_name ->
    id_of (item_map data) "en" item_name = None ->
    dangling data
| dangling_habitat_location entry habitats location_name habitat_values :
    entry ∈ monster_map data ->
    py_items (row_get entry "habitats" (VDict [])) = Ok habitats ->
    (location_name, habitat_values) ∈ habitats ->
    id_of (location_map data) "en" (VStr location_name) = None ->
    dangling data
| dangling_armor_set entry set_name :
    entry ∈ armor_map data ->
    row_item entry "set" = Ok set_name ->
    id_of (armorset_map data) "en" set_name = None ->
    dangling data
| dangling_armor_skill entry skills skill level :
    entry ∈ armor_map data ->
    row_item entry "skills" ≫= py_items = Ok skills ->
    (skill, level) ∈ skills ->
    id_of (skill_map data) "en" (VStr skill) = None ->
    dangling data
| dangling_armor_item entry craft item quantity :
    entry ∈ armor_map data ->
    row_item entry "craft" ≫= py_items = Ok craft ->
    (item, quantity) ∈ craft ->
    id_of (item_map data) "en" (VStr item) = None ->
    dangling data
| dangling_weapon_previous entry :
    entry ∈ weapon_data data ->
    truthy (row_get entry "previous" VNone) = true ->
    id_of (weapon_map data) "en" (row_get entry "previous" VNone) = None ->
    dangling data
| dangling_weapon_item entry recipe_type recipe item quantity :
    entry ∈ weapon_data data ->
    recipe_type ∈ ["craft"; "upgrade"] ->
    py_items (py_or (row_get entry recipe_type (VDict [])) (VDict [])) = Ok recipe ->
    (item, quantity) ∈ recipe ->
    id_of (item_map data) "en" (VStr item) = None ->
    dangling data
| dangling_decoration_skill entry skill_en :
    entry ∈ decoration_map data ->
    row_item entry "skill_en" = Ok skill_en ->
    id_of (skill_map data) "en" skill_en = None ->
    dangling data
| dangling_charm_skill entry skills skill_en level :
    entry ∈ charm_map data ->
    row_item entry "skills" ≫= py_items = Ok skills ->
    (skill_en, level) ∈ skills ->
    id_of (skill_map data) "en" (VStr skill_en) = None ->
    dangling data
| dangling_charm_item entry craft item_en quantity :
    entry ∈ charm_map data ->
    row_item entry "craft" ≫= py_items = Ok craft ->
    (item_en, quantity) ∈ craft ->
    id_of (item_map data) "en" (VStr item_en) = None ->
    dangling data.

(** ** Quests *)

Section QuestVocabulary.
Context `{Assets}.

Definition quest_base_path : Path := joinpath chunk_root "quest".
Definition rem_base_path : Path := joinpath quest_base_path "rem".

(** The quest files [load_quests] discovers. *)
Definition quest_files : list Path := rglob quest_base_path "*.mib".

(** The name table of a quest file: the first entry of its text resource. *)
Definition quest_name_table (path : Path) : exc value :=
  quest_text ←
    load_text ("common/text/quest/" +:+ str_replace (stem path) "questData_" "q");
  getindex (VList quest_text) 0.

(** The resolved English name of a quest file. *)
Definition english_name (path : Path) : exc value :=
  name ← quest_name_table path; getitem name "en".

Definition is_placeholder_quest (path : Path) : bool :=
  match english_name path with
  | Ok en => is_placeholder_name en
  | Raise _ => false
  end.

(** The reward files of a quest that are on disk. *)
Definition existing_rem_files (binary : Mib) : list Path :=
  List.filter path_exists
    (map (fun rem_id =>
            joinpath rem_base_path ("remData_" +:+ str_of_Z rem_id +:+ ".rem"))
       (rem_ids binary)).

(** [quest] is the quest loaded from [path]: its name table, its parsed
    binary, and the parsed reward files that exist, in the order of their
    ids. *)
Definition quest_info_for (path : Path) (quest : QuestInfo) : Prop :=
  quest_name_table path = Ok (name quest) /\
  load_quest path = Ok (binary quest) /\
  map_exc read_rem_file (existing_rem_files (binary quest)) =
    Ok (reward_data_list quest).

(** The loop of [load_quests], from any list of quests. *)
Definition load_quests_from (files : list Path) (quests : list QuestInfo)
    : exc (list QuestInfo) :=
  fold_exc (fun quests path =>
      loaded ← load_quest_at rem_base_path path;
      match loaded with
      | Some quest => Ok (quests ++ [quest])
      | None => Ok quests
      end)
    quests files.

End QuestVocabulary.

(** ** Data for the examples *)

(** A [repr] for strings made of plain letters and digits, for the examples
    below. *)
Definition plain_repr : Builtins := {| repr_str s := "'" +:+ s +:+ "'" |}.

(** A monster whose only group of rewards has the rank "g". *)
Definition rank_g_monster : DataRow :=
  {| row_id := 1; row_names := [("en", "Rathian")];
     row_data :=
       [("rewards",
         VDict [("Body Carve",
                 VDict [("g", VList [VDict [("item_en", VStr "Scale");
                                            ("stack", VNum 1);
                                            ("percentage", VNum 100)]])])])] |}.

Definition rank_g_data : Data :=
  {| location_map := []; item_map := []; skill_map := []; charm_map := [];
     monster_map := [rank_g_monster];
     armor_map := []; armorset_map := []; weapon_map := [];
     decoration_map := []; weapon_data := [] |}.

(** An item entry without the key "rarity". *)
Definition potion_without_rarity : DataRow :=
  {| row_id := 1; row_names := [("en", "Potion")];
     row_data :=
       [("buy_price", VNum 66); ("sell_price", VNum 8); ("carry_limit", VNum 10);
        ("description", VDict [("en", VStr "Restores health.")])] |}.

Definition items_only (items : DataMap) : Data :=
  {| location_map := []; item_map := items; skill_map := []; charm_map := [];
     monster_map := []; armor_map := []; armorset_map := []; weapon_map := [];
     decoration_map := []; weapon_data := [] |}.

(** An item entry whose rarity is no-value and whose description is missing
    for every language. *)
Definition potion_null_rarity : DataRow :=
  {| row_id := 1; row_names := [("en", "Potion")];
     row_data :=
       [("rarity", VNone); ("buy_price", VNum 66); ("sell_price", VNum 8);
        ("carry_limit", VNum 10); ("description", VDict [])] |}.

(** A chain of three weapons: the Iron Blade, upgraded to the Steel Blade,
    upgraded to the Chrome Blade. *)
Definition blade (id : Z) (name : string) (fields : dict) : DataRow :=
  {| row_id := id; row_names := [("en", name)]; row_data := fields |}.

Definition blade_chain : Data :=
  let weapons :=
    [blade 1 "Iron Blade" [];
     blade 2 "Steel Blade" [("previous", VStr "Iron Blade")];
     blade 3 "Chrome Blade" [("previous", VStr "Steel Blade")]] in
  {| location_map := []; item_map := []; skill_map := []; charm_map := [];
     monster_map := []; armor_map := []; armorset_map := [];
     weapon_map := weapons; decoration_map := []; weapon_data := weapons |}.

(** An asset tree with two quest files: the text of the first names a quest,
    the text of the second is the placeholder "Unavailable". The first quest
    refers to the reward files 1 and 2, of which only the first exists. *)
Definition two_quests : Assets :=
  {| Path := string; Mib := list Z; RemFile := string;
     chunk_root := "chunk";
     joinpath p name := p +:+ "/" +:+ name;
     stem p := if String.eqb p "chunk/quest/questData_00101.mib"
               then "questData_00101" else "questData_00102";
     path_exists p := String.eqb p "chunk/quest/rem/remData_1.rem";
     rglob _ _ := ["chunk/quest/questData_00101.mib"; "chunk/quest/questData_00102.mib"];
     load_text text :=
       if String.eqb text "common/text/quest/q00101"
       then Ok [VDict [("en", VStr "Jagras of the Ancient Forest")]]
       else Ok [VDict [("en", VStr "Unavailable")]];
     load_quest _ := Ok [1%Z; 2%Z];
     rem_ids binary := binary;
     read_rem_file p := Ok p |}.

(** An armor whose set, "Leather", is not in the armor-set map. *)
Definition leather_headgear : DataRow :=
  {| row_id := 1; row_names := [("en", "Leather Headgear")];
     row_data :=
       [("rarity", VNum 1); ("armor_type", VStr "head");
        ("male", VBool true); ("female", VBool true);
        ("slots", VList [VNum 0; VNum 0; VNum 0]);
        ("defense_base", VNum 2); ("defense_max", VNum 38);
        ("defense_augment_max", VNum 68);
        ("fire", VNum 2); ("water", VNum 0); ("thunder", VNum 0);
        ("ice", VNum 0); ("dragon", VNum 0);
        ("set", VStr "Leather");
        ("skills", VDict []); ("craft", VDict [])] |}.

Definition leather_only : Data :=
  {| location_map := []; item_map := []; skill_map := []; charm_map := [];
     monster_map := []; armor_map := [leather_headgear]; armorset_map := [];
     weapon_map := []; decoration_map := []; weapon_data := [] |}.

(** ** Further vocabulary *)

(** The values Python can hash, and so look up in a dict or a set. *)
Definition hashable (v : value) : bool :=
  match v with
  | VList _ | VDict _ => false
  | _ => true
  end.

(** What [flatten_dict] keeps true of the result it is handed. *)
Definition flatten_invariant (result out : dict) : Prop :=
  (Forall (fun kv => typecheck.is_scalar kv.2 = true) result ->
   Forall (fun kv => typecheck.is_scalar kv.2 = true) out) /\
  (forall key, key ∈ keys result -> key ∈ keys out).

(** ** Further vocabulary: what a computation does to the console *)

(** [m] leaves the session as it found it and only adds lines to the
    console, whether it returns or raises. *)
Definition console_only {A} (m : M A) : Prop :=
  forall w,
    session (m w).2 = session w /\ stdout w `prefix_of` stdout (m w).2.

(** [m] prints the lines [lines] when it returns, and a prefix of them when
    it raises. *)
Definition prints_upto {A} (lines : list string) (m : M A) : Prop :=
  forall w,
    match m w with
    | (Ok _, w') => stdout w' = stdout w ++ lines
    | (Raise _, w') =>
        exists printed, printed `prefix_of` lines /\ stdout w' = stdout w ++ printed
    end.

(** The progress lines of the builders, in the order [build_database] calls
    them; [build_locations] has none. *)
Definition progress_lines : list string :=
  ["Built Items"; "Built Monsters"; "Built Skills"; "Built Armor";
   "Built Weapons"; "Built Decorations"; "Built Charms"].

(** ** Further vocabulary: rows and data of the builders *)

(** The row [build_locations] adds for an entry with an English name. *)
Definition location_row_of (entry : DataRow) (name : string) : row :=
  Row "Location"
    [("id", VNum (row_id entry)); ("lang_id", VStr "en"); ("name", VStr name)] [].

(** The row of a habitat. *)
Definition habitat_row_of (location_id : Z) (start_area move_area rest_area : value)
    : row :=
  Row "MonsterHabitat"
    [("location_id", VNum location_id); ("start_area", start_area);
     ("move_area", move_area); ("rest_area", rest_area)] [].

(** A skill tree with the id 0, and a charm that names it. *)
Definition attack_boost : DataRow :=
  {| row_id := 0; row_names := [("en", "Attack Boost")]; row_data := [] |}.

Definition attack_charm : DataRow :=
  {| row_id := 1; row_names := [("en", "Attack Charm")];
     row_data := [("skills", VDict [("Attack Boost", VNum 1)]); ("craft", VDict [])] |}.

Definition attack_charm_data : Data :=
  {| location_map := []; item_map := []; skill_map := [attack_boost];
     charm_map := [attack_charm]; monster_map := []; armor_map := [];
     armorset_map := []; weapon_map := []; decoration_map := [];
     weapon_data := [] |}.

(** A decoration whose skill exists, with and without its drop chances. *)
Definition attack_jewel (fields : dict) : DataRow :=
  {| row_id := 1; row_names := [("en", "Attack Jewel")];
     row_data := [("skill_en", VStr "Attack Boost"); ("rarity", VNum 6);
                  ("slot", VNum 1)] ++ fields |}.

Definition jewel_data (skill_id : Z) (fields : dict) : Data :=
  {| location_map := []; item_map := [];
     skill_map := [{| row_id := skill_id; row_names := [("en", "Attack Boost")];
                      row_data := [] |}];
     charm_map := []; monster_map := []; armor_map := []; armorset_map := [];
     weapon_map := []; decoration_map := [attack_jewel fields]; weapon_data := [] |}.

(** A location map with one location, and a habitat there whose [move_area]
    is the empty string. *)
Definition ancient_forest_data : Data :=
  {| location_map := [blade 7 "Ancient Forest" []]; item_map := []; skill_map := [];
     charm_map := []; monster_map := []; armor_map := []; armorset_map := [];
     weapon_map := []; decoration_map := []; weapon_data := [] |}.

Definition forest_habitat : value :=
  VDict [("start_area", VStr "1"); ("move_area", VStr ""); ("rest_area", VStr "12")].

(** ** Further vocabulary: quests that can be read *)

Section QuestReadable.
Context `{Assets}.

(** What [load_quests] needs of a quest file to go on: its text resource
    loads and has an English name; and, unless that name is a placeholder,
    its binary parses and so does each of its reward files that exist. *)
Definition quest_readable (path : Path) : bool :=
  match english_name path with
  | Raise _ => false
  | Ok en =>
      if is_placeholder_name en
      then true
      else
        match load_quest path with
        | Raise _ => false
        | Ok binary => is_ok (map_exc read_rem_file (existing_rem_files binary))
        end
  end.

End QuestReadable.

(** ** Further vocabulary: the recipes of a weapon *)

Definition recipe_row_of (weapon_id : Z) (recipe_type : string)
    (item_quantity : string * value) (item_id : Z) : row :=
  Row "WeaponRecipe"
    [("weapon_id", VNum weapon_id); ("item_id", VNum item_id);
     ("quantity", item_quantity.2); ("recipe_type", VStr recipe_type)] [].

(** The items of a recipe resolve to the ids [ids], none of them 0. *)
Definition recipe_resolves (data : Data) (recipe : dict) (ids : list Z) : Prop :=
  Forall2 (fun item_quantity item_id =>
             id_of (item_map data) "en" (VStr item_quantity.1) = Some item_id /\
             item_id <> 0%Z)
    recipe ids.

(** A weapon crafted from two items and upgraded with one, and the items. *)
Definition iron_blade : DataRow :=
  blade 1 "Iron Blade"
    [("craft", VDict [("Iron Ore", VNum 2); ("Machalite Ore", VNum 1)]);
     ("upgrade", VNone)].

Definition ore_data : Data :=
  {| location_map := [];
     item_map := [blade 11 "Iron Ore" []; blade 12 "Machalite Ore" []];
     skill_map := []; charm_map := []; monster_map := []; armor_map := [];
     armorset_map := []; weapon_map := [iron_blade]; decoration_map := [];
     weapon_data := [iron_blade] |}.

(** ** Further vocabulary: values without lists *)

(** No list occurs in the value, at any depth. *)
Fixpoint list_free (v : value) : bool :=
  match v with
  | VList _ => false
  | VDict d => forallb (fun kv => let '(_, x) := kv in list_free x) d
  | _ => true
  end.

(** ** Further vocabulary: builders that add one row per entry *)

(** The builder [build] does what building the rows [built] one after the
    other does: when they are all built it adds them to the session, in
    order, and prints its progress line; when one of them raises, it raises
    the same exception and prints nothing. *)
Definition adds_rows_of (build : M unit) (built : exc (list row)) (line : string)
    (w : world) : Prop :=
  match built with
  | Ok rows => build w = (Ok tt, World (stdout w ++ [line]) (session w ++ rows))
  | Raise e => (build w).1 = Raise e /\ stdout (build w).2 = stdout w
  end.

(** A weapon with all the fields [build_weapons] reads, and the recipe it is
    crafted from. *)
Definition iron_katana : DataRow :=
  blade 1 "Iron Katana"
    [("weapon_type", VStr "long-sword"); ("rarity", VNum 1); ("attack", VNum 231);
     ("slots", VList [VNum 0; VNum 0; VNum 0]);
     ("element_type", VNone); ("element_damage", VNone);
     ("element_hidden", VBool false);
     ("craft", VDict [("Iron Ore", VNum 1)])].

(** * Properties *)

(** ** get_duplicates: what it returns *)

Section GetDuplicatesFacts.
Context {A : Type} `{!EqDecision A, !Countable A}.

Lemma get_duplicates_loop_acc (seen : gset A) (dups l : list A) :
  get_duplicates_loop seen dups l = dups ++ get_duplicates_loop seen [] l.
Proof.
  revert seen dups. induction l as [|x l IH]; intros seen dups; simpl.
  - by rewrite app_nil_r.
  - case_decide.
    + rewrite (IH seen (dups ++ [x])), (IH seen [x]). by rewrite app_assoc.
    + apply IH.
Qed.

Lemma get_duplicates_loop_snoc (seen : gset A) (dups l : list A) (x : A) :
  get_duplicates_loop seen dups (l ++ [x]) =
  get_duplicates_loop seen dups l ++
    (if decide (x ∈ seen ∨ x ∈ l) then [x] else []).
Proof.
  revert seen dups. induction l as [|y l IH]; intros seen dups; simpl.
  - repeat case_decide; rewrite ?app_nil_r; try done; exfalso; set_solver.
  - destruct (decide (y ∈ seen)) as [Hy|Hy]; rewrite IH; f_equal.
    + destruct (decide (x ∈ seen ∨ x ∈ l)) as [H1|H1],
        (decide (x ∈ seen ∨ x ∈ y :: l)) as [H2|H2]; try done; exfalso.
      * apply H2. destruct H1; [by left|]. right. by apply list_elem_of_further.
      * apply H1. destruct H2 as [|[->|]%elem_of_cons]; auto.
    + destruct (decide (x ∈ {[y]} ∪ seen ∨ x ∈ l)) as [H1|H1],
        (decide (x ∈ seen ∨ x ∈ y :: l)) as [H2|H2]; try done; exfalso.
      * apply H2. destruct H1 as [[->%elem_of_singleton|]%elem_of_union|].
        -- right. apply list_elem_of_here.
        -- by left.
        -- right. by apply list_elem_of_further.
      * apply H1. destruct H2 as [|[->|]%elem_of_cons]; auto.
        -- left. apply elem_of_union. by right.
        -- left. apply elem_of_union. left. by apply elem_of_singleton.
Qed.

Lemma get_duplicates_snoc (l : list A) (x : A) :
  get_duplicates (l ++ [x]) =
  get_duplicates l ++ (if decide (x ∈ l) then [x] else []).
Proof.
  unfold get_duplicates. rewrite get_duplicates_loop_snoc.
  f_equal. repeat case_decide; try done; exfalso; set_solver.
Qed.

Lemma get_duplicates_sublist (l : list A) : sublist (get_duplicates l) l.
Proof.
  induction l as [|x l IH] using rev_ind; [done|].
  rewrite get_duplicates_snoc. apply sublist_app; [done|].
  case_decide; [done|]. apply sublist_nil_l.
Qed.

Lemma elem_of_get_duplicates (l : list A) (x : A) :
  x ∈ get_duplicates l ↔ ∃ l1 l2 l3, l = l1 ++ x :: l2 ++ x :: l3.
Proof.
  induction l as [|y l IH] using rev_ind.
  - split; [by intros ?%elem_of_nil|].
    intros (l1 & l2 & l3 & Heq). by destruct l1.
  - rewrite get_duplicates_snoc, elem_of_app, IH. split.
    + intros [(l1 & l2 & l3 & ->)|Hx].
      * exists l1, l2, (l3 ++ [y]). by simplify_list_eq.
      * case_decide as Hy; [|by apply elem_of_nil in Hx].
        apply list_elem_of_singleton in Hx as ->.
        apply list_elem_of_split in Hy as (l1 & l2 & ->).
        exists l1, l2, []. by simplify_list_eq.
    + intros (l1 & l2 & l3 & Heq).
      destruct l3 as [|z l3 _] using rev_ind.
      * right.
        assert (l ++ [y] = (l1 ++ x :: l2) ++ [x]) as Heq'
          by (rewrite Heq; by simplify_list_eq).
        apply app_inj_tail in Heq' as [-> ->].
        rewrite decide_True; [apply list_elem_of_singleton; done|].
        apply elem_of_app. right. apply list_elem_of_here.
      * left.
        assert (l ++ [y] = (l1 ++ x :: l2 ++ x :: l3) ++ [z]) as Heq'
          by (rewrite Heq; by simplify_list_eq).
        apply app_inj_tail in Heq' as [-> ->]. eauto.
Qed.

Lemma get_duplicates_nil_iff (l : list A) : get_duplicates l = [] ↔ NoDup l.
Proof.
  induction l as [|x l IH] using rev_ind.
  - split; [constructor|done].
  - rewrite get_duplicates_snoc. split.
    + intros [Hl Hx]%app_eq_nil. case_decide; [done|].
      apply NoDup_app. split; [by apply IH|]. split.
      * intros y Hy ->%list_elem_of_singleton. done.
      * apply NoDup_singleton.
    + intros (Hl & Hx & _)%NoDup_app.
      apply IH in Hl as ->. rewrite decide_False; [done|].
      intros Hin. apply (Hx x Hin). apply list_elem_of_here.
Qed.

End GetDuplicatesFacts.

(** C6: [get_duplicates] returns, in the order of their repeated occurrence,
    the elements that appear more than once. An occurrence of [x] is appended
    to the result exactly when [x] was met earlier in the input, so the result
    is a subsequence of the input and holds exactly the elements with at least
    two occurrences; on ["a","b","a","c","b"] it is ["a","b"] and on
    ["a","b","c"] it is empty. *)
Theorem get_duplicates_repeated :
  (forall (l : list string) (x : string),
      get_duplicates (l ++ [x]) =
      get_duplicates l ++ (if decide (x ∈ l) then [x] else [])) /\
  (forall l : list string, sublist (get_duplicates l) l) /\
  (forall (l : list string) (x : string),
      x ∈ get_duplicates l <-> exists l1 l2 l3, l = l1 ++ x :: l2 ++ x :: l3) /\
  get_duplicates ["a"; "b"; "a"; "c"; "b"] = ["a"; "b"] /\
  get_duplicates ["a"; "b"; "c"] = [].
Proof.
  split; [apply get_duplicates_snoc|].
  split; [apply get_duplicates_sublist|].
  split; [apply elem_of_get_duplicates|].
  split; vm_compute; reflexivity.
Qed.

(** ** Induction on values *)

(** The induction principle that reaches the values nested in a list or in a
    dict. *)
Lemma value_nested_ind (P : value -> Prop) :
  P VNone ->
  (forall b, P (VBool b)) ->
  (forall n, P (VNum n)) ->
  (forall s, P (VStr s)) ->
  (forall l, Forall P l -> P (VList l)) ->
  (forall d, Forall (fun kv => P kv.2) d -> P (VDict d)) ->
  forall v, P v.
Proof.
  intros HNone HBool HNum HStr HList HDict.
  fix IH 1. intros [ | b | n | s | l | d ].
  - exact HNone.
  - apply HBool.
  - apply HNum.
  - apply HStr.
  - apply HList. induction l as [|x l IHl]; constructor; [apply IH | exact IHl].
  - apply HDict. induction d as [|[k x] d IHd]; constructor; [apply IH | exact IHd].
Qed.

(** ** flatten_dict *)

Lemma flatten_dict_nested_ok (d : value) :
  typecheck.is_scalar d = false ->
  forall prefix result, exists r, flatten_dict d prefix result = Ok r.
Proof.
  induction d as [ | b | n | s | l IHl | items IHd ] using value_nested_ind;
    try discriminate; intros _ prefix result; simpl.
  - generalize 0%nat. revert result.
    induction IHl as [|x l Hx _ IH]; intros result idx; [by eexists|].
    destruct (typecheck.is_scalar x) eqn:Hs; [apply IH|].
    destruct (Hx eq_refl (prefix +:+ "[" +:+ str_of_nat idx +:+ "]") result)
      as [r ->].
    simpl. apply IH.
  - set (prefix' := if negb (String.eqb prefix "") then _ else _).
    clearbody prefix'. revert result.
    induction IHd as [|[k x] items Hx _ IH]; intros result; [by eexists|].
    simpl in Hx.
    destruct (typecheck.is_scalar x) eqn:Hs; [apply IH|].
    destruct (Hx eq_refl (prefix' +:+ k) result) as [r ->].
    simpl. apply IH.
Qed.

(** C10: [flatten_dict] called on a value that is neither a mapping nor a
    sequence raises the unsupported-type error, whatever the prefix and the
    result so far; the same scalar as the value of a key or as an element of
    a list is stored under its path; and a mapping or a sequence never makes
    [flatten_dict] raise. *)
Theorem flatten_dict_scalar_root_raises :
  (forall d prefix result,
      typecheck.is_scalar d = true ->
      flatten_dict d prefix result =
      Raise (Exception ("Unsupported type " +:+ py_type_name d))) /\
  (forall key s prefix result,
      typecheck.is_scalar s = true ->
      flatten_dict (VDict [(key, s)]) prefix result =
      Ok (dict_set result
            ((if truthy (VStr prefix) then prefix +:+ "/" else prefix) +:+ key) s)) /\
  (forall s prefix result,
      typecheck.is_scalar s = true ->
      flatten_dict (VList [s]) prefix result =
      Ok (dict_set result (prefix +:+ "[0]") s)) /\
  (forall d prefix result,
      typecheck.is_scalar d = false ->
      exists r, flatten_dict d prefix result = Ok r).
Proof.
  repeat split.
  - intros d prefix result Hd. destruct d; try discriminate; reflexivity.
  - intros key s prefix result Hs. simpl. rewrite Hs. reflexivity.
  - intros s prefix result Hs. simpl. rewrite Hs. reflexivity.
  - intros d prefix result Hd. by apply flatten_dict_nested_ok.
Qed.

(** The theorem at the integer 3, at the dict [{"a": 3}] and at the list
    [[3]]. *)
Lemma flatten_dict_scalar_root_raises_witness :
  flatten_dict (VNum 3) "" [] = Raise (Exception "Unsupported type <class 'int'>") /\
  flatten_dict (VDict [("a", VNum 3)]) "" [] = Ok [("a", VNum 3)] /\
  flatten_dict (VList [VNum 3]) "" [] = Ok [("[0]", VNum 3)] /\
  exists r, flatten_dict (VDict [("a", VList [VNum 3])]) "" [] = Ok r.
Proof.
  destruct flatten_dict_scalar_root_raises as (H1 & H2 & H3 & H4).
  split; [exact (H1 (VNum 3) "" [] eq_refl)|].
  split; [exact (H2 "a" (VNum 3) "" [] eq_refl)|].
  split; [exact (H3 (VNum 3) "" [] eq_refl)|].
  exact (H4 (VDict [("a", VList [VNum 3])]) "" [] eq_refl).
Defined.

(** ** Dict primitives: lookups after an assignment *)

Lemma dict_get_set_eq (d : dict) (k : string) (v : value) :
  dict_get (dict_set d k v) k = Some v.
Proof.
  induction d as [|[k' w] d IH]; simpl.
  - by rewrite String.eqb_refl.
  - destruct (String.eqb k' k) eqn:E; simpl; rewrite E; [done|apply IH].
Qed.

Lemma dict_get_set_ne (d : dict) (k k' : string) (v : value) :
  k <> k' -> dict_get (dict_set d k v) k' = dict_get d k'.
Proof.
  intros Hne. induction d as [|[k0 w] d IH]; simpl.
  - by apply String.eqb_neq in Hne as ->.
  - destruct (String.eqb k0 k) eqn:E; simpl.
    + apply String.eqb_eq in E as ->. by apply String.eqb_neq in Hne as ->.
    + by rewrite IH.
Qed.

Lemma dict_get_None (d : dict) (k : string) :
  dict_get d k = None <-> k ∉ keys d.
Proof.
  induction d as [|[k0 w] d IH]; simpl.
  - split; [intros _ ?%elem_of_nil; done|done].
  - destruct (String.eqb k0 k) eqn:E.
    + apply String.eqb_eq in E as ->. split; [done|].
      intros Hn. exfalso. apply Hn. apply list_elem_of_here.
    + apply String.eqb_neq in E. rewrite IH, elem_of_cons. naive_solver.
Qed.

Lemma dict_get_Some_elem (d : dict) (k : string) (v : value) :
  dict_get d k = Some v -> (k, v) ∈ d.
Proof.
  induction d as [|[k0 w] d IH]; simpl; [done|].
  destruct (String.eqb k0 k) eqn:E.
  - apply String.eqb_eq in E as ->. intros [= ->]. apply list_elem_of_here.
  - intros Hg. apply list_elem_of_further. by apply IH.
Qed.

Lemma dict_get_NoDup_elem (d : dict) (k : string) (v : value) :
  NoDup (keys d) -> (k, v) ∈ d -> dict_get d k = Some v.
Proof.
  induction d as [|[k0 w] d IH]; simpl; [by intros _ ?%elem_of_nil|].
  intros [Hk0 Hd]%NoDup_cons [[= -> ->]|Hin]%elem_of_cons.
  - by rewrite String.eqb_refl.
  - destruct (String.eqb k0 k) eqn:E; [|by apply IH].
    apply String.eqb_eq in E as ->. exfalso. apply Hk0.
    apply list_elem_of_fmap. by exists (k, v).
Qed.

Lemma keys_dict_set (d : dict) (k : string) (v : value) :
  keys (dict_set d k v) = if dict_mem d k then keys d else keys d ++ [k].
Proof.
  unfold dict_mem. induction d as [|[k0 w] d IH]; simpl; [done|].
  destruct (String.eqb k0 k) eqn:E; simpl; [done|].
  rewrite IH. by destruct (dict_get d k).
Qed.

Lemma NoDup_keys_dict_set (d : dict) (k : string) (v : value) :
  NoDup (keys d) -> NoDup (keys (dict_set d k v)).
Proof.
  intros Hd. rewrite keys_dict_set. unfold dict_mem.
  destruct (dict_get d k) eqn:E; [done|].
  apply NoDup_app. split; [done|]. split; [|apply NoDup_singleton].
  intros x Hx ->%list_elem_of_singleton. by apply dict_get_None in E.
Qed.

(** ** joindicts *)

Section JoindictsFacts.
Context `{Builtins}.
Local Arguments py_eq : simpl never.

Lemma joindicts_into_dict (items dest : dict) (prefix : string) :
  joindicts_into (VDict items) dest prefix = joindicts_loop prefix items dest.
Proof. reflexivity. Qed.

Lemma joindicts_single (dest : dict) (inputdict : value) (prefix : string) :
  joindicts dest [inputdict] prefix = joindicts_into inputdict dest prefix.
Proof. simpl. by destruct (joindicts_into inputdict dest prefix). Qed.

Lemma joindicts_cons (dest : dict) (inputdict : value) (rest : list value)
    (prefix : string) :
  joindicts dest (inputdict :: rest) prefix =
  result ← joindicts dest [inputdict] prefix; joindicts result rest prefix.
Proof. rewrite joindicts_single. reflexivity. Qed.

Lemma merged_at_absent prefix key existing :
  merged_at prefix key existing None existing.
Proof. destruct existing as [[]|]; simpl; done. Qed.

Lemma joindicts_loop_cons (prefix key : string) (value : value)
    (rest result : dict) :
  joindicts_loop prefix ((key, value) :: rest) result =
  match dict_get result key with
  | None => joindicts_loop prefix rest (dict_set result key value)
  | Some existing_value =>
      match existing_value, value with
      | VDict existing, VDict _ =>
          merged ← joindicts_into value existing (prefix +:+ key +:+ ".");
          joindicts_loop prefix rest (dict_set result key (VDict merged))
      | VList existing, VList added =>
          joindicts_loop prefix rest (dict_set result key (VList (existing ++ added)))
      | _, _ =>
          if negb (py_eq existing_value value)
          then Raise (Exception
                        (collision_message (prefix +:+ key) value existing_value))
          else joindicts_loop prefix rest result
      end
  end.
Proof. reflexivity. Qed.

Lemma joindicts_loop_compared prefix key value rest result existing_value :
  dict_get result key = Some existing_value ->
  collision_kind_of existing_value value = Compared ->
  joindicts_loop prefix ((key, value) :: rest) result =
  if negb (py_eq existing_value value)
  then Raise (Exception (collision_message (prefix +:+ key) value existing_value))
  else joindicts_loop prefix rest result.
Proof.
  intros Hg Hk. rewrite joindicts_loop_cons, Hg.
  destruct existing_value, value; try discriminate Hk; reflexivity.
Qed.

Lemma merged_at_compared prefix key existing_value value out :
  collision_kind_of existing_value value = Compared ->
  merged_at prefix key (Some existing_value) (Some value) out <->
  py_eq existing_value value = true /\ out = Some existing_value.
Proof.
  intros Hk. destruct existing_value, value; try discriminate Hk; reflexivity.
Qed.

Lemma joindicts_loop_lookup (prefix : string) (items : dict) :
  NoDup (keys items) ->
  forall result out,
    joindicts_loop prefix items result = Ok out ->
    forall key,
      merged_at prefix key (dict_get result key) (dict_get items key)
        (dict_get out key).
Proof.
  induction items as [|[k v] items IH]; intros Hnd result out Hrun key.
  - injection Hrun as <-. apply merged_at_absent.
  - apply NoDup_cons in Hnd as [Hk Hnd]. specialize (IH Hnd).
    change (k ∉ keys items) in Hk. apply dict_get_None in Hk.
    change (dict_get ((k, v) :: items) key)
      with (if String.eqb k key then Some v else dict_get items key).
    assert (forall r, joindicts_loop prefix items r = Ok out ->
                      dict_get out k = dict_get r k) as Hkeep.
    { intros r Hr. specialize (IH r out Hr k). rewrite Hk in IH.
      destruct (dict_get r k) as [[]|]; exact IH. }
    assert (forall r, joindicts_loop prefix items r = Ok out ->
                      k <> key ->
                      dict_get r key = dict_get result key ->
                      merged_at prefix key (dict_get result key)
                        (dict_get items key) (dict_get out key)) as Hstep.
    { intros r Hr _ Heq. rewrite <- Heq. by apply IH. }
    destruct (dict_get result k) as [e|] eqn:Eres.
    + destruct (collision_kind_of e v) eqn:Ekind.
      * destruct e, v; try discriminate Ekind.
        rewrite joindicts_loop_cons, Eres in Hrun.
        destruct (joindicts_into (VDict d0) d (prefix +:+ k +:+ ".")) as [m|]
          eqn:Em; [|discriminate Hrun].
        change (joindicts_loop prefix items (dict_set result k (VDict m)) = Ok out)
          in Hrun.
        destruct (String.eqb k key) eqn:Ekey.
        -- apply String.eqb_eq in Ekey as <-. rewrite Eres.
           exists m. rewrite joindicts_single. split; [done|].
           rewrite (Hkeep _ Hrun). apply dict_get_set_eq.
        -- apply String.eqb_neq in Ekey.
           apply (Hstep _ Hrun Ekey). by apply dict_get_set_ne.
      * destruct e, v; try discriminate Ekind.
        rewrite joindicts_loop_cons, Eres in Hrun.
        destruct (String.eqb k key) eqn:Ekey.
        -- apply String.eqb_eq in Ekey as <-. rewrite Eres.
           change (dict_get out k = Some (VList (l ++ l0))).
           rewrite (Hkeep _ Hrun). apply dict_get_set_eq.
        -- apply String.eqb_neq in Ekey.
           apply (Hstep _ Hrun Ekey). by apply dict_get_set_ne.
      * rewrite (joindicts_loop_compared _ _ _ _ _ _ Eres Ekind) in Hrun.
        destruct (py_eq e v) eqn:Eeq; [|discriminate Hrun].
        change (joindicts_loop prefix items result = Ok out) in Hrun.
        destruct (String.eqb k key) eqn:Ekey.
        -- apply String.eqb_eq in Ekey as <-. rewrite Eres.
           apply merged_at_compared; [done|]. split; [done|].
           rewrite (Hkeep _ Hrun). done.
        -- apply String.eqb_neq in Ekey. by apply (Hstep _ Hrun Ekey).
    + rewrite joindicts_loop_cons, Eres in Hrun.
      destruct (String.eqb k key) eqn:Ekey.
      * apply String.eqb_eq in Ekey as <-. rewrite Eres.
        change (dict_get out k = Some v).
        rewrite (Hkeep _ Hrun). apply dict_get_set_eq.
      * apply String.eqb_neq in Ekey.
        apply (Hstep _ Hrun Ekey). by apply dict_get_set_ne.
Qed.

Lemma conflict_nonempty dest src path ev v :
  conflict dest src path ev v -> path <> [].
Proof. by destruct 1. Qed.

Lemma dotted_cons prefix key path :
  path <> [] -> dotted prefix (key :: path) = dotted (prefix +:+ key +:+ ".") path.
Proof. by destruct path. Qed.

Lemma conflict_same_lookup dest dest' src src' key path ev v :
  dict_get dest' key = dict_get dest key ->
  dict_get src' key = dict_get src key ->
  conflict dest src (key :: path) ev v ->
  conflict dest' src' (key :: path) ev v.
Proof.
  intros Hd Hs Hc. inversion Hc; subst.
  - apply conflict_here; congruence.
  - eapply conflict_below; [| |eassumption]; congruence.
Qed.

Lemma conflict_later dest dest' k v items path ev w :
  k ∉ keys items ->
  (forall key, k <> key -> dict_get dest' key = dict_get dest key) ->
  conflict dest' items path ev w ->
  conflict dest ((k, v) :: items) path ev w.
Proof.
  intros Hk Hsame Hc.
  assert (exists key path', path = key :: path' /\ key ∈ keys items)
    as (key & path' & -> & Hin).
  { destruct Hc as [? ? key ? ? ? Hs|? ? key ? ? ? ? ? ? Hs];
      eexists _, _; (split; [done|]);
      apply dict_get_Some_elem in Hs;
      apply list_elem_of_fmap; eexists; (split; [|exact Hs]); done. }
  assert (k <> key) as Hne by (intros ->; done).
  eapply conflict_same_lookup; [| |exact Hc].
  - symmetry. by apply Hsame.
  - simpl. by apply String.eqb_neq in Hne as ->.
Qed.

Lemma joindicts_into_raise_conflict (inputdict : value) :
  wf_value inputdict ->
  forall items, inputdict = VDict items ->
  forall dest prefix x,
    joindicts_into inputdict dest prefix = Raise x ->
    exists path existing_value value,
      conflict dest items path existing_value value /\
      x = Exception (collision_message (dotted prefix path) value existing_value).
Proof.
  induction inputdict as [ | | | | | d IHd ] using value_nested_ind;
    intros Hwf items [= <-]. inversion Hwf as [ | | | | |? Hnd Hnested]; subst.
  clear Hwf. induction d as [|[k v] items IH]; intros dest prefix x Hrun.
  - discriminate Hrun.
  - apply NoDup_cons in Hnd as [Hk Hnd]. change (k ∉ keys items) in Hk.
    apply Forall_cons in IHd as [IHv IHd].
    apply Forall_cons in Hnested as [Hwfv Hnested].
    specialize (IH IHd Hnd Hnested). simpl in IHv, Hwfv.
    rewrite joindicts_into_dict in Hrun.
    assert (forall r,
               joindicts_loop prefix items r = Raise x ->
               (forall key, k <> key -> dict_get r key = dict_get dest key) ->
               exists path ev w,
                 conflict dest ((k, v) :: items) path ev w /\
                 x = Exception (collision_message (dotted prefix path) w ev))
      as Hlater.
    { intros r Hr Hsame. destruct (IH r prefix x Hr) as (path & ev & w & Hc & ->).
      exists path, ev, w. split; [|done]. by eapply conflict_later. }
    destruct (dict_get dest k) as [e|] eqn:Edest.
    + destruct (collision_kind_of e v) eqn:Ekind.
      * destruct e, v; try discriminate Ekind.
        rewrite joindicts_loop_cons, Edest in Hrun.
        destruct (joindicts_into (VDict d0) d (prefix +:+ k +:+ ".")) as [m|y]
          eqn:Em.
        -- apply (Hlater _ Hrun). intros key Hne. by apply dict_get_set_ne.
        -- injection Hrun as <-.
           destruct (IHv Hwfv d0 eq_refl _ _ _ Em) as (path & ev & w & Hc & ->).
           exists (k :: path), ev, w. split.
           ++ eapply conflict_below; [exact Edest| |exact Hc].
              simpl. by rewrite String.eqb_refl.
           ++ rewrite dotted_cons; [done|]. by eapply conflict_nonempty.
      * destruct e, v; try discriminate Ekind.
        rewrite joindicts_loop_cons, Edest in Hrun.
        apply (Hlater _ Hrun). intros key Hne. by apply dict_get_set_ne.
      * rewrite (joindicts_loop_compared _ _ _ _ _ _ Edest Ekind) in Hrun.
        destruct (py_eq e v) eqn:Eeq.
        -- by apply (Hlater _ Hrun).
        -- injection Hrun as <-. exists [k], e, v. split; [|done].
           apply conflict_here; try done. simpl. by rewrite String.eqb_refl.
    + rewrite joindicts_loop_cons, Edest in Hrun.
      apply (Hlater _ Hrun). intros key Hne. by apply dict_get_set_ne.
Qed.

Lemma joindicts_conflict_raises dest src path existing_value value :
  conflict dest src path existing_value value ->
  wf_value (VDict src) ->
  forall prefix, exists x, joindicts_into (VDict src) dest prefix = Raise x.
Proof.
  induction 1 as [dest src key ev v Hd Hs Hkind Hne
                 |dest src key e inner path ev v Hd Hs Hc IH];
    intros Hwf prefix; inversion Hwf as [ | | | | |? Hnd Hnested]; subst;
    destruct (joindicts_into (VDict src) dest prefix) as [out|x] eqn:Hrun;
    try (by eexists); exfalso;
    pose proof (joindicts_loop_lookup prefix src Hnd dest out Hrun key) as Hm;
    rewrite Hd, Hs in Hm.
  - apply merged_at_compared in Hm as [Heq _]; [congruence|done].
  - destruct Hm as (m & Hm & _). rewrite joindicts_single in Hm.
    apply dict_get_Some_elem in Hs.
    rewrite Forall_forall in Hnested. specialize (Hnested _ Hs).
    destruct (IH Hnested (prefix +:+ key +:+ ".")) as [x Hx]. congruence.
Qed.

Lemma filter_ext_elem {A} (P Q : A -> Prop)
    `{!forall x, Decision (P x), !forall x, Decision (Q x)} (l : list A) :
  (forall x, x ∈ l -> P x <-> Q x) -> filter P l = filter Q l.
Proof.
  induction l as [|a l IH]; intros Hpq; [done|].
  rewrite !filter_cons, IH.
  - apply decide_ext. apply Hpq. apply list_elem_of_here.
  - intros x Hx. apply Hpq. by apply list_elem_of_further.
Qed.

(** The destination is updated in place: its keys stay where they are, and
    the keys it did not have follow in the order of the input dict. *)
Lemma joindicts_loop_keys (prefix : string) (items : dict) :
  NoDup (keys items) ->
  forall result out,
    joindicts_loop prefix items result = Ok out ->
    keys out = keys result ++ filter (fun k => k ∉ keys result) (keys items).
Proof.
  induction items as [|[k v] items IH]; intros Hnd result out Hrun.
  - injection Hrun as <-. simpl. by rewrite app_nil_r.
  - apply NoDup_cons in Hnd as [Hk Hnd]. change (k ∉ keys items) in Hk.
    specialize (IH Hnd).
    change (keys ((k, v) :: items)) with (k :: keys items).
    rewrite filter_cons.
    assert (forall w, dict_mem result k = true ->
                      keys (dict_set result k w) = keys result) as Hsame.
    { intros w Hm. rewrite keys_dict_set. by rewrite Hm. }
    rewrite joindicts_loop_cons in Hrun.
    destruct (dict_get result k) as [e|] eqn:Eres.
    + assert (dict_mem result k = true) as Hmem
          by (unfold dict_mem; by rewrite Eres).
      assert (k ∈ keys result) as Hin.
      { destruct (decide (k ∈ keys result)) as [|Hn]; [done|].
        apply dict_get_None in Hn. congruence. }
      rewrite decide_False by (intros Hn; by apply Hn).
      destruct (collision_kind_of e v) eqn:Ekind.
      * destruct e, v; try discriminate Ekind.
        destruct (joindicts_into (VDict d0) d (prefix +:+ k +:+ ".")) as [m|];
          [|discriminate Hrun].
        apply IH in Hrun. by rewrite Hsame in Hrun.
      * destruct e, v; try discriminate Ekind.
        apply IH in Hrun. by rewrite Hsame in Hrun.
      * assert ((if negb (py_eq e v)
                 then Raise (Exception (collision_message (prefix +:+ k) v e))
                 else joindicts_loop prefix items result) = Ok out) as Hrun'
          by (destruct e, v; try discriminate Ekind; exact Hrun).
        destruct (py_eq e v); [|discriminate Hrun']. by apply IH in Hrun'.
    + assert (k ∉ keys result) as Hnin by (by apply dict_get_None).
      rewrite decide_True by done.
      apply IH in Hrun. rewrite Hrun, keys_dict_set.
      unfold dict_mem. rewrite Eres, <- app_assoc. f_equal. simpl. f_equal.
      apply filter_ext_elem. intros x Hx. rewrite elem_of_app.
      split; [tauto|]. intros Hn [Hr| ->%list_elem_of_singleton]; tauto.
Qed.


End JoindictsFacts.

Lemma wf_valueb_correct (v : value) : wf_valueb v = true -> wf_value v.
Proof.
  induction v as [ | | | | l IH | d IH ] using value_nested_ind;
    simpl; intros Hb; try constructor.
  - induction IH as [|x l Hx _ IHl]; [constructor|].
    simpl in Hb. apply andb_true_iff in Hb as [Hb1 Hb2].
    constructor; [by apply Hx|by apply IHl].
  - apply andb_true_iff in Hb as [Hb _]. by apply bool_decide_eq_true in Hb.
  - apply andb_true_iff in Hb as [_ Hb].
    induction IH as [|[k x] d Hx _ IHd]; [constructor|].
    simpl in Hb. apply andb_true_iff in Hb as [Hb1 Hb2].
    constructor; [by apply Hx|by apply IHd].
Qed.

(** The merges of the specification, run on the embedding. *)
Example joindicts_examples :
  let B := plain_repr in
  joindicts [("a", VDict [("x", VNum 1)])] [VDict [("a", VDict [("y", VNum 2)])]] ""
    = Ok [("a", VDict [("x", VNum 1); ("y", VNum 2)])] /\
  joindicts [("a", VList [VNum 1])] [VDict [("a", VList [VNum 2])]] ""
    = Ok [("a", VList [VNum 1; VNum 2])] /\
  joindicts [("a", VNum 1)] [VDict [("a", VNum 1)]] "" = Ok [("a", VNum 1)] /\
  joindicts [("a", VNum 1)] [VDict [("a", VNum 2)]] ""
    = Raise (Exception
               ("Failed to merge dictionaries: unresolved collision and " +:+
                "mismatch on key 'a', 2 into 1")).
Proof. repeat split. Qed.


(** ** group_fields and ungroup_fields *)

Local Arguments Ascii.eqb : simpl never.

Lemma startswith_drop (key g : string) :
  startswith key (g +:+ "_") = true ->
  key = g +:+ "_" +:+ str_drop (String.length g + 1) key.
Proof.
  revert key. induction g as [|c g IH]; intros [|d key]; simpl; try done.
  - destruct (Ascii.eqb_spec "_"%char d) as [<-|]; [|done].
    by destruct key.
  - destruct (Ascii.eqb_spec c d) as [<-|]; [|done].
    intros Hs.
    change (String c key =
            String c (g +:+ "_" +:+ str_drop (String.length g + 1) key)).
    f_equal. by apply IH.
Qed.

Lemma dict_set_fresh (d : dict) (k : string) (v : value) :
  dict_get d k = None -> dict_set d k v = d ++ [(k, v)].
Proof.
  induction d as [|[k0 w] d IH]; simpl; [done|].
  destruct (String.eqb k0 k); [done|]. intros Hg. by rewrite IH.
Qed.

Lemma dict_get_split (d : dict) (k : string) (v : value) :
  dict_get d k = Some v ->
  exists d1 d2,
    d = d1 ++ (k, v) :: d2 /\
    forall w, dict_set d k w = d1 ++ (k, w) :: d2.
Proof.
  induction d as [|[k0 w0] d IH]; simpl; [done|].
  destruct (String.eqb k0 k) eqn:E.
  - apply String.eqb_eq in E as ->. intros [= ->]. by exists [], d.
  - intros Hg. destruct (IH Hg) as (d1 & d2 & -> & Hset).
    exists ((k0, w0) :: d1), d2. split; [done|].
    intros w. simpl. by rewrite Hset.
Qed.

Section Grouping.
Variable gs : list string.

Lemma flat_app (d1 d2 : dict) : flat gs (d1 ++ d2) = flat gs d1 ++ flat gs d2.
Proof. unfold flat. by rewrite flat_map_app. Qed.

Lemma check_not_grouped_fresh (obj : dict) :
  (forall g, g ∈ gs -> g ∉ keys obj) ->
  check_not_grouped obj (group_list gs) = Ok (group_list gs).
Proof.
  unfold group_list. induction gs as [|g l IH]; intros Hfresh; [done|].
  simpl. unfold dict_mem.
  assert (dict_get obj g = None) as ->.
  { apply dict_get_None. apply Hfresh. apply list_elem_of_here. }
  simpl. rewrite IH; [done|].
  intros g' Hg'. apply Hfresh. by apply list_elem_of_further.
Qed.

Lemma group_results_of_strings (key : string) :
  group_results_of key (group_list gs) =
  Ok (List.filter (fun g => startswith key (g +:+ "_")) gs).
Proof.
  unfold group_list. induction gs as [|g l IH]; [done|].
  simpl. rewrite IH. simpl. by destruct (startswith key (g +:+ "_")).
Qed.

Lemma key_in_group_list (key : string) :
  key_in_groups key (group_list gs) = bool_decide (key ∈ gs).
Proof.
  unfold key_in_groups, group_list. induction gs as [|g l IH]; [done|].
  simpl. rewrite IH. destruct (String.eqb_spec g key) as [->|Hne]; simpl.
  - symmetry. apply bool_decide_eq_true. apply list_elem_of_here.
  - apply bool_decide_ext. rewrite elem_of_cons. naive_solver.
Qed.

Lemma keys_app (d1 d2 : dict) : keys (d1 ++ d2) = keys d1 ++ keys d2.
Proof. apply List.map_app. Qed.

Lemma elem_of_keys (d : dict) (k : string) (v : value) : (k, v) ∈ d -> k ∈ keys d.
Proof. intros Hin. apply list_elem_of_fmap. by exists (k, v). Qed.

Lemma elem_of_flat_passed (grouped : dict) (key : string) (value : value) :
  key ∉ gs -> (key, value) ∈ grouped -> (key, value) ∈ flat gs grouped.
Proof.
  intros Hk Hin. unfold flat. apply list_elem_of_In, in_flat_map.
  exists (key, value). split; [by apply list_elem_of_In|].
  simpl. rewrite bool_decide_eq_false_2 by done. by left.
Qed.

Lemma elem_of_flat_grouped (grouped sub : dict) (g subkey : string) (value : value) :
  g ∈ gs -> (g, VDict sub) ∈ grouped -> (subkey, value) ∈ sub ->
  (g +:+ "_" +:+ subkey, value) ∈ flat gs grouped.
Proof.
  intros Hg Hin Hsub. unfold flat. apply list_elem_of_In, in_flat_map.
  exists (g, VDict sub). split; [by apply list_elem_of_In|].
  simpl. rewrite bool_decide_eq_true_2 by done.
  apply list_elem_of_In, list_elem_of_fmap. by exists (subkey, value).
Qed.

Lemma group_fields_loop_flat (items : dict) :
  forall grouped seen,
    NoDup (keys (seen ++ items)) ->
    (forall g, g ∈ gs -> g ∉ keys (seen ++ items)) ->
    flat gs grouped ≡ₚ seen ->
    groups_are_dicts gs grouped ->
    exists grouped',
      group_fields_loop (group_list gs) items grouped = Ok grouped' /\
      flat gs grouped' ≡ₚ seen ++ items /\
      groups_are_dicts gs grouped'.
Proof.
  induction items as [|[k v] items IH]; intros grouped seen Hnd Hfresh Hflat Hdicts.
  - exists grouped. by rewrite app_nil_r.
  - assert (k ∉ keys seen) as Hk.
    { rewrite keys_app in Hnd. apply NoDup_app in Hnd as (_ & Hnd & _).
      intros Hin. apply (Hnd k Hin). apply list_elem_of_here. }
    assert (k ∉ gs) as Hkgs.
    { intros Hin. apply (Hfresh k Hin). rewrite keys_app.
      apply elem_of_app. right. apply list_elem_of_here. }
    assert (forall w, (k, w) ∈ flat gs grouped -> False) as Hnew.
    { intros w Hin. rewrite Hflat in Hin. apply Hk. by eapply elem_of_keys. }
    assert (forall grouped1,
               flat gs grouped1 ≡ₚ flat gs grouped ++ [(k, v)] ->
               groups_are_dicts gs grouped1 ->
               exists grouped',
                 group_fields_loop (group_list gs) items grouped1 = Ok grouped' /\
                 flat gs grouped' ≡ₚ seen ++ (k, v) :: items /\
                 groups_are_dicts gs grouped') as Hnext.
    { intros grouped1 Hflat1 Hdicts1.
      destruct (IH grouped1 (seen ++ [(k, v)])) as (grouped' & Hrun & Hperm & Hd).
      - by rewrite <- app_assoc.
      - intros g Hg. rewrite <- app_assoc. by apply Hfresh.
      - by rewrite Hflat1, Hflat.
      - done.
      - exists grouped'. rewrite <- app_assoc in Hperm. done. }
    simpl. rewrite group_results_of_strings. simpl.
    destruct (List.filter (fun g => startswith k (g +:+ "_")) gs) as [|g found]
      eqn:Efilter.
    + assert (dict_get grouped k = None) as Hnone.
      { destruct (dict_get grouped k) as [w|] eqn:E; [|done]. exfalso.
        apply (Hnew w). apply elem_of_flat_passed; [done|].
        by apply dict_get_Some_elem. }
      rewrite (dict_set_fresh _ _ _ Hnone). apply Hnext.
      * rewrite flat_app. simpl. rewrite bool_decide_eq_false_2 by done. done.
      * intros key value [Hin|[= -> ->]%list_elem_of_singleton]%elem_of_app Hg;
          [by eapply Hdicts|done].
    + assert (g ∈ gs /\ startswith k (g +:+ "_") = true) as [Hg Hstart].
      { assert (In g (List.filter (fun g => startswith k (g +:+ "_")) gs)) as Hin
            by (rewrite Efilter; by left).
        apply filter_In in Hin as [Hin Hs]. split; [by apply list_elem_of_In|done]. }
      apply startswith_drop in Hstart.
      set (subkey := str_drop (String.length g + 1) k) in *.
      unfold setdefault_assign.
      destruct (dict_get grouped g) as [w|] eqn:Eg.
      * assert ((g, w) ∈ grouped) as Hin by (by apply dict_get_Some_elem).
        pose proof (Hdicts g w Hin Hg) as Hw.
        destruct w as [ | | | | |sub]; try discriminate Hw.
        assert (dict_get sub subkey = None) as Hsub.
        { destruct (dict_get sub subkey) as [x|] eqn:E; [|done]. exfalso.
          apply (Hnew x). rewrite Hstart.
          eapply elem_of_flat_grouped; [done|exact Hin|].
          by apply dict_get_Some_elem. }
        destruct (dict_get_split _ _ _ Eg) as (d1 & d2 & Hsplit & Hset).
        simpl. rewrite Hset, (dict_set_fresh _ _ _ Hsub). apply Hnext.
        -- rewrite Hsplit, !flat_app. simpl.
           rewrite !bool_decide_eq_true_2 by done.
           rewrite List.map_app. simpl. rewrite <- Hstart.
           rewrite <- !app_assoc. simpl.
           rewrite (Permutation_app_comm [(k, v)] (flat gs d2)).
           done.
        -- intros key value Hkv Hkey. rewrite Hsplit in Hdicts.
           apply elem_of_app in Hkv as [Hkv|[[= -> ->]|Hkv]%elem_of_cons];
             [|done|].
           ++ eapply Hdicts; [|done]. apply elem_of_app. by left.
           ++ eapply Hdicts; [|done]. apply elem_of_app. right.
              by apply list_elem_of_further.
      * simpl. rewrite (dict_set_fresh _ _ _ Eg). apply Hnext.
        -- rewrite flat_app. simpl. rewrite bool_decide_eq_true_2 by done.
           simpl. by rewrite <- Hstart.
        -- intros key value [Hin|[= -> ->]%list_elem_of_singleton]%elem_of_app Hkey;
             [by eapply Hdicts|done].
Qed.

Lemma ungroup_items_fresh (key : string) (sub : dict) :
  forall result,
    NoDup (keys result ++ map (fun sv => key +:+ "_" +:+ sv.1) sub) ->
    ungroup_items key sub result =
    result ++ map (fun sv => (key +:+ "_" +:+ sv.1, sv.2)) sub.
Proof.
  induction sub as [|[subkey subvalue] sub IH]; intros result Hnd; simpl.
  - by rewrite app_nil_r.
  - assert (dict_get result (key +:+ "_" +:+ subkey) = None) as Hnone.
    { apply dict_get_None. apply NoDup_app in Hnd as (_ & Hnd & _).
      intros Hin. apply (Hnd _ Hin). apply list_elem_of_here. }
    rewrite (dict_set_fresh _ _ _ Hnone), IH.
    + by rewrite <- app_assoc.
    + rewrite keys_app, <- app_assoc. exact Hnd.
Qed.

Lemma keys_flat_item_dict (key : string) (sub : dict) :
  key ∈ gs ->
  keys (flat_item gs (key, VDict sub)) = map (fun sv => key +:+ "_" +:+ sv.1) sub.
Proof.
  intros Hk. simpl. rewrite bool_decide_eq_true_2 by done.
  unfold keys. rewrite List.map_map. done.
Qed.

Lemma ungroup_fields_loop_flat (grouped : dict) :
  forall result,
    groups_are_dicts gs grouped ->
    NoDup (keys result ++ keys (flat gs grouped)) ->
    ungroup_fields_loop (group_list gs) grouped result = Ok (result ++ flat gs grouped).
Proof.
  induction grouped as [|[k v] grouped IH]; intros result Hdicts Hnd.
  - simpl. by rewrite app_nil_r.
  - assert (groups_are_dicts gs grouped) as Hdicts'.
    { intros key value Hin. apply Hdicts. by apply list_elem_of_further. }
    change (flat gs ((k, v) :: grouped)) with (flat_item gs (k, v) ++ flat gs grouped) in *.
    rewrite keys_app, app_assoc in Hnd.
    simpl ungroup_fields_loop. rewrite key_in_group_list.
    destruct (decide (k ∈ gs)) as [Hk|Hk].
    + rewrite bool_decide_eq_true_2 by done. simpl negb. cbv iota.
      pose proof (Hdicts k v (list_elem_of_here _ _) Hk) as Hv.
      destruct v as [ | | | | |sub]; try discriminate Hv.
      rewrite keys_flat_item_dict in Hnd by done.
      rewrite ungroup_items_fresh.
      * rewrite IH; [|done|].
        -- rewrite <- app_assoc. simpl. by rewrite bool_decide_eq_true_2.
        -- rewrite keys_app. unfold keys at 2. rewrite List.map_map. exact Hnd.
      * by apply NoDup_app in Hnd as (Hnd & _ & _).
    + rewrite bool_decide_eq_false_2 by done. simpl negb. cbv iota.
      assert (flat_item gs (k, v) = [(k, v)]) as Hitem
          by (simpl; by rewrite bool_decide_eq_false_2).
      rewrite Hitem in *. simpl in Hnd.
      assert (dict_get result k = None) as Hnone.
      { apply dict_get_None. apply NoDup_app in Hnd as (Hnd & _ & _).
        apply NoDup_app in Hnd as (_ & Hnd & _).
        intros Hin. apply (Hnd _ Hin). apply list_elem_of_here. }
      rewrite (dict_set_fresh _ _ _ Hnone), IH; [|done|].
      * by rewrite <- app_assoc.
      * by rewrite keys_app.
Qed.

(** Grouping and then ungrouping an object none of whose keys is a group
    name gives back the items of the object. *)
Lemma ungroup_group_fields (obj : dict) :
  NoDup (keys obj) ->
  (forall g, g ∈ gs -> g ∉ keys obj) ->
  exists grouped result,
    group_fields obj (VList (group_list gs)) = Ok grouped /\
    ungroup_fields grouped (group_list gs) = Ok result /\
    result ≡ₚ obj.
Proof.
  intros Hnd Hfresh.
  destruct (group_fields_loop_flat obj [] []) as (grouped & Hrun & Hperm & Hdicts);
    try done.
  { intros key value Hin. by apply elem_of_nil in Hin. }
  exists grouped, (flat gs grouped). split; [|split; [|done]].
  - unfold group_fields. by rewrite check_not_grouped_fresh.
  - unfold ungroup_fields. rewrite ungroup_fields_loop_flat; [done|done|].
    simpl. unfold keys. change (map fst (flat gs grouped)) with (fst <$> flat gs grouped).
    rewrite Hperm. exact Hnd.
Qed.

End Grouping.

(** C7: on the object [{slot_size: 1, slot_count: 2, other: "x"}] with the
    group list [["slot"]], [group_fields] returns
    [{slot: {size: 1, count: 2}, other: "x"}] and [ungroup_fields] of that
    with the same list returns the object again. In general, for any object
    none of whose keys is a group name, [group_fields] succeeds and
    [ungroup_fields] of its result succeeds with the items of the object
    (which is equality of Python dicts, where the order of the keys does not
    count). *)
Theorem ungroup_fields_inverts_group_fields :
  group_fields [("slot_size", VNum 1); ("slot_count", VNum 2); ("other", VStr "x")]
    (VList [VStr "slot"]) =
    Ok [("slot", VDict [("size", VNum 1); ("count", VNum 2)]); ("other", VStr "x")] /\
  ungroup_fields
    [("slot", VDict [("size", VNum 1); ("count", VNum 2)]); ("other", VStr "x")]
    [VStr "slot"] =
    Ok [("slot_size", VNum 1); ("slot_count", VNum 2); ("other", VStr "x")] /\
  (forall (gs : list string) (obj : dict),
      NoDup (keys obj) ->
      (forall g, g ∈ gs -> g ∉ keys obj) ->
      exists grouped result,
        group_fields obj (VList (group_list gs)) = Ok grouped /\
        ungroup_fields grouped (group_list gs) = Ok result /\
        result ≡ₚ obj).
Proof.
  split; [reflexivity|]. split; [reflexivity|].
  intros gs obj. apply ungroup_group_fields.
Qed.

(** The general statement at an object whose grouped keys are not adjacent:
    [{slot_size: 1, other: "x", slot_count: 2}]. *)
Lemma ungroup_fields_inverts_group_fields_witness :
  exists grouped result,
    group_fields [("slot_size", VNum 1); ("other", VStr "x"); ("slot_count", VNum 2)]
      (VList (group_list ["slot"])) = Ok grouped /\
    ungroup_fields grouped (group_list ["slot"]) = Ok result /\
    result ≡ₚ [("slot_size", VNum 1); ("other", VStr "x"); ("slot_count", VNum 2)].
Proof.
  apply (proj2 (proj2 ungroup_fields_inverts_group_fields) ["slot"]).
  - apply (bool_decide_unpack _). vm_compute. exact I.
  - intros g ->%list_elem_of_singleton. apply (bool_decide_unpack _).
    vm_compute. exact I.
Defined.

(** ** validate_monster_rewards *)

Lemma percentage_sum_of_rewards (rs : list value) (rewards : list (string * Z)) :
  Forall2 is_reward rs rewards ->
  forall acc,
    fold_exc (fun acc r => p ← getitem r "percentage"; py_add acc p) acc rs =
    Ok (acc + total_percentage rewards)%Z.
Proof.
  induction 1 as [|r [item pct] rs rewards (d & -> & _ & Hp) _ IH]; intros acc.
  - simpl. f_equal. unfold total_percentage. simpl. lia.
  - simpl in Hp. simpl. unfold dict_item. rewrite Hp. simpl. rewrite IH.
    f_equal. unfold total_percentage. simpl. lia.
Qed.

Lemma reward_names_rewards (rs : list value) (rewards : list (string * Z)) :
  Forall2 is_reward rs rewards -> reward_names rs = Ok (map fst rewards).
Proof.
  unfold reward_names.
  induction 1 as [|r [item pct] rs rewards (d & -> & Hi & _) _ IH]; [done|].
  simpl in Hi. simpl. unfold dict_item. rewrite Hi. simpl. by rewrite IH.
Qed.

Lemma M_bind_lift {A B} (r : exc A) (k : A -> M B) (w : world) :
  (lift r ≫= k) w =
  match r with
  | Ok a => k a w
  | Raise e => (Raise e, w)
  end.
Proof. by destruct r. Qed.

Lemma M_bind_run {A B} (m : M A) (k : A -> M B) (w : world) :
  (m ≫= k) w =
  match m w with
  | (Ok a, w') => k a w'
  | (Raise e, w') => (Raise e, w')
  end.
Proof. reflexivity. Qed.

Lemma ensure_warn_run (field : bool) (error_message : string) (w : world) :
  ensure_warn field error_message w =
  (Ok tt, World (stdout w ++ warning_lines field error_message) (session w)).
Proof.
  unfold ensure_warn, warning_lines. destruct field; [|reflexivity].
  destruct w. unfold mret, M_ret. simpl. by rewrite app_nil_r.
Qed.

Lemma check_rewards_run (monster_name condition rank : string) (rs : list value)
    (rewards : list (string * Z)) (w : world) :
  Forall2 is_reward rs rewards ->
  check_rewards monster_name condition rank (VList rs) w =
  (Ok tt,
   World
     (stdout w ++
      (if bool_decide (condition ∈ single_drop_conditions)
       then
         warning_lines (total_percentage rewards =? 100)%Z
           (error_start monster_name rank condition +:+ " does not sum to 100") ++
         warning_lines
           (match get_duplicates (map fst rewards) with [] => true | _ => false end)
           (duplicates_message monster_name (get_duplicates (map fst rewards))
              rank condition)
       else
         warning_lines (100 <=? total_percentage rewards)%Z
           (error_start monster_name rank condition +:+
            " does not sum to at least 100")))
     (session w)).
Proof.
  intros Hrs. unfold check_rewards, percentage_sum_of.
  rewrite M_bind_lift. simpl py_iter. cbv beta iota.
  rewrite M_bind_lift, (percentage_sum_of_rewards rs rewards Hrs 0%Z), Z.add_0_l.
  rewrite M_bind_run.
  destruct (bool_decide (condition ∈ single_drop_conditions)).
  - rewrite ensure_warn_run.
    rewrite M_bind_lift, (reward_names_rewards rs rewards Hrs).
    rewrite ensure_warn_run. simpl. by rewrite <- app_assoc.
  - rewrite ensure_warn_run. reflexivity.
Qed.

Lemma sum_warning_neq_duplicate_warning monster_name condition rank duplicates :
  sum_warning monster_name condition rank <>
  duplicate_warning monster_name condition rank duplicates.
Proof.
  intros Heq. apply (f_equal (String.get 9)) in Heq. discriminate Heq.
Qed.

Lemma prints_only_bind_lift {A} (r : exc A) (k : A -> M unit) (a : A) :
  r = Ok a -> prints_only (k a) -> prints_only (lift r ≫= k).
Proof. intros -> Hk w. rewrite M_bind_lift. apply Hk. Qed.

Lemma prints_only_for_each {A} (l : list A) (body : A -> M unit) :
  Forall (fun x => prints_only (body x)) l -> prints_only (for_each l body).
Proof.
  induction 1 as [|x l Hx _ IH]; intros w; simpl.
  - exists []. by rewrite app_nil_r; destruct w.
  - rewrite M_bind_run. destruct (Hx w) as [printed ->].
    destruct (IH (World (stdout w ++ printed) (session w))) as [printed' ->].
    exists (printed ++ printed'). simpl. by rewrite app_assoc.
Qed.



(** The groups of the specification, validated: a "Body Carve" group that
    adds up to 100 without a repeated item prints nothing, one that adds up
    to 95 and one with a repeated item print their warning; a "Quest Reward"
    group prints nothing at 105, even with a repeated item, and the warning
    at 90. *)
Example validate_monster_rewards_examples :
  let reward item pct :=
    VDict [("item_en", VStr item); ("stack", VNum 1); ("percentage", VNum pct)] in
  let monster rewards :=
    {| row_id := 1; row_names := [("en", "Rathian")];
       row_data := [("rewards", VDict rewards)] |} in
  let run rewards :=
    stdout (validate_monster_rewards
              {| location_map := []; item_map := []; skill_map := []; charm_map := [];
                 monster_map := [monster rewards]; armor_map := []; armorset_map := [];
                 weapon_map := []; decoration_map := []; weapon_data := [] |}
              (World [] [])).2 in
  run [("Body Carve", VDict [("lr", VList [reward "Scale" 60; reward "Plate" 40])])] = [] /\
  run [("Body Carve", VDict [("lr", VList [reward "Scale" 60; reward "Plate" 35])])] =
    ["WARNING: Rewards %'s for monster Rathian (rank lr condition Body Carve) does not sum to 100"] /\
  run [("Body Carve", VDict [("lr", VList [reward "Scale" 60; reward "Scale" 40])])] =
    ["WARNING: Monster Rathian contains duplicate rewards Scale in rank lr for condition Body Carve"] /\
  run [("Quest Reward", VDict [("hr", VList [reward "Scale" 60; reward "Scale" 45])])] = [] /\
  run [("Quest Reward", VDict [("hr", VList [reward "Scale" 60; reward "Plate" 30])])] =
    ["WARNING: Rewards %'s for monster Rathian (rank hr condition Quest Reward) does not sum to at least 100"].
Proof. repeat split; vm_compute; reflexivity. Qed.

(** ** Computations that raise *)

Lemma raises_lift {A} (e : exn) : raises (lift (Raise e : exc A)).
Proof. intros w. by exists e, w. Qed.

Lemma raises_bind_l {A B} (m : M A) (k : A -> M B) :
  raises m -> raises (m ≫= k).
Proof.
  intros Hm w. destruct (Hm w) as (e & w' & Hrun).
  exists e, w'. rewrite M_bind_run, Hrun. done.
Qed.

Lemma raises_bind_r {A B} (m : M A) (k : A -> M B) :
  (forall a, raises (k a)) -> raises (m ≫= k).
Proof.
  intros Hk w. rewrite M_bind_run.
  destruct (m w) as [[a|e] w']; [apply Hk|by exists e, w'].
Qed.

Lemma raises_bind_lift {A B} (r : exc A) (k : A -> M B) :
  (forall a, r = Ok a -> raises (k a)) -> raises (lift r ≫= k).
Proof.
  intros Hk w. rewrite M_bind_lift.
  destruct r as [a|e]; [by apply Hk|by exists e, w].
Qed.

Lemma raises_for_each {A} (l : list A) (body : A -> M unit) (x : A) :
  x ∈ l -> raises (body x) -> raises (for_each l body).
Proof.
  induction l as [|y l IH]; intros Hin Hx; [by apply elem_of_nil in Hin|].
  apply elem_of_cons in Hin as [<-|Hin]; simpl.
  - by apply raises_bind_l.
  - apply raises_bind_r. intros _. by apply IH.
Qed.

(** ** The rank check of validate_monster_rewards *)

(** C9: a group of rewards whose rank is neither "lr" nor "hr" makes the body
    of the loop raise the exception of [ensure], with nothing printed for the
    group; [validate_monster_rewards] raises as soon as the monster map holds
    such a group, and when it is the first group visited the exception is the
    one of that group and nothing at all was printed. *)
Theorem validate_unsupported_rank_raises :
  (forall monster_name condition rank rewards w,
      rank ∉ supported_ranks ->
      validate_rank_group monster_name condition rank rewards w =
      (Raise (unsupported_rank_error monster_name rank), w)) /\
  (forall data entry conditions condition sub_condition ranks rank rewards,
      entry ∈ monster_map data ->
      py_items (row_get entry "rewards" (VDict [])) = Ok conditions ->
      (condition, sub_condition) ∈ conditions ->
      py_items sub_condition = Ok ranks ->
      (rank, rewards) ∈ ranks ->
      rank ∉ supported_ranks ->
      raises (validate_monster_rewards data)) /\
  (forall data entry others monster_name condition ranks conditions rank rewards w,
      monster_map data = entry :: others ->
      row_name entry "en" = Ok monster_name ->
      row_get entry "rewards" (VDict []) =
        VDict ((condition, VDict ((rank, rewards) :: ranks)) :: conditions) ->
      rank ∉ supported_ranks ->
      validate_monster_rewards data w =
      (Raise (unsupported_rank_error monster_name rank), w)).
Proof.
  assert (forall monster_name condition rank rewards w,
             rank ∉ supported_ranks ->
             validate_rank_group monster_name condition rank rewards w =
             (Raise (unsupported_rank_error monster_name rank), w)) as Hgroup.
  { intros monster_name condition rank rewards w Hrank.
    unfold validate_rank_group. rewrite M_bind_lift. unfold ensure.
    by rewrite bool_decide_eq_false_2. }
  split; [exact Hgroup|]. split.
  - intros data entry conditions condition sub_condition ranks rank rewards
      Hentry Hconditions Hcond Hranks Hin Hrank.
    unfold validate_monster_rewards.
    apply (raises_for_each _ _ entry Hentry).
    unfold validate_monster. apply raises_bind_lift. intros monster_name _.
    apply raises_bind_lift. intros conditions' Hconditions'.
    assert (conditions' = conditions) as -> by congruence.
    apply (raises_for_each _ _ (condition, sub_condition) Hcond).
    apply raises_bind_lift. intros ranks' Hranks'.
    assert (ranks' = ranks) as -> by congruence.
    apply (raises_for_each _ _ (rank, rewards) Hin).
    intros w. eexists _, _. by apply Hgroup.
  - intros data entry others monster_name condition ranks conditions rank rewards w
      Hmap Hname Hrewards Hrank.
    unfold validate_monster_rewards. rewrite Hmap. simpl for_each.
    rewrite M_bind_run. unfold validate_monster.
    rewrite M_bind_lift, Hname, M_bind_lift, Hrewards. simpl py_items.
    cbv beta iota. simpl for_each.
    rewrite M_bind_run, M_bind_lift. simpl py_items. cbv beta iota. simpl for_each.
    rewrite M_bind_run. by rewrite Hgroup.
Qed.

(** The theorem at a monster map whose first group has the rank "g". *)
Lemma validate_unsupported_rank_raises_witness :
  validate_monster_rewards rank_g_data (World [] []) =
  (Raise (Exception "ERROR: Unsupported rank g in Rathian rewards"), World [] []).
Proof.
  apply (proj2 (proj2 validate_unsupported_rank_raises) rank_g_data rank_g_monster
           [] "Rathian" "Body Carve" [] [] "g"
           (VList [VDict [("item_en", VStr "Scale"); ("stack", VNum 1);
                          ("percentage", VNum 100)]])).
  - reflexivity.
  - reflexivity.
  - reflexivity.
  - intros Hin. apply (bool_decide_pack _) in Hin. vm_compute in Hin. exact Hin.
Defined.

(** ** Loops that run to their end *)

Lemma for_each_lift_ok {A} (l : list A) (f : A -> exc row) (rows : list row)
    (w : world) :
  Forall2 (fun x r => f x = Ok r) l rows ->
  for_each l (fun x => r ← lift (f x); session_add r) w =
  (Ok tt, World (stdout w) (session w ++ rows)).
Proof.
  intros Hrows. revert w.
  induction Hrows as [|x r l rows Hx _ IH]; intros [out sess]; simpl.
  - by rewrite app_nil_r.
  - rewrite M_bind_run, M_bind_lift, Hx. unfold session_add at 1. simpl.
    rewrite IH. simpl. by rewrite <- app_assoc.
Qed.

(** ** build_items *)




(** ** The pre-pass of build_weapons *)

Section FinalWeapons.
Variable data : Data.

Lemma row_item_truthy (entry : DataRow) (key : string) :
  truthy (row_get entry key VNone) = true ->
  row_item entry key = Ok (row_get entry key VNone).
Proof.
  unfold row_get, row_item, dict_get_default, dict_item.
  by destruct (dict_get (row_data entry) key).
Qed.

Lemma final_prepass_step_removes (all_final : gset Z) (entry : DataRow) :
  final_prepass_step data all_final entry =
  Ok (all_final ∖ list_to_set (option_list (predecessor_of data entry))).
Proof.
  unfold final_prepass_step, predecessor_of.
  destruct (truthy (row_get entry "previous" VNone)) eqn:Hprev; simpl.
  - rewrite (row_item_truthy _ _ Hprev). simpl.
    destruct (id_of (weapon_map data) "en" (row_get entry "previous" VNone))
      as [prev_id|]; simpl.
    + destruct (decide (prev_id ∈ all_final)); simpl; f_equal; set_solver.
    + f_equal. set_solver.
  - f_equal. set_solver.
Qed.

Lemma fold_final_prepass (entries : list DataRow) (all_final : gset Z) :
  fold_exc (final_prepass_step data) all_final entries =
  Ok (all_final ∖ predecessors data entries).
Proof.
  revert all_final. induction entries as [|entry entries IH]; intros all_final.
  - simpl. f_equal. unfold predecessors. set_solver.
  - simpl. rewrite final_prepass_step_removes. simpl. rewrite IH. f_equal.
    unfold predecessors. simpl. destruct (predecessor_of data entry); set_solver.
Qed.

Lemma final_prepass_set :
  final_prepass data =
  Ok (list_to_set (map row_id (weapon_data data)) ∖ predecessors data (weapon_data data)).
Proof. apply fold_final_prepass. Qed.

Lemma elem_of_predecessors (entries : list DataRow) (id : Z) :
  id ∈ predecessors data entries <->
  exists entry, entry ∈ entries /\ predecessor_of data entry = Some id.
Proof.
  unfold predecessors. rewrite elem_of_list_to_set, list_elem_of_omap. done.
Qed.

End FinalWeapons.

Lemma get_attr_set_attr (r : row) (name : string) (v : value) :
  get_attr (set_attr r name v) name = Some v.
Proof. destruct r. apply dict_get_set_eq. Qed.

Lemma weapon_attributes_final (all_final : gset Z) (entry : DataRow)
    (weapon r : row) :
  weapon_attributes all_final entry weapon = Ok r ->
  get_attr r "final" = Some (VBool (bool_decide (row_id entry ∈ all_final))).
Proof.
  unfold weapon_attributes. intros Hrun.
  repeat match type of Hrun with
         | (?m ≫= _) = Ok _ =>
             destruct m eqn:?; simpl in Hrun; [|discriminate Hrun]
         end.
  injection Hrun as <-. apply get_attr_set_attr.
Qed.



(** ** load_quests *)

Section LoadQuestsFacts.
Context `{Assets}.
Local Arguments getindex : simpl never.
Local Arguments getitem : simpl never.
Local Arguments is_placeholder_name : simpl never.

Lemma load_quest_at_cases (path : Path) (loaded : option QuestInfo) :
  load_quest_at rem_base_path path = Ok loaded ->
  match loaded with
  | Some quest => is_placeholder_quest path = false /\ quest_info_for path quest
  | None => is_placeholder_quest path = true
  end.
Proof.
  unfold load_quest_at, is_placeholder_quest, english_name, quest_info_for,
    quest_name_table.
  destruct (load_text _) as [quest_text|]; simpl; [|discriminate].
  destruct (getindex (VList quest_text) 0) as [table|]; simpl; [|discriminate].
  destruct (getitem table "en") as [en|]; simpl; [|discriminate].
  destruct (is_placeholder_name en); [by intros [= <-]|].
  destruct (load_quest path) as [bin|]; simpl; [|discriminate].
  fold (existing_rem_files bin).
  destruct (map_exc read_rem_file (existing_rem_files bin)) as [rems|] eqn:Hrems;
    simpl; [|discriminate].
  intros [= <-]. simpl. done.
Qed.

Lemma load_quest_at_loaded (path : Path) (quest : QuestInfo) :
  is_placeholder_quest path = false ->
  is_ok (english_name path) = true ->
  quest_info_for path quest ->
  load_quest_at rem_base_path path = Ok (Some quest).
Proof.
  unfold load_quest_at, is_placeholder_quest, english_name, quest_info_for,
    quest_name_table.
  destruct quest as [table bin rems]. simpl.
  destruct (load_text _) as [quest_text|]; simpl; [|by intros _ _ [? _]].
  intros Hph Hok (Hidx & Hbin & Hrems). rewrite Hidx in *. simpl in *.
  destruct (getitem table "en") as [en|]; simpl in *; [|discriminate Hok].
  rewrite Hph, Hbin. simpl. unfold existing_rem_files in Hrems. by rewrite Hrems.
Qed.

Lemma load_quest_at_skipped (path : Path) :
  is_placeholder_quest path = true ->
  load_quest_at rem_base_path path = Ok None.
Proof.
  unfold load_quest_at, is_placeholder_quest, english_name, quest_name_table.
  destruct (load_text _) as [quest_text|]; simpl; [|discriminate].
  destruct (getindex (VList quest_text) 0) as [table|]; simpl; [|discriminate].
  destruct (getitem table "en") as [en|]; simpl; [|discriminate].
  by intros ->.
Qed.

Lemma load_quests_from_ok (files : list Path) :
  forall quests result,
    load_quests_from files quests = Ok result ->
    exists loaded,
      result = quests ++ loaded /\
      Forall2 quest_info_for
        (List.filter (fun path => negb (is_placeholder_quest path)) files) loaded.
Proof.
  induction files as [|path files IH]; intros quests result Hrun.
  - injection Hrun as <-. exists []. by rewrite app_nil_r.
  - unfold load_quests_from in Hrun. simpl in Hrun.
    destruct (load_quest_at rem_base_path path) as [loaded|] eqn:Hat;
      simpl in Hrun; [|discriminate Hrun].
    apply load_quest_at_cases in Hat.
    destruct loaded as [quest|]; simpl in Hrun.
    + destruct Hat as [Hph Hinfo].
      destruct (IH _ _ Hrun) as (loaded & -> & Hall).
      exists (quest :: loaded). rewrite <- app_assoc. split; [done|].
      simpl. rewrite Hph. simpl. by constructor.
    + destruct (IH _ _ Hrun) as (loaded & -> & Hall).
      exists loaded. split; [done|]. simpl. by rewrite Hat.
Qed.

Lemma load_quests_from_loaded (files : list Path) (loaded : list QuestInfo) :
  Forall (fun path => is_ok (english_name path) = true) files ->
  Forall2 quest_info_for
    (List.filter (fun path => negb (is_placeholder_quest path)) files) loaded ->
  forall quests, load_quests_from files quests = Ok (quests ++ loaded).
Proof.
  revert loaded. induction files as [|path files IH]; intros loaded Hnames Hall quests.
  - inversion Hall; subst. simpl. by rewrite app_nil_r.
  - apply Forall_cons in Hnames as [Hname Hnames].
    unfold load_quests_from. simpl. simpl in Hall.
    destruct (is_placeholder_quest path) eqn:Hph; simpl in Hall.
    + rewrite (load_quest_at_skipped _ Hph). simpl. by apply IH.
    + inversion Hall as [|? quest ? rest Hinfo Hrest]; subst.
      rewrite (load_quest_at_loaded _ quest Hph Hname Hinfo). simpl.
      unfold load_quests_from in IH. rewrite (IH rest Hnames Hrest).
      by rewrite <- app_assoc.
Qed.

End LoadQuestsFacts.

(** C8: [load_quests] returns, in the order of discovery, one quest for each
    discovered file whose English name is neither "Unavailable" nor "Invalid
    Message", and none for the others: whenever it returns, its result pairs
    off with the files that are kept, each quest holding the name table and
    the parsed binary of its file and the parsed reward files among those the
    binary refers to that exist on disk; and when every discovered file has an
    English name and the kept files load, it does return those quests. *)
Theorem load_quests_skips_placeholders `{Assets} :
  (forall s,
      is_placeholder_name (VStr s) = true <->
      s = "Unavailable" \/ s = "Invalid Message") /\
  (forall quests,
      load_quests = Ok quests ->
      Forall2 quest_info_for
        (List.filter (fun path => negb (is_placeholder_quest path)) quest_files)
        quests) /\
  (forall loaded,
      Forall (fun path => is_ok (english_name path) = true) quest_files ->
      Forall2 quest_info_for
        (List.filter (fun path => negb (is_placeholder_quest path)) quest_files)
        loaded ->
      load_quests = Ok loaded) /\
  (forall binary path,
      path ∈ existing_rem_files binary <->
      path_exists path = true /\
      exists rem_id,
        rem_id ∈ rem_ids binary /\
        path = joinpath rem_base_path ("remData_" +:+ str_of_Z rem_id +:+ ".rem")).
Proof.
  split; [|split; [|split]].
  - intros s. unfold is_placeholder_name. simpl.
    rewrite orb_true_iff, !String.eqb_eq. done.
  - intros quests Hrun.
    destruct (load_quests_from_ok quest_files [] quests Hrun) as (loaded & -> & Hall).
    exact Hall.
  - intros loaded Hnames Hall.
    apply (load_quests_from_loaded quest_files loaded Hnames Hall []).
  - intros bin path. unfold existing_rem_files.
    rewrite list_elem_of_In, filter_In, in_map_iff.
    split.
    + intros [(rem_id & <- & Hin) Hex]. split; [done|].
      exists rem_id. split; [by apply list_elem_of_In|done].
    + intros [Hex (rem_id & Hin & ->)]. split; [|done].
      exists rem_id. split; [done|by apply list_elem_of_In].
Qed.

(** The theorem at that tree: the first quest is returned with its one
    existing reward file, the second is not returned. *)
Lemma load_quests_skips_placeholders_witness :
  @load_quests two_quests =
  Ok [{| name := VDict [("en", VStr "Jagras of the Ancient Forest")];
         binary := [1%Z; 2%Z] : @Mib two_quests;
         reward_data_list := ["chunk/quest/rem/remData_1.rem"] |}].
Proof.
  apply (proj1 (proj2 (proj2 (@load_quests_skips_placeholders two_quests)))).
  - repeat constructor.
  - vm_compute. repeat constructor.
Defined.

(** ** References that do not resolve *)

Lemma fails_raise {A} (e : exn) : fails (Raise e : exc A).
Proof. by exists e. Qed.

Lemma fails_bind {A B} (r : exc A) (k : A -> exc B) :
  (forall a, r = Ok a -> fails (k a)) -> fails (r ≫= k).
Proof. intros Hk. destruct r as [a|e]; [by apply Hk|by exists e]. Qed.

Lemma fails_bind_l {A B} (r : exc A) (k : A -> exc B) :
  fails r -> fails (r ≫= k).
Proof. intros [e ->]. by exists e. Qed.

Lemma fails_fold_exc {S A} (step : S -> A -> exc S) (l : list A) (x : A) :
  x ∈ l -> (forall acc, fails (step acc x)) -> forall acc, fails (fold_exc step acc l).
Proof.
  induction l as [|y l IH]; intros Hin Hx acc; [by apply elem_of_nil in Hin|].
  apply elem_of_cons in Hin as [<-|Hin]; simpl.
  - by apply fails_bind_l.
  - apply fails_bind. intros acc' _. by apply IH.
Qed.

Lemma raises_lift_fails {A} (r : exc A) : fails r -> raises (lift r).
Proof. intros [e ->]. apply raises_lift. Qed.

(** A loop that builds one row per entry raises when one of its rows does. *)
Lemma raises_rows_loop (entries : DataMap) (build : DataRow -> exc row)
    (entry : DataRow) :
  entry ∈ entries ->
  fails (build entry) ->
  raises (for_each entries (fun entry => r ← lift (build entry); session_add r)).
Proof.
  intros Hin Hfails. apply (raises_for_each _ _ entry Hin).
  apply raises_bind_l. by apply raises_lift_fails.
Qed.

Section Dangling.
Context `{Builtins}.
Variable data : Data.

Lemma ensure_unresolved {A} (id : option Z) (error_message : string)
    (k : unit -> exc A) :
  id = None ->
  (ensure (truthy_id id) error_message ≫= k) = Raise (ensure_error error_message).
Proof. by intros ->. Qed.

Lemma monster_reward_unresolved monster_name condition rank monster reward item_name :
  getitem reward "item_en" = Ok item_name ->
  id_of (item_map data) "en" item_name = None ->
  monster_reward data monster_name condition rank monster reward =
  Raise (ensure_error
           ("ERROR: item reward " +:+ py_str item_name +:+ " in monster " +:+
            monster_name +:+ " does not exist")).
Proof.
  intros Hitem Hid. unfold monster_reward. rewrite Hitem. simpl.
  by apply ensure_unresolved.
Qed.

Lemma monster_habitat_unresolved monster location_name habitat_values :
  id_of (location_map data) "en" (VStr location_name) = None ->
  monster_habitat data monster (location_name, habitat_values) =
  Raise (ensure_error ("Invalid location name " +:+ location_name)).
Proof. intros Hid. unfold monster_habitat. by apply ensure_unresolved. Qed.

Lemma armor_references_unresolved entry armor_name_en armor set_name :
  row_item entry "set" = Ok set_name ->
  id_of (armorset_map data) "en" set_name = None ->
  armor_references data entry armor_name_en armor =
  Raise (ensure_error
           ("Armorset " +:+ py_str set_name +:+ " in Armor " +:+ armor_name_en +:+
            " does not exist")).
Proof.
  intros Hset Hid. unfold armor_references. rewrite Hset. simpl.
  by apply ensure_unresolved.
Qed.

Lemma armor_skill_unresolved armor_name_en armor skill level :
  id_of (skill_map data) "en" (VStr skill) = None ->
  armor_skill data armor_name_en armor (skill, level) =
  Raise (ensure_error
           ("Skill " +:+ skill +:+ " in Armor " +:+ armor_name_en +:+
            " does not exist")).
Proof. intros Hid. unfold armor_skill. by apply ensure_unresolved. Qed.

Lemma armor_recipe_unresolved armor_name_en armor item quantity :
  id_of (item_map data) "en" (VStr item) = None ->
  armor_recipe data armor_name_en armor (item, quantity) =
  Raise (ensure_error
           ("Item " +:+ item +:+ " in Armor " +:+ armor_name_en +:+
            " does not exist")).
Proof. intros Hid. unfold armor_recipe. by apply ensure_unresolved. Qed.

Lemma weapon_previous_unresolved entry weapon :
  truthy (row_get entry "previous" VNone) = true ->
  id_of (weapon_map data) "en" (row_get entry "previous" VNone) = None ->
  weapon_previous data entry weapon =
  Raise (ensure_error
           ("Weapon " +:+ py_str (row_get entry "previous" VNone) +:+
            " does not exist")).
Proof.
  intros Hprev Hid. unfold weapon_previous.
  rewrite Hprev, (row_item_truthy _ _ Hprev). simpl.
  by apply ensure_unresolved.
Qed.

Lemma weapon_recipe_item_unresolved entry recipe_type item quantity name w :
  row_name entry "en" = Ok name ->
  id_of (item_map data) "en" (VStr item) = None ->
  weapon_recipe_item data entry recipe_type (item, quantity) w =
  (Raise (ensure_error ("Item None in weapon " +:+ name +:+ " does not exist")), w).
Proof.
  intros Hname Hid. unfold weapon_recipe_item.
  rewrite M_bind_lift, Hname, M_bind_lift, Hid. reflexivity.
Qed.

Lemma decoration_row_unresolved entry name skill_en :
  row_item entry "skill_en" = Ok skill_en ->
  row_name entry "en" = Ok name ->
  id_of (skill_map data) "en" skill_en = None ->
  decoration_row data entry =
  Raise (ensure_error
           ("Decoration " +:+ name +:+ " refers to " +:+
            "skill " +:+ py_str skill_en +:+ ", which doesn't exist.")).
Proof.
  intros Hskill Hname Hid. unfold decoration_row.
  rewrite Hskill. simpl. rewrite Hname. simpl. by apply ensure_unresolved.
Qed.

Lemma charm_skill_unresolved entry charm name skill_en level :
  row_name entry "en" = Ok name ->
  id_of (skill_map data) "en" (VStr skill_en) = None ->
  charm_skill data entry charm (skill_en, level) =
  Raise (ensure_error
           ("Charm " +:+ name +:+ " refers to " +:+
            "item " +:+ skill_en +:+ ", which doesn't exist.")).
Proof.
  intros Hname Hid. unfold charm_skill. rewrite Hname. simpl.
  by apply ensure_unresolved.
Qed.

Lemma charm_recipe_unresolved entry charm name item_en quantity :
  row_name entry "en" = Ok name ->
  id_of (item_map data) "en" (VStr item_en) = None ->
  charm_recipe data entry charm (item_en, quantity) =
  Raise (ensure_error
           ("Charm " +:+ name +:+ " refers to " +:+
            "item " +:+ item_en +:+ ", which doesn't exist.")).
Proof.
  intros Hname Hid. unfold charm_recipe. rewrite Hname. simpl.
  by apply ensure_unresolved.
Qed.

End Dangling.

Section DanglingAborts.
Context `{Builtins}.
Variable data : Data.

(** One step through a sequence of fallible operations that ends in one that
    fails. *)
Ltac next_bind := apply fails_bind; intros ? ?.

Lemma monster_row_fails_reward entry conditions condition sub_condition ranks rank
    rewards rs reward item_name :
  py_items (row_get entry "rewards" (VDict [])) = Ok conditions ->
  (condition, sub_condition) ∈ conditions ->
  py_items sub_condition = Ok ranks ->
  (rank, rewards) ∈ ranks ->
  py_iter rewards = Ok rs ->
  reward ∈ rs ->
  getitem reward "item_en" = Ok item_name ->
  id_of (item_map data) "en" item_name = None ->
  fails (monster_row data entry).
Proof.
  intros Hconditions Hcond Hranks Hrank Hrs Hreward Hitem Hid.
  unfold monster_row. do 6 next_bind.
  rewrite Hconditions. simpl. apply fails_bind_l.
  apply (fails_fold_exc _ _ (condition, sub_condition) Hcond). intros monster.
  rewrite Hranks. simpl.
  apply (fails_fold_exc _ _ (rank, rewards) Hrank). intros monster'.
  rewrite Hrs. simpl.
  apply (fails_fold_exc _ _ reward Hreward). intros monster''.
  erewrite monster_reward_unresolved by done. apply fails_raise.
Qed.

Lemma monster_row_fails_habitat entry habitats location_name habitat_values :
  py_items (row_get entry "habitats" (VDict [])) = Ok habitats ->
  (location_name, habitat_values) ∈ habitats ->
  id_of (location_map data) "en" (VStr location_name) = None ->
  fails (monster_row data entry).
Proof.
  intros Hhabitats Hin Hid.
  unfold monster_row. do 8 next_bind.
  rewrite Hhabitats. simpl.
  apply (fails_fold_exc _ _ (location_name, habitat_values) Hin). intros monster.
  rewrite monster_habitat_unresolved by done. apply fails_raise.
Qed.

Lemma armor_row_fails_set entry set_name :
  row_item entry "set" = Ok set_name ->
  id_of (armorset_map data) "en" set_name = None ->
  fails (armor_row data entry).
Proof.
  intros Hset Hid. unfold armor_row. do 2 next_bind.
  erewrite armor_references_unresolved by done. apply fails_raise.
Qed.

Lemma armor_references_fails_skill entry armor_name_en armor skills skill level :
  row_item entry "skills" ≫= py_items = Ok skills ->
  (skill, level) ∈ skills ->
  id_of (skill_map data) "en" (VStr skill) = None ->
  fails (armor_references data entry armor_name_en armor).
Proof.
  intros Hskills Hin Hid. unfold armor_references. do 4 next_bind.
  destruct (row_item entry "skills") as [skills_value|]; [|discriminate Hskills].
  simpl in Hskills. simpl. rewrite Hskills. simpl. apply fails_bind_l.
  apply (fails_fold_exc _ _ (skill, level) Hin). intros armor'.
  rewrite armor_skill_unresolved by done. apply fails_raise.
Qed.

Lemma armor_references_fails_item entry armor_name_en armor craft item quantity :
  row_item entry "craft" ≫= py_items = Ok craft ->
  (item, quantity) ∈ craft ->
  id_of (item_map data) "en" (VStr item) = None ->
  fails (armor_references data entry armor_name_en armor).
Proof.
  intros Hcraft Hin Hid. unfold armor_references. do 7 next_bind.
  destruct (row_item entry "craft") as [craft_value|]; [|discriminate Hcraft].
  simpl in Hcraft. simpl. rewrite Hcraft. simpl.
  apply (fails_fold_exc _ _ (item, quantity) Hin). intros armor'.
  rewrite armor_recipe_unresolved by done. apply fails_raise.
Qed.

Lemma charm_row_fails_skill entry skills skill_en level :
  row_item entry "skills" ≫= py_items = Ok skills ->
  (skill_en, level) ∈ skills ->
  id_of (skill_map data) "en" (VStr skill_en) = None ->
  fails (charm_row data entry).
Proof.
  intros Hskills Hin Hid. unfold charm_row. next_bind.
  destruct (row_item entry "skills") as [skills_value|]; [|discriminate Hskills].
  simpl in Hskills. simpl. rewrite Hskills. simpl. apply fails_bind_l.
  apply (fails_fold_exc _ _ (skill_en, level) Hin). intros charm.
  unfold charm_skill. next_bind. erewrite ensure_unresolved by done.
  apply fails_raise.
Qed.

Lemma charm_row_fails_item entry craft item_en quantity :
  row_item entry "craft" ≫= py_items = Ok craft ->
  (item_en, quantity) ∈ craft ->
  id_of (item_map data) "en" (VStr item_en) = None ->
  fails (charm_row data entry).
Proof.
  intros Hcraft Hin Hid. unfold charm_row. do 4 next_bind.
  destruct (row_item entry "craft") as [craft_value|]; [|discriminate Hcraft].
  simpl in Hcraft. simpl. rewrite Hcraft. simpl.
  apply (fails_fold_exc _ _ (item_en, quantity) Hin). intros charm.
  unfold charm_recipe. next_bind. erewrite ensure_unresolved by done.
  apply fails_raise.
Qed.

Lemma decoration_row_fails_skill entry skill_en :
  row_item entry "skill_en" = Ok skill_en ->
  id_of (skill_map data) "en" skill_en = None ->
  fails (decoration_row data entry).
Proof.
  intros Hskill Hid. unfold decoration_row. rewrite Hskill. simpl.
  next_bind. erewrite ensure_unresolved by done. apply fails_raise.
Qed.

Lemma build_weapon_raises_previous all_final entry :
  truthy (row_get entry "previous" VNone) = true ->
  id_of (weapon_map data) "en" (row_get entry "previous" VNone) = None ->
  raises (build_weapon data all_final entry).
Proof.
  intros Hprev Hid. unfold build_weapon.
  apply raises_bind_l, raises_lift_fails. next_bind.
  rewrite weapon_previous_unresolved by done. apply fails_raise.
Qed.

Lemma build_weapon_raises_item all_final entry recipe_type recipe item quantity :
  recipe_type ∈ ["craft"; "upgrade"] ->
  py_items (py_or (row_get entry recipe_type (VDict [])) (VDict [])) = Ok recipe ->
  (item, quantity) ∈ recipe ->
  id_of (item_map data) "en" (VStr item) = None ->
  raises (build_weapon data all_final entry).
Proof.
  intros Htype Hrecipe Hin Hid. unfold build_weapon.
  apply raises_bind_r. intros weapon. apply raises_bind_l.
  unfold weapon_recipes. apply (raises_for_each _ _ recipe_type Htype).
  apply raises_bind_lift. intros recipe' Hrecipe'.
  assert (recipe' = recipe) as -> by congruence.
  apply (raises_for_each _ _ (item, quantity) Hin).
  unfold weapon_recipe_item. apply raises_bind_lift. intros name _.
  apply raises_bind_l. rewrite Hid. apply raises_lift.
Qed.

(** Each builder in the sequence of [build_database]. *)
Lemma build_all_raises :
  raises (build_monsters data) \/ raises (build_armor data) \/
  raises (build_weapons data) \/ raises (build_decorations data) \/
  raises (build_charms data) ->
  raises (build_all data).
Proof.
  unfold build_all. intros Hraises.
  apply raises_bind_r; intros _. apply raises_bind_r; intros _.
  destruct Hraises as [Hr|Hraises]; [by apply raises_bind_l|].
  apply raises_bind_r; intros _. apply raises_bind_r; intros _.
  destruct Hraises as [Hr|Hraises]; [by apply raises_bind_l|].
  apply raises_bind_r; intros _.
  destruct Hraises as [Hr|Hraises]; [by apply raises_bind_l|].
  apply raises_bind_r; intros _.
  destruct Hraises as [Hr|Hr]; [by apply raises_bind_l|].
  by apply raises_bind_r.
Qed.

Lemma dangling_build_all_raises : dangling data -> raises (build_all data).
Proof.
  intros Hd. apply build_all_raises.
  destruct Hd as
    [entry conditions condition sub_condition ranks rank rewards rs reward item_name
       Hentry Hconditions Hcond Hranks Hrank Hrs Hreward Hitem Hid
    |entry habitats location_name habitat_values Hentry Hhabitats Hin Hid
    |entry set_name Hentry Hset Hid
    |entry skills skill level Hentry Hskills Hin Hid
    |entry craft item quantity Hentry Hcraft Hin Hid
    |entry Hentry Hprev Hid
    |entry recipe_type recipe item quantity Hentry Htype Hrecipe Hin Hid
    |entry skill_en Hentry Hskill Hid
    |entry skills skill_en level Hentry Hskills Hin Hid
    |entry craft item_en quantity Hentry Hcraft Hin Hid].
  - left. apply raises_bind_l, (raises_rows_loop _ _ entry Hentry).
    by eapply monster_row_fails_reward.
  - left. apply raises_bind_l, (raises_rows_loop _ _ entry Hentry).
    by eapply monster_row_fails_habitat.
  - right; left. unfold build_armor. apply raises_bind_r; intros _.
    apply raises_bind_l, (raises_rows_loop _ _ entry Hentry).
    by eapply armor_row_fails_set.
  - right; left. unfold build_armor. apply raises_bind_r; intros _.
    apply raises_bind_l, (raises_rows_loop _ _ entry Hentry).
    unfold armor_row. do 2 next_bind. by eapply armor_references_fails_skill.
  - right; left. unfold build_armor. apply raises_bind_r; intros _.
    apply raises_bind_l, (raises_rows_loop _ _ entry Hentry).
    unfold armor_row. do 2 next_bind. by eapply armor_references_fails_item.
  - right; right; left. unfold build_weapons.
    apply raises_bind_r; intros all_final. apply raises_bind_l.
    apply (raises_for_each _ _ entry Hentry).
    by apply build_weapon_raises_previous.
  - right; right; left. unfold build_weapons.
    apply raises_bind_r; intros all_final. apply raises_bind_l.
    apply (raises_for_each _ _ entry Hentry).
    by eapply build_weapon_raises_item.
  - right; right; right; left.
    apply raises_bind_l, (raises_rows_loop _ _ entry Hentry).
    by eapply decoration_row_fails_skill.
  - right; right; right; right.
    apply raises_bind_l, (raises_rows_loop _ _ entry Hentry).
    by eapply charm_row_fails_skill.
  - right; right; right; right.
    apply raises_bind_l, (raises_rows_loop _ _ entry Hentry).
    by eapply charm_row_fails_item.
Qed.

Lemma dangling_build_database_raises :
  dangling data -> raises (build_database data).
Proof.
  intros Hd. unfold build_database.
  apply raises_bind_r; intros _. apply raises_bind_l.
  by apply dangling_build_all_raises.
Qed.

End DanglingAborts.

(** C3: an armor entry whose [set] does not resolve in the armor-set map
    makes its row raise the exception of [ensure] whose message names the set
    and the armor; at each other place where a builder resolves an English
    name (the item of a monster reward, the location of a habitat, the skills
    and the items of an armor and of a charm, the predecessor and the recipe
    items of a weapon, the skill of a decoration) a name that does not resolve
    raises the exception of [ensure] before any row is built from it; and with
    such a reference anywhere in the data [build_database] raises, so that
    nothing is committed. *)
Theorem unresolved_reference_aborts_build `{Builtins} (data : Data) :
  (forall entry armor_name_en armor set_name,
      row_name entry "en" = Ok armor_name_en ->
      armor_attributes entry (new_row "Armor" [("id", VNum (row_id entry))]) = Ok armor ->
      row_item entry "set" = Ok set_name ->
      id_of (armorset_map data) "en" set_name = None ->
      armor_row data entry =
      Raise (Exception
               ("ERROR: " +:+
                ("Armorset " +:+ py_str set_name +:+ " in Armor " +:+
                 armor_name_en +:+ " does not exist")))) /\
  (forall armor_name_en armor skill level,
      id_of (skill_map data) "en" (VStr skill) = None ->
      exists message,
        armor_skill data armor_name_en armor (skill, level) =
        Raise (ensure_error message)) /\
  (forall armor_name_en armor item quantity,
      id_of (item_map data) "en" (VStr item) = None ->
      exists message,
        armor_recipe data armor_name_en armor (item, quantity) =
        Raise (ensure_error message)) /\
  (forall monster_name condition rank monster reward item_name,
      getitem reward "item_en" = Ok item_name ->
      id_of (item_map data) "en" item_name = None ->
      exists message,
        monster_reward data monster_name condition rank monster reward =
        Raise (ensure_error message)) /\
  (forall monster location_name habitat_values,
      id_of (location_map data) "en" (VStr location_name) = None ->
      exists message,
        monster_habitat data monster (location_name, habitat_values) =
        Raise (ensure_error message)) /\
  (forall entry weapon,
      truthy (row_get entry "previous" VNone) = true ->
      id_of (weapon_map data) "en" (row_get entry "previous" VNone) = None ->
      exists message,
        weapon_previous data entry weapon = Raise (ensure_error message)) /\
  (forall entry recipe_type item quantity name w,
      row_name entry "en" = Ok name ->
      id_of (item_map data) "en" (VStr item) = None ->
      exists message,
        weapon_recipe_item data entry recipe_type (item, quantity) w =
        (Raise (ensure_error message), w)) /\
  (forall entry name skill_en,
      row_item entry "skill_en" = Ok skill_en ->
      row_name entry "en" = Ok name ->
      id_of (skill_map data) "en" skill_en = None ->
      exists message, decoration_row data entry = Raise (ensure_error message)) /\
  (forall entry charm name skill_en level,
      row_name entry "en" = Ok name ->
      id_of (skill_map data) "en" (VStr skill_en) = None ->
      exists message,
        charm_skill data entry charm (skill_en, level) =
        Raise (ensure_error message)) /\
  (forall entry charm name item_en quantity,
      row_name entry "en" = Ok name ->
      id_of (item_map data) "en" (VStr item_en) = None ->
      exists message,
        charm_recipe data entry charm (item_en, quantity) =
        Raise (ensure_error message)) /\
  (dangling data ->
   raises (build_database data) /\ database_after (run_build data) = []).
Proof.
  repeat split.
  - intros entry armor_name_en armor set_name Hname Hattrs Hset Hid.
    unfold armor_row. rewrite Hname. simpl. rewrite Hattrs. simpl.
    by apply armor_references_unresolved.
  - intros. eexists. by apply armor_skill_unresolved.
  - intros. eexists. by apply armor_recipe_unresolved.
  - intros. eexists. by eapply monster_reward_unresolved.
  - intros. eexists. by apply monster_habitat_unresolved.
  - intros. eexists. by apply weapon_previous_unresolved.
  - intros. eexists. by apply weapon_recipe_item_unresolved.
  - intros. eexists. by eapply decoration_row_unresolved.
  - intros. eexists. by apply charm_skill_unresolved.
  - intros. eexists. by apply charm_recipe_unresolved.
  - by apply dangling_build_database_raises.
  - match goal with
    | Hd : dangling data |- _ =>
        destruct (dangling_build_database_raises data Hd (World [] []))
          as (e & w & Hrun)
    end.
    unfold run_build. by rewrite Hrun.
Qed.

(** The theorem at that armor: its row raises the error that names the set
    and the armor, and the build commits nothing. *)
Lemma unresolved_reference_aborts_build_witness :
  @armor_row plain_repr leather_only leather_headgear =
    Raise (Exception "ERROR: Armorset Leather in Armor Leather Headgear does not exist") /\
  database_after (@run_build plain_repr leather_only) = [].
Proof.
  pose proof (@unresolved_reference_aborts_build plain_repr leather_only) as Hthm.
  split.
  - eapply (proj1 Hthm leather_headgear "Leather Headgear" _ (VStr "Leather"));
      reflexivity.
  - apply Hthm. apply (dangling_armor_set leather_only leather_headgear (VStr "Leather")).
    + apply list_elem_of_here.
    + reflexivity.
    + reflexivity.
Defined.

(** ** The examples of the specification, run on the embedding *)

(** Flattening [{a: {b: 1, c: [2, 3]}}]. *)
Example flatten_dict_example :
  flatten_dict (VDict [("a", VDict [("b", VNum 1); ("c", VList [VNum 2; VNum 3])])]) "" [] =
  Ok [("a/b", VNum 1); ("a/c[0]", VNum 2); ("a/c[1]", VNum 3)].
Proof. reflexivity. Qed.

(** The way [joindicts] tells the three kinds of collision apart is the way
    the predicates of [typecheck] do. *)
Lemma collision_kind_of_typecheck (existing_value value : value) :
  (collision_kind_of existing_value value = BothDicts <->
   typecheck.is_dict existing_value && typecheck.is_dict value = true) /\
  (collision_kind_of existing_value value = BothLists <->
   typecheck.is_list existing_value && typecheck.is_list value = true).
Proof. destruct existing_value, value; simpl; split; split; congruence. Qed.

(** The chain of three blades, built: the rows of the weapons carry the
    [final] flag only for the last one, and each upgrade points at its
    predecessor. *)
Example build_weapons_chain_final :
  let B := plain_repr in
  let complete fields :=
    fields ++
    [("weapon_type", VStr "great-sword"); ("rarity", VNum 1); ("attack", VNum 100);
     ("slots", VList [VNum 0; VNum 0; VNum 0]); ("element_type", VNone);
     ("element_damage", VNone); ("element_hidden", VBool false)] in
  let weapons :=
    [blade 1 "Iron Blade" (complete []);
     blade 2 "Steel Blade" (complete [("previous", VStr "Iron Blade")]);
     blade 3 "Chrome Blade" (complete [("previous", VStr "Steel Blade")])] in
  let data :=
    {| location_map := []; item_map := []; skill_map := []; charm_map := [];
       monster_map := []; armor_map := []; armorset_map := [];
       weapon_map := weapons; decoration_map := []; weapon_data := weapons |} in
  map (fun r => (get_attr r "id", get_attr r "final", get_attr r "previous_weapon_id"))
    (database_after (build_weapons data (World [] []))) =
  [(Some (VNum 1), Some (VBool false), None);
   (Some (VNum 2), Some (VBool false), Some (VNum 1));
   (Some (VNum 3), Some (VBool true), Some (VNum 2))].
Proof. vm_compute. reflexivity. Qed.

(** A habitat whose [move_area] is empty is stored with no-value there. *)
Example monster_habitat_empty_area :
  let data :=
    {| location_map := [blade 7 "Ancient Forest" []]; item_map := []; skill_map := [];
       charm_map := []; monster_map := []; armor_map := []; armorset_map := [];
       weapon_map := []; decoration_map := []; weapon_data := [] |} in
  monster_habitat data (Row "Monster" [] [])
    ("Ancient Forest",
     VDict [("start_area", VStr "1"); ("move_area", VStr ""); ("rest_area", VStr "12")]) =
  Ok (Row "Monster" []
        [("habitats",
          Row "MonsterHabitat"
            [("location_id", VNum 7); ("start_area", VStr "1"); ("move_area", VNone);
             ("rest_area", VStr "12")] [])]).
Proof. reflexivity. Qed.

(** * Further properties of the utilities *)

(** ** extract_fields *)

Lemma extract_fields_loop_lookup (obj : dict) (fieldnames : list string) :
  forall result key,
    dict_get (extract_fields_loop obj fieldnames result) key =
    match (if bool_decide (key ∈ fieldnames) then dict_get obj key else None) with
    | Some v => Some v
    | None => dict_get result key
    end.
Proof.
  induction fieldnames as [|f rest IH]; intros result key; [done|].
  simpl. unfold dict_mem.
  destruct (dict_get obj f) as [v|] eqn:Ef; simpl; rewrite IH.
  - destruct (decide (f = key)) as [->|Hne].
    + rewrite (bool_decide_eq_true_2 (key ∈ key :: rest)) by apply list_elem_of_here.
      rewrite Ef, dict_get_set_eq. by case_bool_decide.
    + rewrite dict_get_set_ne by done.
      rewrite (bool_decide_ext (key ∈ f :: rest) (key ∈ rest)); [done|].
      rewrite elem_of_cons. naive_solver.
  - destruct (decide (f = key)) as [->|Hne].
    + rewrite (bool_decide_eq_true_2 (key ∈ key :: rest)) by apply list_elem_of_here.
      rewrite Ef. by case_bool_decide.
    + rewrite (bool_decide_ext (key ∈ f :: rest) (key ∈ rest)); [done|].
      rewrite elem_of_cons. naive_solver.
Qed.

Lemma extract_fields_loop_NoDup (obj : dict) (fieldnames : list string) :
  forall result,
    NoDup (keys result) -> NoDup (keys (extract_fields_loop obj fieldnames result)).
Proof.
  induction fieldnames as [|f rest IH]; intros result Hnd; [done|].
  simpl. destruct (negb (dict_mem obj f)); [by apply IH|].
  destruct (dict_get obj f); [|by apply IH].
  apply IH. by apply NoDup_keys_dict_set.
Qed.

(** [extract_fields] returns a mapping that holds, under each requested key
    the object has, the value the object holds, and nothing else: a requested
    key the object lacks is skipped without an error, and a key that was not
    requested is left out. No key occurs twice in it, however often it was
    requested. *)
Theorem extract_fields_lookup (obj : dict) (fieldnames : list string) :
  (forall key,
      dict_get (extract_fields obj fieldnames) key =
      if bool_decide (key ∈ fieldnames) then dict_get obj key else None) /\
  NoDup (keys (extract_fields obj fieldnames)).
Proof.
  split.
  - intros key. unfold extract_fields. rewrite extract_fields_loop_lookup.
    by destruct (if bool_decide (key ∈ fieldnames) then dict_get obj key else None).
  - apply extract_fields_loop_NoDup. constructor.
Qed.

(** ** check_not_grouped, group_fields, ungroup_fields *)

Lemma check_not_grouped_hashable (obj : dict) (groups : list value) :
  Forall (fun g => hashable g = true) groups ->
  check_not_grouped obj groups =
  Ok (List.filter (fun g => negb (is_mapping_at obj g)) groups).
Proof.
  induction 1 as [|g groups Hg _ IH]; [done|].
  simpl. rewrite IH.
  destruct g as [ | | |s| | ]; try discriminate Hg; simpl; try done.
  unfold dict_mem. destruct (dict_get obj s) as [[]|]; done.
Qed.

Lemma check_not_grouped_unhashable (obj : dict) (groups : list value) :
  Exists (fun g => hashable g = false) groups ->
  check_not_grouped obj groups = Raise BuiltinTypeError.
Proof.
  induction 1 as [g groups Hg|g groups _ IH].
  - destruct g; try discriminate Hg; done.
  - simpl. rewrite IH. by destruct g.
Qed.

(** [check_not_grouped] keeps, in their order, the groups under which the
    object does not already hold a mapping; it raises only for a group that
    cannot be hashed. *)
Theorem check_not_grouped_filter (obj : dict) (groups : list value) :
  (Forall (fun g => hashable g = true) groups ->
   check_not_grouped obj groups =
   Ok (List.filter (fun g => negb (is_mapping_at obj g)) groups)) /\
  (Exists (fun g => hashable g = false) groups ->
   check_not_grouped obj groups = Raise BuiltinTypeError).
Proof.
  split; [apply check_not_grouped_hashable|apply check_not_grouped_unhashable].
Qed.

(** The theorem at an object that already holds a mapping under "slot". *)
Lemma check_not_grouped_filter_witness :
  check_not_grouped [("slot", VDict [("size", VNum 1)]); ("skill_level", VNum 2)]
    [VStr "slot"; VStr "skill"; VNum 3] = Ok [VStr "skill"; VNum 3] /\
  check_not_grouped [("slot", VNum 1)] [VStr "slot"; VList []] =
    Raise BuiltinTypeError.
Proof.
  split.
  - exact (proj1 (check_not_grouped_filter
                    [("slot", VDict [("size", VNum 1)]); ("skill_level", VNum 2)]
                    [VStr "slot"; VStr "skill"; VNum 3])
             ltac:(repeat constructor)).
  - apply (proj2 (check_not_grouped_filter _ _)).
    apply Exists_cons. right. apply Exists_cons. by left.
Defined.

Lemma group_fields_loop_no_groups (items : dict) :
  forall result,
    NoDup (keys result ++ keys items) ->
    group_fields_loop [] items result = Ok (result ++ items).
Proof.
  induction items as [|[k v] items IH]; intros result Hnd; simpl.
  - by rewrite app_nil_r.
  - assert (dict_get result k = None) as Hnone.
    { apply dict_get_None. apply NoDup_app in Hnd as (_ & Hnd & _).
      intros Hin. apply (Hnd _ Hin). apply list_elem_of_here. }
    rewrite (dict_set_fresh _ _ _ Hnone), IH.
    + by rewrite <- app_assoc.
    + rewrite keys_app, <- app_assoc. exact Hnd.
Qed.

(** An object in which every requested group is already a mapping comes back
    from [group_fields] unchanged, even when other keys carry the prefix of a
    group; so does any object when no group is requested. Grouping twice is
    grouping once. *)
Theorem group_fields_already_grouped (obj : dict) (gs : list string) :
  NoDup (keys obj) ->
  (forall g, g ∈ gs -> exists sub, dict_get obj g = Some (VDict sub)) ->
  group_fields obj (VList (group_list gs)) = Ok obj.
Proof.
  intros Hnd Hgrouped. unfold group_fields.
  rewrite (check_not_grouped_hashable obj (group_list gs)).
  - assert (List.filter (fun g => negb (is_mapping_at obj g)) (group_list gs) = [])
      as ->.
    { unfold group_list. induction gs as [|g gs IH]; [done|].
      simpl. destruct (Hgrouped g) as [sub ->]; [apply list_elem_of_here|].
      simpl. apply IH. intros g' Hg'. apply Hgrouped. by apply list_elem_of_further. }
    simpl. by rewrite group_fields_loop_no_groups.
  - unfold group_list. apply Forall_forall. intros g (s & -> & _)%list_elem_of_fmap.
    done.
Qed.

(** The theorem at [{slot: {size: 1}, slot_extra: 2}], grouped by "slot". *)
Lemma group_fields_already_grouped_witness :
  group_fields [("slot", VDict [("size", VNum 1)]); ("slot_extra", VNum 2)]
    (VList (group_list ["slot"])) =
  Ok [("slot", VDict [("size", VNum 1)]); ("slot_extra", VNum 2)].
Proof.
  apply group_fields_already_grouped.
  - apply (bool_decide_unpack _). vm_compute. exact I.
  - intros g ->%list_elem_of_singleton. by eexists.
Defined.

(** [ungroup_fields] fails exactly when the object holds, under a key named
    in the groups, a value that is not a mapping; the failure is the
    attribute error of the missing [items] method. Whatever the object holds
    under other keys passes through. *)
Theorem ungroup_fields_fails_iff (obj : dict) (groups : list value) :
  (forall e, ungroup_fields obj groups = Raise e -> e = AttributeError) /\
  (is_ok (ungroup_fields obj groups) = false <->
   exists key value,
     (key, value) ∈ obj /\ key_in_groups key groups = true /\
     typecheck.is_dict value = false).
Proof.
  unfold ungroup_fields. generalize (@nil (string * value)) as result.
  induction obj as [|[k v] obj IH]; intros result.
  - split; [done|]. split; [done|]. intros (key & value & Hin & _).
    by apply elem_of_nil in Hin.
  - simpl. destruct (key_in_groups k groups) eqn:Hk; simpl.
    + destruct v as [ | | | | |sub].
      1-5: split; [by intros e [= <-]|]; split; [intros _|done];
        eexists k, _; (split; [apply list_elem_of_here|done]).
      destruct (IH (ungroup_items k sub result)) as [IHe IHiff].
      split; [exact IHe|]. rewrite IHiff. split.
      * intros (key & value & Hin & Hg & Hd). exists key, value.
        split; [by apply list_elem_of_further|done].
      * intros (key & value & [[= -> ->]|Hin]%elem_of_cons & Hg & Hd);
          [done|]. by exists key, value.
    + destruct (IH (dict_set result k v)) as [IHe IHiff].
      split; [exact IHe|]. rewrite IHiff. split.
      * intros (key & value & Hin & Hg & Hd). exists key, value.
        split; [by apply list_elem_of_further|done].
      * intros (key & value & [[= -> ->]|Hin]%elem_of_cons & Hg & Hd);
          [congruence|]. by exists key, value.
Qed.

(** ** get_duplicates *)

(** [get_duplicates] returns one element for every occurrence beyond the
    first: its length is the length of the input less the number of distinct
    elements; and it returns nothing exactly when no element is repeated. *)
Theorem get_duplicates_length (l : list string) :
  (length (get_duplicates l) + size (list_to_set l : gset string) = length l)%nat /\
  (get_duplicates l = [] <-> NoDup l).
Proof.
  split; [|apply get_duplicates_nil_iff].
  induction l as [|x l IH] using rev_ind; [done|].
  rewrite get_duplicates_snoc, !length_app, list_to_set_app_L. simpl.
  destruct (decide (x ∈ l)) as [Hin|Hnin]; simpl.
  - replace (list_to_set l ∪ ({[x]} ∪ ∅)) with (list_to_set l : gset string)
      by (apply set_eq; intros y; rewrite elem_of_union, elem_of_union,
          elem_of_singleton, elem_of_list_to_set; set_solver).
    lia.
  - rewrite size_union, size_union, size_singleton, size_empty; [lia| |];
      set_solver.
Qed.

(** ** flatten_dict *)

Lemma Forall_dict_set (P : string * value -> Prop) (d : dict) (k : string) (v : value) :
  (forall k', P (k', v)) -> Forall P d -> Forall P (dict_set d k v).
Proof.
  intros Hv. induction 1 as [|[k0 w] d Hw Hd IH]; simpl.
  - by constructor.
  - destruct (String.eqb k0 k); constructor; auto.
Qed.

Lemma keys_dict_set_subseteq (d : dict) (k k' : string) (v : value) :
  k' ∈ keys d -> k' ∈ keys (dict_set d k v).
Proof.
  rewrite keys_dict_set. destruct (dict_mem d k); [done|].
  intros Hin. apply elem_of_app. by left.
Qed.

Lemma flatten_invariant_refl (result : dict) : flatten_invariant result result.
Proof. by split. Qed.

Lemma flatten_invariant_trans (r1 r2 r3 : dict) :
  flatten_invariant r1 r2 -> flatten_invariant r2 r3 -> flatten_invariant r1 r3.
Proof. intros [H1 H2] [H3 H4]. split; auto. Qed.

Lemma flatten_invariant_set (result : dict) (k : string) (v : value) :
  typecheck.is_scalar v = true -> flatten_invariant result (dict_set result k v).
Proof.
  intros Hv. split.
  - by apply Forall_dict_set.
  - intros key. apply keys_dict_set_subseteq.
Qed.

Lemma flatten_dict_invariant (d : value) :
  forall prefix result out,
    flatten_dict d prefix result = Ok out -> flatten_invariant result out.
Proof.
  induction d as [ | b | n | s | l IHl | items IHd ] using value_nested_ind;
    intros prefix result out; try discriminate; simpl.
  - generalize 0%nat. revert result.
    induction IHl as [|x l Hx _ IH]; intros result idx Hrun.
    + injection Hrun as <-. apply flatten_invariant_refl.
    + destruct (typecheck.is_scalar x) eqn:Hs.
      * eapply flatten_invariant_trans; [|by eapply IH].
        by apply flatten_invariant_set.
      * destruct (flatten_dict x _ result) as [r|] eqn:Hx'; [|discriminate Hrun].
        eapply flatten_invariant_trans; [by eapply Hx|by eapply IH].
  - set (prefix' := if negb (String.eqb prefix "") then _ else _).
    clearbody prefix'. revert result.
    induction IHd as [|[k x] items Hx _ IH]; intros result Hrun.
    + injection Hrun as <-. apply flatten_invariant_refl.
    + simpl in Hx. destruct (typecheck.is_scalar x) eqn:Hs.
      * eapply flatten_invariant_trans; [|by eapply IH].
        by apply flatten_invariant_set.
      * destruct (flatten_dict x _ result) as [r|] eqn:Hx'; [|discriminate Hrun].
        eapply flatten_invariant_trans; [by eapply Hx|by eapply IH].
Qed.

(** Whatever [flatten_dict] returns is flat: every value of the returned
    mapping is a scalar, at any depth of the input, provided the values of
    the result passed in were; and no key of that result is lost. *)
Theorem flatten_dict_result_flat (d : value) (prefix : string) (result out : dict) :
  flatten_dict d prefix result = Ok out ->
  (Forall (fun kv => typecheck.is_scalar kv.2 = true) result ->
   Forall (fun kv => typecheck.is_scalar kv.2 = true) out) /\
  (forall key, key ∈ keys result -> key ∈ keys out).
Proof. apply flatten_dict_invariant. Qed.

(** The theorem at a nested entry flattened into a result that already holds
    a row id. *)
Lemma flatten_dict_result_flat_witness :
  Forall (fun kv => typecheck.is_scalar kv.2 = true)
    [("id", VNum 7); ("name/en", VStr "Potion"); ("tags[0]", VStr "heal")] /\
  "id" ∈ keys [("id", VNum 7); ("name/en", VStr "Potion"); ("tags[0]", VStr "heal")].
Proof.
  pose proof (flatten_dict_result_flat
                (VDict [("name", VDict [("en", VStr "Potion")]);
                        ("tags", VList [VStr "heal"])])
                "" [("id", VNum 7)]
                [("id", VNum 7); ("name/en", VStr "Potion"); ("tags[0]", VStr "heal")]
                eq_refl) as [Hflat Hkeys].
  split.
  - apply Hflat. by repeat constructor.
  - apply Hkeys. apply list_elem_of_here.
Defined.

Lemma flatten_dict_flat_loop (items : dict) :
  forall result,
    Forall (fun kv => typecheck.is_scalar kv.2 = true) items ->
    NoDup (keys result ++ keys items) ->
    flatten_dict (VDict items) "" result = Ok (result ++ items).
Proof.
  induction items as [|[k v] items IH]; intros result Hflat Hnd.
  - simpl. by rewrite app_nil_r.
  - apply Forall_cons in Hflat as [Hv Hflat]. simpl in Hv.
    assert (dict_get result k = None) as Hnone.
    { apply dict_get_None. apply NoDup_app in Hnd as (_ & Hnd & _).
      intros Hin. apply (Hnd _ Hin). apply list_elem_of_here. }
    transitivity (flatten_dict (VDict items) "" (dict_set result k v)).
    { simpl. by rewrite Hv. }
    rewrite (dict_set_fresh _ _ _ Hnone), IH; [|done|].
    + by rewrite <- app_assoc.
    + rewrite keys_app, <- app_assoc. exact Hnd.
Qed.

(** Flattening is the identity on what is already flat: a mapping of scalars
    flattened with no prefix comes back as it was, keys in order; flattened
    into a result whose keys it does not share, it is appended to it. *)
Theorem flatten_dict_flat_mapping (items result : dict) :
  Forall (fun kv => typecheck.is_scalar kv.2 = true) items ->
  NoDup (keys result ++ keys items) ->
  flatten_dict (VDict items) "" result = Ok (result ++ items).
Proof. apply flatten_dict_flat_loop. Qed.

(** The theorem at a flat mapping of two fields. *)
Lemma flatten_dict_flat_mapping_witness :
  flatten_dict (VDict [("name", VStr "Potion"); ("rarity", VNum 1)]) "" [] =
  Ok [("name", VStr "Potion"); ("rarity", VNum 1)].
Proof.
  apply (flatten_dict_flat_mapping [("name", VStr "Potion"); ("rarity", VNum 1)] []).
  - by repeat constructor.
  - apply (bool_decide_unpack _). vm_compute. exact I.
Defined.

(** ** joindicts *)

Section JoindictsPrefix.
Context `{Builtins}.
Local Arguments py_eq : simpl never.

Lemma joindicts_into_prefix_ok (inputdict : value) :
  forall dest prefix prefix' r,
    joindicts_into inputdict dest prefix = Ok r ->
    joindicts_into inputdict dest prefix' = Ok r.
Proof.
  induction inputdict as [ | b | n | s | l _ | items IHd ] using value_nested_ind;
    intros dest prefix prefix' r; try done.
  rewrite !joindicts_into_dict. revert dest.
  induction IHd as [|[k x] items Hx _ IH]; intros dest Hrun; [done|].
  simpl in Hx. rewrite joindicts_loop_cons in Hrun. rewrite joindicts_loop_cons.
  destruct (dict_get dest k) as [e|]; [|by apply IH].
  destruct (collision_kind_of e x) eqn:Ekind.
  - destruct e, x; try discriminate Ekind.
    destruct (joindicts_into (VDict d0) d (prefix +:+ k +:+ ".")) as [m|] eqn:Em;
      [|discriminate Hrun].
    rewrite (Hx _ _ (prefix' +:+ k +:+ ".") _ Em). by apply IH.
  - destruct e, x; try discriminate Ekind. by apply IH.
  - assert ((if negb (py_eq e x)
             then Raise (Exception (collision_message (prefix +:+ k) x e))
             else joindicts_loop prefix items dest) = Ok r) as Hrun'
        by (destruct e, x; try discriminate Ekind; exact Hrun).
    assert ((if negb (py_eq e x)
             then Raise (Exception (collision_message (prefix' +:+ k) x e))
             else joindicts_loop prefix' items dest) = Ok r);
      [|by destruct e, x; try discriminate Ekind].
    destruct (py_eq e x); [|discriminate Hrun']. by apply IH.
Qed.

Lemma joindicts_prefix_ok (dictlist : list value) :
  forall dest prefix prefix' r,
    joindicts dest dictlist prefix = Ok r ->
    joindicts dest dictlist prefix' = Ok r.
Proof.
  induction dictlist as [|v rest IH]; intros dest prefix prefix' r; [done|].
  simpl. destruct (joindicts_into v dest prefix) as [m|] eqn:Em; [|done].
  rewrite (joindicts_into_prefix_ok _ _ _ prefix' _ Em). apply IH.
Qed.

(** The [prefix] of [joindicts] reaches nothing but the text of the collision
    error: with another prefix the merge returns the same dict when it
    returns, and raises when it raised. *)
Theorem joindicts_prefix_only_in_message (dest : dict) (dictlist : list value)
    (prefix prefix' : string) :
  match joindicts dest dictlist prefix with
  | Ok r => joindicts dest dictlist prefix' = Ok r
  | Raise _ => is_ok (joindicts dest dictlist prefix') = false
  end.
Proof.
  destruct (joindicts dest dictlist prefix) as [r|x] eqn:Hrun.
  - by apply (joindicts_prefix_ok _ _ prefix).
  - destruct (joindicts dest dictlist prefix') as [r|y] eqn:Hrun'; [|done].
    apply (joindicts_prefix_ok _ _ _ prefix) in Hrun'. congruence.
Qed.

End JoindictsPrefix.

(** * Further properties of the build *)

(** ** Computations that only print *)

Lemma console_only_lift {A} (r : exc A) : console_only (lift r).
Proof. by intros w. Qed.

Lemma console_only_mret {A} (a : A) : console_only (mret a : M A).
Proof. by intros w. Qed.

Lemma console_only_print (line : string) : console_only (print line).
Proof. intros w. split; [done|]. by apply prefix_app_r. Qed.

Lemma console_only_ensure_warn (field : bool) (error_message : string) :
  console_only (ensure_warn field error_message).
Proof.
  unfold ensure_warn. destruct field;
    [apply console_only_mret|apply console_only_print].
Qed.

Lemma console_only_bind {A B} (m : M A) (k : A -> M B) :
  console_only m -> (forall a, console_only (k a)) -> console_only (m ≫= k).
Proof.
  intros Hm Hk w. rewrite M_bind_run. specialize (Hm w).
  destruct (m w) as [[a|e] w1]; simpl in Hm; [|done].
  destruct Hm as [Hs Hp]. destruct (Hk a w1) as [Hs' Hp'].
  split; [congruence|]. by etrans.
Qed.

Lemma console_only_for_each {A} (l : list A) (body : A -> M unit) :
  (forall x, console_only (body x)) -> console_only (for_each l body).
Proof.
  intros Hbody. induction l as [|x l IH]; simpl.
  - apply console_only_mret.
  - apply console_only_bind; [apply Hbody|done].
Qed.

Ltac console_only_step :=
  first
    [ apply console_only_lift
    | apply console_only_mret
    | apply console_only_print
    | apply console_only_ensure_warn
    | apply console_only_for_each; intros ?
    | apply console_only_bind; [|intros ?]
    | match goal with
      | |- console_only (if ?b then _ else _) => destruct b
      | |- console_only (let '(_, _) := ?p in _) => destruct p
      end ].

(** [validate_monster_rewards] adds nothing to the session and takes nothing
    from it, and it never takes back a line it printed: whether it returns or
    raises, the session is as before and the console has only grown. *)
Theorem validate_monster_rewards_console_only (data : Data) (w : world) :
  session (validate_monster_rewards data w).2 = session w /\
  stdout w `prefix_of` stdout (validate_monster_rewards data w).2.
Proof.
  revert w. change (console_only (validate_monster_rewards data)).
  unfold validate_monster_rewards, validate_monster, validate_rank_group,
    check_rewards.
  repeat console_only_step.
Qed.

(** ** The progress lines *)

Lemma prints_upto_lift {A} (r : exc A) : prints_upto [] (lift r).
Proof.
  intros w. unfold lift. destruct r; [by rewrite app_nil_r|].
  exists []. by rewrite app_nil_r.
Qed.

Lemma prints_upto_session_add (r : row) : prints_upto [] (session_add r).
Proof. intros w. simpl. by rewrite app_nil_r. Qed.

Lemma prints_upto_print (line : string) : prints_upto [line] (print line).
Proof. by intros w. Qed.

Lemma prints_upto_bind {A B} (lines lines' : list string) (m : M A) (k : A -> M B) :
  prints_upto lines m -> (forall a, prints_upto lines' (k a)) ->
  prints_upto (lines ++ lines') (m ≫= k).
Proof.
  intros Hm Hk w. rewrite M_bind_run. specialize (Hm w).
  destruct (m w) as [[a|e] w1].
  - specialize (Hk a w1). destruct (k a w1) as [[b|e] w2].
    + rewrite Hk, Hm. by rewrite app_assoc.
    + destruct Hk as (printed & Hp & ->). exists (lines ++ printed).
      split; [by apply prefix_app|]. rewrite Hm. by rewrite app_assoc.
  - destruct Hm as (printed & Hp & ->). exists printed.
    split; [by apply prefix_app_r|done].
Qed.

Lemma prints_upto_bind_nil {A B} (m : M A) (k : A -> M B) :
  prints_upto [] m -> (forall a, prints_upto [] (k a)) -> prints_upto [] (m ≫= k).
Proof. apply (prints_upto_bind [] []). Qed.

Lemma prints_upto_for_each {A} (l : list A) (body : A -> M unit) :
  (forall x, prints_upto [] (body x)) -> prints_upto [] (for_each l body).
Proof.
  intros Hbody. induction l as [|x l IH]; simpl.
  - intros w. simpl. by rewrite app_nil_r.
  - apply prints_upto_bind_nil; [apply Hbody|done].
Qed.

Lemma prints_upto_then_print {A} (m : M A) (line : string) :
  prints_upto [] m -> prints_upto [line] (m ≫= fun _ => print line).
Proof.
  intros Hm. apply (prints_upto_bind [] [line]); [done|].
  intros _. apply prints_upto_print.
Qed.

Ltac prints_nothing :=
  repeat first
    [ apply prints_upto_lift
    | apply prints_upto_session_add
    | apply prints_upto_for_each; intros ?
    | apply prints_upto_bind_nil; [|intros ?]
    | match goal with
      | |- prints_upto [] (let '(_, _) := ?p in _) => destruct p
      end ].

Section Progress.
Context `{Builtins}.
Variable data : Data.

Lemma build_items_prints : prints_upto ["Built Items"] (build_items data).
Proof. apply prints_upto_then_print. prints_nothing. Qed.

Lemma build_locations_prints : prints_upto [] (build_locations data).
Proof. unfold build_locations. prints_nothing. Qed.

Lemma build_monsters_prints : prints_upto ["Built Monsters"] (build_monsters data).
Proof. apply prints_upto_then_print. prints_nothing. Qed.

Lemma build_skills_prints : prints_upto ["Built Skills"] (build_skills data).
Proof. apply prints_upto_then_print. prints_nothing. Qed.

Lemma build_armor_prints : prints_upto ["Built Armor"] (build_armor data).
Proof.
  unfold build_armor.
  apply (prints_upto_bind [] ["Built Armor"]); [prints_nothing|intros _].
  apply prints_upto_then_print. prints_nothing.
Qed.

Lemma build_weapons_prints : prints_upto ["Built Weapons"] (build_weapons data).
Proof.
  unfold build_weapons.
  apply (prints_upto_bind [] ["Built Weapons"]); [prints_nothing|intros all_final].
  apply prints_upto_then_print.
  unfold build_weapon, weapon_recipes, weapon_recipe_item. prints_nothing.
Qed.

Lemma build_decorations_prints :
  prints_upto ["Built Decorations"] (build_decorations data).
Proof. apply prints_upto_then_print. prints_nothing. Qed.

Lemma build_charms_prints : prints_upto ["Built Charms"] (build_charms data).
Proof. apply prints_upto_then_print. prints_nothing. Qed.

Lemma build_all_prints : prints_upto progress_lines (build_all data).
Proof.
  unfold build_all.
  apply (prints_upto_bind ["Built Items"]); [apply build_items_prints|intros _].
  apply (prints_upto_bind []); [apply build_locations_prints|intros _].
  apply (prints_upto_bind ["Built Monsters"]); [apply build_monsters_prints|intros _].
  apply (prints_upto_bind ["Built Skills"]); [apply build_skills_prints|intros _].
  apply (prints_upto_bind ["Built Armor"]); [apply build_armor_prints|intros _].
  apply (prints_upto_bind ["Built Weapons"]); [apply build_weapons_prints|intros _].
  apply (prints_upto_bind ["Built Decorations"]);
    [apply build_decorations_prints|intros _].
  apply build_charms_prints.
Qed.

End Progress.

(** A build that returns has printed, after the warnings of the validation,
    one progress line per builder in the order of the calls (none for the
    locations) and then "Finished build"; a build that raises has printed,
    after the warnings, the progress lines of the builders that were done,
    and not "Finished build". *)
Theorem build_database_progress `{Builtins} (data : Data) (w : world) :
  let validated := (validate_monster_rewards data w).2 in
  match build_database data w with
  | (Ok _, w') =>
      stdout w' = stdout validated ++ progress_lines ++ ["Finished build"]
  | (Raise _, w') =>
      exists printed,
        printed `prefix_of` progress_lines /\
        stdout w' = stdout validated ++ printed
  end.
Proof.
  intros validated. subst validated. unfold build_database.
  rewrite M_bind_run.
  destruct (validate_monster_rewards data w) as [[[]|e] w1]; simpl.
  - rewrite M_bind_run. pose proof (build_all_prints data w1) as Hall.
    destruct (build_all data w1) as [[[]|e] w2].
    + simpl. rewrite Hall. by rewrite <- app_assoc.
    + exact Hall.
  - exists []. split; [apply prefix_nil|by rewrite app_nil_r].
Qed.

(** ** build_locations *)

Lemma location_row_named (entry : DataRow) (name : string) :
  row_name entry "en" = Ok name ->
  location_row entry "en" = Ok (location_row_of entry name).
Proof. intros Hname. unfold location_row. by rewrite Hname. Qed.

(** [build_locations] adds one row per location, in the order of the
    location map, each with the id and the English name of its entry, and
    prints nothing. *)
Theorem build_locations_rows (data : Data) (names : list string)
    (w : world) :
  Forall2 (fun entry name => row_name entry "en" = Ok name)
    (location_map data) names ->
  build_locations data w =
  (Ok tt,
   World (stdout w)
     (session w ++ zip_with location_row_of (location_map data) names)).
Proof.
  unfold build_locations. intros Hnames. revert w.
  induction Hnames as [|entry name entries names Hname _ IH]; intros [out sess].
  - simpl. by rewrite app_nil_r.
  - cbn [for_each supported_languages]. rewrite !M_bind_run. unfold lift.
    rewrite (location_row_named _ _ Hname).
    etrans; [apply (IH (World out (sess ++ [location_row_of entry name])))|].
    simpl. by rewrite <- app_assoc.
Qed.

(** The theorem at the location map of the Ancient Forest. *)
Lemma build_locations_rows_witness :
  build_locations ancient_forest_data (World [] []) =
  (Ok tt,
   World []
     [Row "Location"
        [("id", VNum 7); ("lang_id", VStr "en"); ("name", VStr "Ancient Forest")] []]).
Proof.
  apply (build_locations_rows ancient_forest_data ["Ancient Forest"] (World [] [])).
  by repeat constructor.
Defined.

(** ** References that resolve to the id 0 *)

Lemma ensure_false {A} (error_message : string) (k : unit -> exc A) :
  (ensure false error_message ≫= k) = Raise (ensure_error error_message).
Proof. reflexivity. Qed.

Lemma decoration_row_skill_refused `{Builtins} (data : Data) (entry : DataRow)
    (name : string) (skill_en : value) :
  row_item entry "skill_en" = Ok skill_en ->
  row_name entry "en" = Ok name ->
  truthy_id (id_of (skill_map data) "en" skill_en) = false ->
  decoration_row data entry =
  Raise (ensure_error
           ("Decoration " +:+ name +:+ " refers to " +:+
            "skill " +:+ py_str skill_en +:+ ", which doesn't exist.")).
Proof.
  intros Hskill Hname Hid. unfold decoration_row.
  rewrite Hskill. simpl. rewrite Hname. simpl. rewrite Hid. apply ensure_false.
Qed.

(** [ensure] tests the id a name resolves to as a truth value, so the entry
    with the id 0 cannot be referred to: a habitat, an armor, a charm or a
    decoration that names it is refused with the error for a name that does
    not exist. *)
Theorem reference_to_id_zero_refused `{Builtins} (data : Data) :
  (forall monster location_name habitat_values,
      id_of (location_map data) "en" (VStr location_name) = Some 0%Z ->
      monster_habitat data monster (location_name, habitat_values) =
      Raise (ensure_error ("Invalid location name " +:+ location_name))) /\
  (forall armor_name_en armor skill level,
      id_of (skill_map data) "en" (VStr skill) = Some 0%Z ->
      armor_skill data armor_name_en armor (skill, level) =
      Raise (ensure_error
               ("Skill " +:+ skill +:+ " in Armor " +:+ armor_name_en +:+
                " does not exist"))) /\
  (forall armor_name_en armor item quantity,
      id_of (item_map data) "en" (VStr item) = Some 0%Z ->
      armor_recipe data armor_name_en armor (item, quantity) =
      Raise (ensure_error
               ("Item " +:+ item +:+ " in Armor " +:+ armor_name_en +:+
                " does not exist"))) /\
  (forall entry charm name skill_en level,
      row_name entry "en" = Ok name ->
      id_of (skill_map data) "en" (VStr skill_en) = Some 0%Z ->
      charm_skill data entry charm (skill_en, level) =
      Raise (ensure_error
               ("Charm " +:+ name +:+ " refers to " +:+
                "item " +:+ skill_en +:+ ", which doesn't exist."))) /\
  (forall entry name skill_en,
      row_name entry "en" = Ok name ->
      row_item entry "skill_en" = Ok (VStr skill_en) ->
      id_of (skill_map data) "en" (VStr skill_en) = Some 0%Z ->
      decoration_row data entry =
      Raise (ensure_error
               ("Decoration " +:+ name +:+ " refers to " +:+
                "skill " +:+ skill_en +:+ ", which doesn't exist."))).
Proof.
  repeat split.
  - intros monster location_name habitat_values Hid.
    unfold monster_habitat. rewrite Hid. apply ensure_false.
  - intros armor_name_en armor skill level Hid.
    unfold armor_skill. rewrite Hid. apply ensure_false.
  - intros armor_name_en armor item quantity Hid.
    unfold armor_recipe. rewrite Hid. apply ensure_false.
  - intros entry charm name skill_en level Hname Hid.
    unfold charm_skill. rewrite Hid, Hname. apply ensure_false.
  - intros entry name skill_en Hname Hskill Hid.
    apply (decoration_row_skill_refused data entry name (VStr skill_en));
      [done|done|by rewrite Hid].
Qed.

(** The theorem at a charm and at a decoration that name the skill tree with
    the id 0. *)
Lemma reference_to_id_zero_refused_witness :
  charm_skill attack_charm_data attack_charm (Row "Charm" [("id", VNum 1)] [])
    ("Attack Boost", VNum 1) =
  Raise (Exception
           "ERROR: Charm Attack Charm refers to item Attack Boost, which doesn't exist.") /\
  decoration_row (H := plain_repr) (jewel_data 0 []) (attack_jewel []) =
  Raise (Exception
           "ERROR: Decoration Attack Jewel refers to skill Attack Boost, which doesn't exist.").
Proof.
  split.
  - exact (proj1 (proj2 (proj2 (proj2
             (reference_to_id_zero_refused (H := plain_repr) attack_charm_data))))
             attack_charm (Row "Charm" [("id", VNum 1)] []) "Attack Charm"
             "Attack Boost" (VNum 1) eq_refl eq_refl).
  - exact (proj2 (proj2 (proj2 (proj2
             (reference_to_id_zero_refused (H := plain_repr) (jewel_data 0 [])))))
             (attack_jewel []) "Attack Jewel" "Attack Boost"
             eq_refl eq_refl eq_refl).
Defined.

(** ** build_decorations *)

(** A decoration whose skill exists but which has no "chances" is refused
    with the error that names it, and the build of the decorations stops
    there without its progress line. *)
Theorem decoration_without_chances_refused `{Builtins} (data : Data)
    (entry : DataRow) (name : string) (skill_en : value) :
  entry ∈ decoration_map data ->
  row_name entry "en" = Ok name ->
  row_item entry "skill_en" = Ok skill_en ->
  truthy_id (id_of (skill_map data) "en" skill_en) = true ->
  dict_mem (row_data entry) "chances" = false ->
  decoration_row data entry =
    Raise (ensure_error ("Missing chance data for " +:+ name)) /\
  raises (build_decorations data).
Proof.
  intros Hin Hname Hskill Hid Hchances.
  assert (decoration_row data entry =
          Raise (ensure_error ("Missing chance data for " +:+ name))) as Hrow.
  { unfold decoration_row. rewrite Hskill. simpl. rewrite Hid, Hname. simpl.
    rewrite Hchances. apply ensure_false. }
  split; [done|].
  unfold build_decorations. apply raises_bind_l.
  apply (raises_rows_loop _ _ entry Hin). rewrite Hrow. apply fails_raise.
Qed.

(** The theorem at a decoration that has no "chances". *)
Lemma decoration_without_chances_refused_witness :
  decoration_row (H := plain_repr) (jewel_data 7 []) (attack_jewel []) =
    Raise (Exception "ERROR: Missing chance data for Attack Jewel") /\
  raises (build_decorations (H := plain_repr) (jewel_data 7 [])).
Proof.
  apply (decoration_without_chances_refused (H := plain_repr) (jewel_data 7 [])
           (attack_jewel []) "Attack Jewel" (VStr "Attack Boost")).
  - apply list_elem_of_here.
  - reflexivity.
  - reflexivity.
  - reflexivity.
  - reflexivity.
Defined.

(** ** The habitats of a monster *)

(** A habitat that is added names a location whose id is not 0, and each of
    its three areas is either a value that counts as true or no-value: an
    area given as 0 or as the empty string is stored as no-value. *)
Theorem monster_habitat_areas `{Builtins} (data : Data) (monster monster' : row)
    (location_name : string) (habitat_values : value) :
  monster_habitat data monster (location_name, habitat_values) = Ok monster' ->
  exists location_id start_area move_area rest_area,
    id_of (location_map data) "en" (VStr location_name) = Some location_id /\
    location_id <> 0%Z /\
    monster' =
      append_child monster "habitats"
        (habitat_row_of location_id (py_or start_area VNone)
           (py_or move_area VNone) (py_or rest_area VNone)) /\
    getitem habitat_values "start_area" = Ok start_area /\
    getitem habitat_values "move_area" = Ok move_area /\
    getitem habitat_values "rest_area" = Ok rest_area /\
    Forall (fun area => area = VNone \/ truthy area = true)
      [py_or start_area VNone; py_or move_area VNone; py_or rest_area VNone].
Proof.
  unfold monster_habitat.
  destruct (id_of (location_map data) "en" (VStr location_name)) as [id|];
    [|discriminate].
  simpl. destruct (id =? 0)%Z eqn:Eid; [discriminate|]. simpl.
  destruct (getitem habitat_values "start_area") as [start_area|]; [|discriminate].
  destruct (getitem habitat_values "move_area") as [move_area|]; [|discriminate].
  destruct (getitem habitat_values "rest_area") as [rest_area|]; [|discriminate].
  simpl. intros [= <-]. exists id, start_area, move_area, rest_area.
  repeat split; [by apply Z.eqb_neq|].
  assert (forall a, py_or a VNone = VNone \/ truthy (py_or a VNone) = true) as Hor.
  { intros a. unfold py_or. destruct (truthy a) eqn:E; auto. }
  by repeat (apply Forall_cons; split; [apply Hor|]).
Qed.

(** The theorem at a habitat in the Ancient Forest whose [move_area] is the
    empty string. *)
Lemma monster_habitat_areas_witness :
  exists location_id start_area move_area rest_area,
    id_of (location_map ancient_forest_data) "en" (VStr "Ancient Forest") =
      Some location_id /\
    location_id <> 0%Z /\
    Row "Monster" []
      [("habitats", habitat_row_of 7 (VStr "1") VNone (VStr "12"))] =
      append_child (Row "Monster" [] []) "habitats"
        (habitat_row_of location_id (py_or start_area VNone)
           (py_or move_area VNone) (py_or rest_area VNone)) /\
    getitem forest_habitat "start_area" = Ok start_area /\
    getitem forest_habitat "move_area" = Ok move_area /\
    getitem forest_habitat "rest_area" = Ok rest_area /\
    Forall (fun area => area = VNone \/ truthy area = true)
      [py_or start_area VNone; py_or move_area VNone; py_or rest_area VNone].
Proof.
  exact (monster_habitat_areas (H := plain_repr) ancient_forest_data
           (Row "Monster" [] [])
           (Row "Monster" []
              [("habitats", habitat_row_of 7 (VStr "1") VNone (VStr "12"))])
           "Ancient Forest" forest_habitat eq_refl).
Defined.

(** ** The recipes of a weapon *)

Section WeaponRecipes.
Context `{Builtins}.
Variable data : Data.

Lemma weapon_recipe_items_rows (entry : DataRow) (name recipe_type : string)
    (recipe : dict) (ids : list Z) :
  row_name entry "en" = Ok name ->
  recipe_resolves data recipe ids ->
  forall w,
    for_each recipe (weapon_recipe_item data entry recipe_type) w =
    (Ok tt,
     World (stdout w)
       (session w ++ zip_with (recipe_row_of (row_id entry) recipe_type) recipe ids)).
Proof.
  intros Hname Hids.
  induction Hids as [|[item quantity] id recipe ids [Hid Hnz] _ IH]; intros [out sess].
  - simpl. by rewrite app_nil_r.
  - cbn [for_each]. rewrite M_bind_run. unfold weapon_recipe_item at 1.
    change (id_of (item_map data) "en" (VStr item) = Some id) in Hid.
    rewrite Hid, M_bind_lift, Hname, M_bind_lift.
    cbn [truthy_id]. apply Z.eqb_neq in Hnz. rewrite Hnz.
    cbn [negb ensure session_add stdout session id_value].
    etrans; [apply IH|]. simpl. by rewrite <- app_assoc.
Qed.

End WeaponRecipes.

(** The recipes of a weapon go to the session as one row per item, those of
    "craft" before those of "upgrade", each with the id of the weapon, the id
    the item resolves to, the quantity and the kind of recipe; a recipe that
    is absent, no-value or empty gives no row. Nothing is printed. *)
Theorem weapon_recipes_rows `{Builtins} (data : Data) (entry : DataRow)
    (name : string) (craft upgrade : dict) (craft_ids upgrade_ids : list Z)
    (w : world) :
  row_name entry "en" = Ok name ->
  py_items (py_or (row_get entry "craft" (VDict [])) (VDict [])) = Ok craft ->
  py_items (py_or (row_get entry "upgrade" (VDict [])) (VDict [])) = Ok upgrade ->
  recipe_resolves data craft craft_ids ->
  recipe_resolves data upgrade upgrade_ids ->
  weapon_recipes data entry w =
  (Ok tt,
   World (stdout w)
     (session w ++
      zip_with (recipe_row_of (row_id entry) "craft") craft craft_ids ++
      zip_with (recipe_row_of (row_id entry) "upgrade") upgrade upgrade_ids)).
Proof.
  intros Hname Hcraft Hupgrade Hcraft_ids Hupgrade_ids.
  unfold weapon_recipes. cbn [for_each].
  rewrite M_bind_run, M_bind_lift, Hcraft.
  rewrite (weapon_recipe_items_rows data entry name "craft" craft craft_ids
             Hname Hcraft_ids).
  rewrite M_bind_run, M_bind_lift, Hupgrade.
  rewrite (weapon_recipe_items_rows data entry name "upgrade" upgrade upgrade_ids
             Hname Hupgrade_ids).
  simpl. by rewrite <- app_assoc.
Qed.

(** The theorem at a weapon crafted from two items, whose "upgrade" is
    no-value. *)
Lemma weapon_recipes_rows_witness :
  weapon_recipes (H := plain_repr) ore_data iron_blade (World [] []) =
  (Ok tt,
   World []
     [recipe_row_of 1 "craft" ("Iron Ore", VNum 2) 11;
      recipe_row_of 1 "craft" ("Machalite Ore", VNum 1) 12]).
Proof.
  apply (weapon_recipes_rows (H := plain_repr) ore_data iron_blade "Iron Blade"
           [("Iron Ore", VNum 2); ("Machalite Ore", VNum 1)] [] [11%Z; 12%Z] []
           (World [] [])).
  - reflexivity.
  - reflexivity.
  - reflexivity.
  - repeat constructor; done.
  - constructor.
Defined.

(** ** load_quests: when it returns *)

Section LoadQuestsReadable.
Context `{Assets}.
Local Arguments getindex : simpl never.
Local Arguments getitem : simpl never.
Local Arguments is_placeholder_name : simpl never.

Lemma load_quest_at_readable (path : Path) :
  is_ok (load_quest_at rem_base_path path) = quest_readable path.
Proof.
  unfold load_quest_at, quest_readable, english_name, quest_name_table.
  destruct (load_text _) as [quest_text|]; simpl; [|done].
  destruct (getindex (VList quest_text) 0) as [table|]; simpl; [|done].
  destruct (getitem table "en") as [en|]; simpl; [|done].
  destruct (is_placeholder_name en); [done|].
  destruct (load_quest path) as [bin|]; simpl; [|done].
  fold (existing_rem_files bin).
  by destruct (map_exc read_rem_file (existing_rem_files bin)).
Qed.

Lemma load_quests_from_readable (files : list Path) :
  forall quests,
    is_ok (load_quests_from files quests) = forallb quest_readable files.
Proof.
  induction files as [|path files IH]; intros quests; [done|].
  unfold load_quests_from. simpl.
  rewrite <- load_quest_at_readable.
  destruct (load_quest_at rem_base_path path) as [[quest|]|]; simpl; [| |done];
    apply IH.
Qed.

End LoadQuestsReadable.

(** [load_quests] is all or nothing: it returns exactly when every discovered
    file can be read, that is, its text loads and has an English name and,
    unless the name is a placeholder, its binary and its existing reward
    files parse. The binary of a placeholder quest is never read, so it
    cannot make the load fail; one unreadable file makes it fail whatever
    the others are. *)
Theorem load_quests_returns_iff_readable `{Assets} :
  is_ok load_quests = forallb quest_readable quest_files.
Proof. apply load_quests_from_readable. Qed.

(** ** joindicts: merging a dict into itself *)

Lemma dict_set_same (d : dict) (k : string) (v : value) :
  dict_get d k = Some v -> dict_set d k v = d.
Proof.
  induction d as [|[k0 w] d IH]; simpl; [done|].
  destruct (String.eqb k0 k); [by intros [= ->]|]. intros Hg. by rewrite IH.
Qed.

Section JoindictsSelf.
Context `{Builtins}.
Local Arguments py_eq : simpl never.

Lemma py_eq_scalar_refl (v : value) :
  typecheck.is_scalar v = true -> py_eq v v = true.
Proof.
  destruct v as [ |b|n|s| | ]; try discriminate; intros _; unfold py_eq.
  - done.
  - by destruct b.
  - apply Z.eqb_refl.
  - apply String.eqb_refl.
Qed.

Lemma joindicts_into_self (v : value) :
  wf_value v -> list_free v = true ->
  forall d, v = VDict d -> forall prefix, joindicts_into v d prefix = Ok d.
Proof.
  induction v as [ | b | n | s | l _ | items IHd ] using value_nested_ind;
    intros Hwf Hlf d0 Heq prefix; try discriminate Heq.
  injection Heq as <-. rewrite joindicts_into_dict.
  inversion Hwf as [ | | | | |? Hnd Hnested]; subst.
  assert (forall sub,
             (forall k x, (k, x) ∈ sub -> dict_get items k = Some x) ->
             Forall (fun kv =>
                       wf_value kv.2 -> list_free kv.2 = true ->
                       forall d, kv.2 = VDict d ->
                       forall prefix, joindicts_into kv.2 d prefix = Ok d) sub ->
             Forall (fun kv => wf_value kv.2) sub ->
             forallb (fun kv => let '(_, x) := kv in list_free x) sub = true ->
             joindicts_loop prefix sub items = Ok items) as Hloop.
  { clear IHd Hnested Hlf Hwf.
    induction sub as [|[k x] sub IH]; intros Hget HP Hwf Hlf; [done|].
    apply Forall_cons in HP as [HPx HP]. apply Forall_cons in Hwf as [Hwfx Hwf].
    simpl in Hlf. apply andb_true_iff in Hlf as [Hlfx Hlf]. simpl in HPx, Hwfx.
    assert (joindicts_loop prefix sub items = Ok items) as Hrest.
    { apply IH; try done. intros k' x' Hin. apply Hget.
      by apply list_elem_of_further. }
    rewrite joindicts_loop_cons, (Hget k x) by apply list_elem_of_here.
    destruct x as [ |b|n|s|l|sub'].
    - by rewrite (py_eq_scalar_refl VNone).
    - by rewrite (py_eq_scalar_refl (VBool b)).
    - by rewrite (py_eq_scalar_refl (VNum n)).
    - by rewrite (py_eq_scalar_refl (VStr s)).
    - discriminate Hlfx.
    - rewrite (HPx Hwfx Hlfx sub' eq_refl). simpl.
      rewrite dict_set_same; [done|]. apply Hget, list_elem_of_here. }
  apply Hloop; try done.
  intros k x Hin. by apply dict_get_NoDup_elem.
Qed.

End JoindictsSelf.

(** Merging a dict into itself changes nothing when it holds no list, at any
    depth: every key collides, each nested dict is merged into itself and
    each scalar equals itself, so no error is raised and the dict comes back
    as it was. *)
Theorem joindicts_self_without_lists `{Builtins} (d : dict) (prefix : string) :
  wf_value (VDict d) -> list_free (VDict d) = true ->
  joindicts d [VDict d] prefix = Ok d.
Proof.
  intros Hwf Hlf. rewrite joindicts_single.
  by apply (joindicts_into_self (VDict d)).
Qed.

(** The theorem at an entry with a nested mapping of names. *)
Lemma joindicts_self_without_lists_witness :
  joindicts (H := plain_repr)
    [("id", VNum 1); ("name", VDict [("en", VStr "Potion"); ("fr", VNone)])]
    [VDict [("id", VNum 1); ("name", VDict [("en", VStr "Potion"); ("fr", VNone)])]]
    "" =
  Ok [("id", VNum 1); ("name", VDict [("en", VStr "Potion"); ("fr", VNone)])].
Proof.
  apply (joindicts_self_without_lists (H := plain_repr)).
  - apply wf_valueb_correct. vm_compute. reflexivity.
  - reflexivity.
Defined.

(** ** Builders that add one row per entry *)

Lemma for_each_rows_run {A} (l : list A) (f : A -> exc row) :
  forall w,
    match map_exc f l with
    | Ok rows =>
        for_each l (fun x => r ← lift (f x); session_add r) w =
        (Ok tt, World (stdout w) (session w ++ rows))
    | Raise e =>
        (for_each l (fun x => r ← lift (f x); session_add r) w).1 = Raise e /\
        stdout (for_each l (fun x => r ← lift (f x); session_add r) w).2 = stdout w
    end.
Proof.
  induction l as [|x l IH]; intros [out sess].
  - simpl. by rewrite app_nil_r.
  - cbn [for_each map_exc]. rewrite M_bind_run, M_bind_lift.
    destruct (f x) as [r|e]; [|done].
    unfold session_add at 1. cbn [stdout session].
    specialize (IH (World out (sess ++ [r]))).
    change (Ok r ≫= fun y => ys ← map_exc f l; Ok (y :: ys))
      with (ys ← map_exc f l; Ok (r :: ys)).
    destruct (map_exc f l) as [rows|e].
    + etrans; [apply IH|]. simpl. by rewrite <- app_assoc.
    + exact IH.
Qed.

Lemma adds_rows_of_loop {A} (l : list A) (f : A -> exc row) (line : string)
    (w : world) :
  adds_rows_of
    (for_each l (fun x => r ← lift (f x); session_add r) ≫= fun _ => print line)
    (map_exc f l) line w.
Proof.
  unfold adds_rows_of. rewrite M_bind_run.
  pose proof (for_each_rows_run l f w) as Hrun.
  destruct (map_exc f l) as [rows|e].
  - by rewrite Hrun.
  - destruct (for_each l _ w) as [[[]|e'] w']; simpl in *; [by destruct Hrun|done].
Qed.

(** Each of these builders does what building its rows one after the other
    does: the rows of the entries go to the session in the order of the map,
    then the progress line is printed; the first entry whose row cannot be
    built stops the builder with the exception of that row, before the
    progress line. [build_armor] adds the rows of all the armor sets before
    the row of the first armor. *)
Theorem builders_add_rows_in_order `{Builtins} (data : Data) (w : world) :
  adds_rows_of (build_monsters data)
    (map_exc (monster_row data) (monster_map data)) "Built Monsters" w /\
  adds_rows_of (build_skills data)
    (map_exc skill_row (skill_map data)) "Built Skills" w /\
  adds_rows_of (build_armor data)
    (sets ← map_exc armorset_row (armorset_map data);
     armors ← map_exc (armor_row data) (armor_map data);
     Ok (sets ++ armors)) "Built Armor" w /\
  adds_rows_of (build_decorations data)
    (map_exc (decoration_row data) (decoration_map data)) "Built Decorations" w /\
  adds_rows_of (build_charms data)
    (map_exc (charm_row data) (charm_map data)) "Built Charms" w.
Proof.
  split; [apply adds_rows_of_loop|].
  split; [apply adds_rows_of_loop|].
  split; [|split; apply adds_rows_of_loop].
  unfold adds_rows_of, build_armor. rewrite M_bind_run.
  pose proof (for_each_rows_run (armorset_map data) armorset_row w) as Hsets.
  destruct (map_exc armorset_row (armorset_map data)) as [sets|e].
  - rewrite Hsets.
    pose proof (adds_rows_of_loop (armor_map data) (armor_row data) "Built Armor"
                  (World (stdout w) (session w ++ sets))) as Harmors.
    unfold adds_rows_of in Harmors.
    change (Ok sets ≫= fun sets =>
              armors ← map_exc (armor_row data) (armor_map data); Ok (sets ++ armors))
      with (armors ← map_exc (armor_row data) (armor_map data); Ok (sets ++ armors)).
    destruct (map_exc (armor_row data) (armor_map data)) as [armors|e].
    + etrans; [apply Harmors|]. simpl. by rewrite <- app_assoc.
    + exact Harmors.
  - destruct (for_each (armorset_map data) _ w) as [[[]|e'] w']; simpl in *;
      [by destruct Hsets|done].
Qed.

(** ** The attributes of a weapon *)

Lemma get_attr_set_attr_ne (r : row) (name name' : string) (v : value) :
  name <> name' -> get_attr (set_attr r name v) name' = get_attr r name'.
Proof. intros Hne. destruct r. by apply dict_get_set_ne. Qed.

Lemma craft_recipe_truthy (entry : DataRow) (craft : dict) :
  py_items (py_or (row_get entry "craft" (VDict [])) (VDict [])) = Ok craft ->
  truthy (row_get entry "craft" (VBool false)) =
  match craft with [] => false | _ => true end.
Proof.
  unfold row_get, dict_get_default, py_or.
  destruct (dict_get (row_data entry) "craft") as [v|]; [|by intros [= <-]].
  destruct (truthy v) eqn:Hv.
  - destruct v as [ | | | | |d]; try discriminate. intros [= <-]. symmetry. exact Hv.
  - by intros [= <-].
Qed.

(** A weapon row is marked craftable exactly when the weapon has a "craft"
    recipe with at least one item, which is when [build_weapons] adds craft
    recipe rows for it; and the three attributes that only some weapons have
    are no-value when the entry lacks them. *)
Theorem weapon_craftable_iff_craft_recipe (all_final : gset Z) (entry : DataRow)
    (weapon weapon' : row) (craft : dict) :
  weapon_attributes all_final entry weapon = Ok weapon' ->
  py_items (py_or (row_get entry "craft" (VDict [])) (VDict [])) = Ok craft ->
  get_attr weapon' "craftable" =
    Some (VBool (match craft with [] => false | _ => true end)) /\
  Forall (fun name =>
            get_attr weapon' name = Some (row_get entry name VNone))
    ["glaive_boost_type"; "deviation"; "special_ammo"].
Proof.
  unfold weapon_attributes. intros Hrun Hcraft.
  repeat match type of Hrun with
         | (?m ≫= _) = Ok _ =>
             destruct m eqn:?; simpl in Hrun; [|discriminate Hrun]
         end.
  injection Hrun as <-. split.
  - rewrite get_attr_set_attr_ne by done.
    rewrite get_attr_set_attr. by rewrite (craft_recipe_truthy entry craft).
  - repeat (apply Forall_cons; split); [| | |by constructor];
      repeat (rewrite get_attr_set_attr_ne by done); apply get_attr_set_attr.
Qed.

(** The theorem at a long sword crafted from one item. *)
Lemma weapon_craftable_iff_craft_recipe_witness :
  exists weapon',
    weapon_attributes {[1%Z]} iron_katana (Row "Weapon" [("id", VNum 1)] []) =
      Ok weapon' /\
    get_attr weapon' "craftable" = Some (VBool true) /\
    get_attr weapon' "deviation" = Some VNone.
Proof.
  eexists. split; [reflexivity|].
  destruct (weapon_craftable_iff_craft_recipe {[1%Z]} iron_katana
              (Row "Weapon" [("id", VNum 1)] []) _ [("Iron Ore", VNum 1)]
              eq_refl eq_refl) as [Hcraftable Hoptional].
  split; [exact Hcraftable|].
  exact (Forall_inv (Forall_inv_tail Hoptional)).
Defined.
